(** * Attendance management server: commit and reporting core

    A shallow embedding of the request handlers of [server.js] that record
    attendance and compute reports, together with the relational store of
    [schema.sql] they run against.

    Modelling boundary.
    - Request values are JavaScript values.  A number [Number n] stands for
      the integer [n]; the numbers of the code are doubles, which hold the
      integers up to 2^53 exactly and are printed in plain decimal digits
      below 10^21, and on those [parseInt], [String] and [toLowerCase]
      follow ECMAScript.  Strings are ASCII strings.  Beyond 2^53 the code
      rounds where the model does not; every such number is beyond INTEGER
      and the statements of the handlers refuse it either way.
    - The store is the set of tables of the schema, each a list of rows.
      SQL statements are given their relational meaning over [Z].  A
      statement fails, and the [catch] branch of its handler answers 500,
      where a parameter is no INTEGER: a text the store cannot read as one,
      or a number beyond the range of the type.
    - The collation of [ORDER BY st.name] and the store's reading of a text
      parameter as an INTEGER are parameters of the queries that use them.
    - [CURRENT_TIMESTAMP] is the start time of the transaction and is an
      argument of the handler. *)

From Stdlib Require Import ZArith List Bool String Ascii Lia Permutation Sorted.
Import ListNotations.
Local Open Scope string_scope.
Local Open Scope list_scope.
Local Open Scope Z_scope.

(** ** JavaScript values and the built-ins the handlers use *)

Module Js.

Inductive value : Type :=
| Undefined
| Null
| Boolean (b : bool)
| Number (n : Z)
| Str (s : string).

(** Decimal digits of a non-negative integer, most significant first.  The
    fuel bounds the number of digits. *)
Definition digit_char (d : Z) : ascii := ascii_of_nat (48 + Z.to_nat d).

Fixpoint digits_fuel (fuel : nat) (n : Z) (acc : string) : string :=
  match fuel with
  | O => acc
  | S fuel' =>
      let acc' := String (digit_char (n mod 10)) acc in
      if n / 10 =? 0 then acc' else digits_fuel fuel' (n / 10) acc'
  end.

Definition digits (n : Z) : string :=
  digits_fuel (S (Z.to_nat (Z.log2 n))) n "".

(** [Number.prototype.toString] on integers. *)
Definition number_to_string (n : Z) : string :=
  if n <? 0 then String "-" (digits (- n)) else digits n.

(** [String(v)]. *)
Definition to_string (v : value) : string :=
  match v with
  | Undefined => "undefined"
  | Null => "null"
  | Boolean true => "true"
  | Boolean false => "false"
  | Number n => number_to_string n
  | Str s => s
  end.

(** [!!v]. *)
Definition truthy (v : value) : bool :=
  match v with
  | Undefined | Null => false
  | Boolean b => b
  | Number n => negb (n =? 0)
  | Str s => negb (String.eqb s "")
  end.

Definition is_digit (c : ascii) : bool :=
  let n := nat_of_ascii c in (48 <=? n)%nat && (n <=? 57)%nat.

Definition digit_val (c : ascii) : Z := Z.of_nat (nat_of_ascii c) - 48.

Definition is_white_space (c : ascii) : bool :=
  let n := nat_of_ascii c in
  ((9 <=? n)%nat && (n <=? 13)%nat) || (n =? 32)%nat.

Fixpoint skip_white_space (s : string) : string :=
  match s with
  | String c s' => if is_white_space c then skip_white_space s' else s
  | EmptyString => s
  end.

(** Value of the longest prefix of decimal digits, read left to right. *)
Fixpoint parse_digits (acc : Z) (s : string) : Z :=
  match s with
  | String c s' =>
      if is_digit c then parse_digits (10 * acc + digit_val c) s' else acc
  | EmptyString => acc
  end.

(** [parseInt(s, 10)] on a string; [None] is [NaN]. *)
Definition parseInt_string (s : string) : option Z :=
  let s1 := skip_white_space s in
  let '(sign, s2) :=
    match s1 with
    | String "-" r => (-1, r)
    | String "+" r => (1, r)
    | _ => (1, s1)
    end in
  match s2 with
  | String c _ => if is_digit c then Some (sign * parse_digits 0 s2) else None
  | EmptyString => None
  end.

(** [parseInt(v, 10)]: the argument is first converted with [String]. *)
Definition parseInt (v : value) : option Z := parseInt_string (to_string v).

Definition lower_char (c : ascii) : ascii :=
  let n := nat_of_ascii c in
  if (65 <=? n)%nat && (n <=? 90)%nat then ascii_of_nat (n + 32) else c.

(** [String.prototype.toLowerCase]. *)
Fixpoint toLowerCase (s : string) : string :=
  match s with
  | String c s' => String (lower_char c) (toLowerCase s')
  | EmptyString => EmptyString
  end.

(** [Number.MAX_SAFE_INTEGER], 2^53 - 1: up to it every integer is a
    double and [parseInt] is exact. *)
Definition max_safe_integer : Z := 9007199254740991.

End Js.

(** ** The relational store ([schema.sql]) *)

Module Store.

(** Columns carry the aliases the queries of [server.js] give their tables:
    [c] classes, [st] students, [sess] sessions, [a] attendance. *)
Record class_row : Type := {
  c_id : Z;
  c_name : string;
  c_description : option string
}.

Record student_row : Type := {
  st_id : Z;
  st_name : string;
  st_roll_number : option string;
  st_class_id : Z
}.

Record session_row : Type := {
  sess_id : Z;
  sess_class_id : Z;
  sess_date : Z;               (* DATE, as a day number *)
  sess_topic : option string
}.

Record attendance_row : Type := {
  a_id : Z;
  a_session_id : Z;
  a_student_id : Z;
  a_status : string;
  a_marked_at : Z              (* TIMESTAMP *)
}.

Record t : Type := {
  classes : list class_row;
  students : list student_row;
  sessions : list session_row;
  attendance : list attendance_row;
  attendance_id_seq : Z        (* last value of the SERIAL sequence *)
}.

End Store.
Import Store.

(** ** Relational operators *)

Module Sql.

Section Operators.
Context {A B K : Type}.

Definition inner_join (on : A -> B -> bool) (l : list A) (r : list B)
  : list (A * B) :=
  flat_map (fun x => map (pair x) (filter (on x) r)) l.

(** A left row without a partner is kept once, padded with NULL. *)
Definition left_join (on : A -> B -> bool) (l : list A) (r : list B)
  : list (A * option B) :=
  flat_map
    (fun x =>
       match filter (on x) r with
       | [] => [(x, None)]
       | ms => map (fun y => (x, Some y)) ms
       end) l.

(** Keeps the first occurrence of every value. *)
Fixpoint distinct (eqb : K -> K -> bool) (l : list K) : list K :=
  match l with
  | [] => []
  | k :: l' => k :: filter (fun k' => negb (eqb k k')) (distinct eqb l')
  end.

Definition group_by (eqb : K -> K -> bool) (key : A -> K) (rows : list A)
  : list (K * list A) :=
  map (fun k => (k, filter (fun r => eqb (key r) k) rows))
      (distinct eqb (map key rows)).

(** [ORDER BY]: a stable insertion sort; [leb x y] says that [x] may come
    before [y]. *)
Fixpoint insert_row (leb : A -> A -> bool) (x : A) (l : list A) : list A :=
  match l with
  | [] => [x]
  | y :: l' => if leb x y then x :: l else y :: insert_row leb x l'
  end.

Definition order_by (leb : A -> A -> bool) (rows : list A) : list A :=
  fold_right (insert_row leb) [] rows.
End Operators.

Fixpoint non_null {A : Type} (l : list (option A)) : list A :=
  match l with
  | [] => []
  | Some x :: l' => x :: non_null l'
  | None :: l' => non_null l'
  end.

(** [COUNT(e)] counts the rows where [e] is not NULL. *)
Definition count {A : Type} (l : list (option A)) : Z :=
  Z.of_nat (List.length (non_null l)).

(** [COUNT(DISTINCT e)] on an integer column. *)
Definition count_distinct (l : list (option Z)) : Z :=
  Z.of_nat (List.length (distinct Z.eqb (non_null l))).

(** [SUM(e)] over a group (groups are never empty). *)
Definition sum (l : list Z) : Z := fold_right Z.add 0 l.

End Sql.

(** ** Principals, responses and the middleware *)

(** The [user] object a login session carries. *)
Record user : Type := {
  user_id : Z;
  username : string;
  role : string;
  user_class_id : option Z;
  user_student_id : option Z
}.

(** [res.status(code).json({ error })] or a successful answer with its
    body. *)
Inductive response (A : Type) : Type :=
| Reply (status : Z) (body : A)
| Error (status : Z) (error : string).
Arguments Reply {A} status body.
Arguments Error {A} status error.

(** [!user.student_id]. *)
Definition no_student_id (u : user) : bool :=
  match user_student_id u with
  | Some n => n =? 0
  | None => true
  end.

(** [String(user.student_id)]. *)
Definition student_id_string (u : user) : string :=
  match user_student_id u with
  | Some n => Js.number_to_string n
  | None => "null"
  end.

(** [requireAuth] and [requireRole(...roles)]; [deny] sends the error
    response, [next] is the rest of the route. *)
Definition requireAuth {R : Type} (req_user : option user)
  (deny : Z -> string -> R) (next : user -> R) : R :=
  match req_user with
  | None => deny 401 "Unauthorized"
  | Some u => next u
  end.

Definition includes (l : list string) (s : string) : bool :=
  existsb (String.eqb s) l.

Definition requireRole {R : Type} (roles : list string) (u : user)
  (deny : Z -> string -> R) (next : user -> R) : R :=
  if includes roles (role u) then next u else deny 403 "Forbidden".

(** ** A database client with a transaction *)

Record client : Type := {
  db : Store.t;
  snapshot : option Store.t     (* the tables at BEGIN, while one is open *)
}.

Definition Tx (A : Type) : Type := client -> A * client.

Definition ret {A : Type} (x : A) : Tx A := fun c => (x, c).

Definition bind {A B : Type} (m : Tx A) (k : A -> Tx B) : Tx B :=
  fun c => let (x, c') := m c in k x c'.

Declare Scope tx_scope.
Delimit Scope tx_scope with tx.
Notation "x <- m ;; k" := (bind m (fun x => k))
  (at level 100, m at next level, right associativity) : tx_scope.
Notation "m ;; k" := (bind m (fun _ => k))
  (at level 100, right associativity) : tx_scope.

Definition BEGIN : Tx unit :=
  fun c => (tt, {| db := db c; snapshot := Some (db c) |}).

(** Tables go back to the snapshot; a sequence never goes back. *)
Definition restore (saved current : Store.t) : Store.t :=
  {| classes := classes saved;
     students := students saved;
     sessions := sessions saved;
     attendance := attendance saved;
     attendance_id_seq := attendance_id_seq current |}.

Definition ROLLBACK : Tx unit :=
  fun c =>
    (tt, {| db := match snapshot c with
                  | Some saved => restore saved (db c)
                  | None => db c
                  end;
            snapshot := None |}).

Definition COMMIT : Tx unit :=
  fun c => (tt, {| db := db c; snapshot := None |}).

(** A [SELECT]. *)
Definition query {A : Type} (q : Store.t -> A) : Tx A :=
  fun c => (q (db c), c).

(** A statement that writes. *)
Definition execute (w : Store.t -> Store.t) : Tx unit :=
  fun c => (tt, {| db := w (db c); snapshot := snapshot c |}).

(** [for (const x of l) await body(x)]. *)
Fixpoint for_each {A : Type} (l : list A) (body : A -> Tx unit) : Tx unit :=
  match l with
  | [] => ret tt
  | x :: l' => bind (body x) (fun _ => for_each l' body)
  end.

(** [db.connect()] ... [client.release()] around a handler body. *)
Definition with_client {A : Type} (body : Tx A) (s : Store.t) : A * Store.t :=
  let (x, c) := body {| db := s; snapshot := None |} in (x, db c).

(** ** POST /api/attendance *)

(** One element of [records] in the request body: an object, with each of
    the two fields present or [undefined]; a number, string or boolean in
    its place reads as an object without the two fields.  An element that
    is [null], on which the handler throws, is outside the model. *)
Record attendance_record : Type := {
  rec_student_id : Js.value;
  rec_status : Js.value
}.

Definition validStatuses : list string := ["present"; "absent"].

Definition double_quote : string := String (ascii_of_nat 34) "".

Definition invalid_status_message : string :=
  "Invalid status values. Must be " ++ double_quote ++ "present" ++ double_quote
  ++ " or " ++ double_quote ++ "absent" ++ double_quote.

(** [!isNaN(id) && id > 0]. *)
Definition valid_id (id : option Z) : bool :=
  match id with
  | Some n => 0 <? n
  | None => false
  end.

(** The range of the INTEGER type of the id columns. *)
Definition int4_max : Z := 2147483647.

Definition int4 (n : Z) : bool := (- 2147483648 <=? n) && (n <=? int4_max).

(** A number sent as the parameter that a statement compares with an
    INTEGER column holding [column]: the store reads the parameter as an
    INTEGER and the statement fails when it is beyond the range of the
    type.  The ids in the tables are INTEGER values; the model keeps them
    in [Z] without their range, and takes a number that is stored in the
    column as one within the type. *)
Definition int4_param (column : list Z) (n : Z) : bool :=
  int4 n || existsb (Z.eqb n) column.

(** The rows of [SELECT class_id FROM sessions WHERE id = ?]. *)
Definition select_session_class (id : Z) (s : Store.t) : list Z :=
  map sess_class_id (filter (fun sess => sess_id sess =? id) (sessions s)).

(** The rows of [SELECT id FROM students WHERE id IN (...) AND class_id = ?]. *)
Definition select_students_in_class (ids : list Z) (classId : Z) (s : Store.t)
  : list Z :=
  map st_id
    (filter (fun st => existsb (Z.eqb (st_id st)) ids && (st_class_id st =? classId))
            (students s)).

(** The two statements as the handler runs them, with numbers as
    parameters: [None] when the statement fails and the handler's [catch]
    takes over.  The class id of the second statement was read from the
    sessions table. *)
Definition query_session_class (id : Z) (s : Store.t) : option (list Z) :=
  if int4_param (map sess_id (sessions s)) id
  then Some (select_session_class id s)
  else None.

Definition query_students_in_class (ids : list Z) (classId : Z) (s : Store.t)
  : option (list Z) :=
  if forallb (int4_param (map st_id (students s))) ids
  then Some (select_students_in_class ids classId s)
  else None.

Definition same_key (sessionId studentId : Z) (a : attendance_row) : bool :=
  (a_session_id a =? sessionId) && (a_student_id a =? studentId).

Definition set_status (status : string) (a : attendance_row) : attendance_row :=
  {| a_id := a_id a;
     a_session_id := a_session_id a;
     a_student_id := a_student_id a;
     a_status := status;
     a_marked_at := a_marked_at a |}.

(** [INSERT INTO attendance (session_id, student_id, status, marked_at)
     VALUES ($1, $2, $3, CURRENT_TIMESTAMP)
     ON CONFLICT(session_id, student_id) DO UPDATE SET status = EXCLUDED.status].
    The id of the proposed row is drawn from the sequence before the
    conflict is seen. *)
Definition upsertSql (now sessionId studentId : Z) (status : string)
  (s : Store.t) : Store.t :=
  let id := attendance_id_seq s + 1 in
  {| classes := classes s;
     students := students s;
     sessions := sessions s;
     attendance :=
       if existsb (same_key sessionId studentId) (attendance s)
       then map (fun a => if same_key sessionId studentId a
                          then set_status status a else a) (attendance s)
       else attendance s ++
            [{| a_id := id;
                a_session_id := sessionId;
                a_student_id := studentId;
                a_status := status;
                a_marked_at := now |}];
     attendance_id_seq := id |}.

Definition record_status (r : attendance_record) : string :=
  Js.toLowerCase (Js.to_string (rec_status r)).

Local Open Scope tx_scope.

(** [catch (err) { await client.query('ROLLBACK'); return handleDbError(...) }]:
    what the handler does when a statement fails. *)
Definition catch_error : Tx (response string) :=
  ROLLBACK ;; ret (Error 500 "Database error").

(** The body of the handler between [db.connect()] and [client.release()];
    [records] is known to be an array. *)
Definition save_attendance (now sessionIdInt : Z) (records : list attendance_record)
  : Tx (response string) :=
  BEGIN ;;
  sessionResult <- query (query_session_class sessionIdInt) ;;
  match sessionResult with
  | None => catch_error
  | Some [] =>
      ROLLBACK ;; ret (Error 400 "Invalid session_id")
  | Some (sessionClassId :: _) =>
      let studentIds :=
        Sql.non_null
          (filter valid_id (map (fun r => Js.parseInt (rec_student_id r)) records)) in
      if (List.length studentIds =? 0)%nat then
        ROLLBACK ;; ret (Error 400 "No valid student_ids provided")
      else
        let invalidRecords :=
          filter (fun r => negb (includes validStatuses (record_status r))) records in
        if (0 <? List.length invalidRecords)%nat then
          ROLLBACK ;;
          ret (Error 400 invalid_status_message)
        else
          checkResult <- query (query_students_in_class studentIds sessionClassId) ;;
          match checkResult with
          | None => catch_error
          | Some checkResult =>
          if negb (List.length checkResult =? List.length studentIds)%nat then
            ROLLBACK ;;
            ret (Error 400 "Some students do not belong to this session's class")
          else
            let validRecords :=
              filter (fun rec =>
                        valid_id (Js.parseInt (rec_student_id rec))
                        && includes validStatuses (record_status rec)) records in
            if (List.length validRecords =? 0)%nat then
              ROLLBACK ;; ret (Error 400 "No valid records to save")
            else
              for_each validRecords
                (fun rec =>
                   match Js.parseInt (rec_student_id rec) with
                   | Some studentId =>
                       execute (upsertSql now sessionIdInt studentId (record_status rec))
                   | None => ret tt   (* not taken: [rec] passed the filter *)
                   end) ;;
              COMMIT ;;
              ret (Reply 201 "Attendance saved successfully")
          end
  end.

Local Close Scope tx_scope.

(** The handler behind [requireAuth, requireRole('teacher')].  [records] is
    [None] when the body field is not an array. *)
Definition commitAttendance (now : Z) (session_id : Js.value)
  (records : option (list attendance_record)) (s : Store.t)
  : response string * Store.t :=
  match records with
  | None => (Error 400 "session_id and an array of records are required", s)
  | Some records =>
      if negb (Js.truthy session_id) || (List.length records =? 0)%nat then
        (Error 400 "session_id and an array of records are required", s)
      else
        match Js.parseInt session_id with
        | None => (Error 400 "Invalid session_id", s)
        | Some sessionIdInt =>
            if sessionIdInt <=? 0 then (Error 400 "Invalid session_id", s)
            else with_client (save_attendance now sessionIdInt records) s
        end
  end.

Definition post_api_attendance (req_user : option user) (now : Z)
  (session_id : Js.value) (records : option (list attendance_record))
  (s : Store.t) : response string * Store.t :=
  let deny code msg := (Error code msg, s) in
  requireAuth req_user deny (fun u =>
  requireRole ["teacher"] u deny (fun _ =>
  commitAttendance now session_id records s)).

(** A sequence of marking requests, each with the time of its transaction. *)
Record commit_call : Type := {
  call_now : Z;
  call_session_id : Js.value;
  call_records : option (list attendance_record)
}.

Definition run_call (c : commit_call) (s : Store.t) : Store.t :=
  snd (commitAttendance (call_now c) (call_session_id c) (call_records c) s).

Definition run_calls (cs : list commit_call) (s : Store.t) : Store.t :=
  fold_left (fun s c => run_call c s) cs s.

(** ** Reports *)

(** A row of the student report. *)
Record report_row : Type := {
  status : string;
  marked_at : Z;
  session_id : Z;
  date : Z;
  topic : option string;
  class_id : Z;
  class_name : string
}.

(** A row of the class summary. *)
Record summary_row : Type := {
  student_id : Z;
  student_name : string;
  roll_number : option string;
  total : Z;
  presents : Z;
  absents : Z
}.

(** What an export hands to the formatter: [sendXPdf(res, rows, {filename})]
    or [sendXCsv(res, rows, label)]. *)
Inductive attachment (R : Type) : Type :=
| Pdf (filename : string) (rows : list R)
| Csv (label : string) (rows : list R).
Arguments Pdf {R} filename rows.
Arguments Csv {R} label rows.

(** [ORDER BY sess.date DESC, sess.id DESC]. *)
Definition date_desc_id_desc (r1 r2 : report_row) : bool :=
  (date r2 <? date r1) || ((date r1 =? date r2) && (session_id r2 <=? session_id r1)).

(** [SELECT a.status, a.marked_at, sess.id AS session_id, sess.date,
            sess.topic, c.id AS class_id, c.name AS class_name
     FROM attendance a
     JOIN sessions sess ON a.session_id = sess.id
     JOIN classes c ON sess.class_id = c.id
     WHERE a.student_id = ?
     ORDER BY sess.date DESC, sess.id DESC]. *)
Definition student_report_rows (studentId : Z) (s : Store.t) : list report_row :=
  let a_sess :=
    Sql.inner_join (fun a sess => a_session_id a =? sess_id sess)
                   (attendance s) (sessions s) in
  let a_sess_c :=
    Sql.inner_join (fun (x : attendance_row * session_row) c =>
                      sess_class_id (snd x) =? c_id c)
                   a_sess (classes s) in
  let selected :=
    filter (fun x : attendance_row * session_row * class_row =>
              a_student_id (fst (fst x)) =? studentId) a_sess_c in
  map (fun x : attendance_row * session_row * class_row =>
         let a := fst (fst x) in
         let sess := snd (fst x) in
         let c := snd x in
         {| status := a_status a;
            marked_at := a_marked_at a;
            session_id := sess_id sess;
            date := sess_date sess;
            topic := sess_topic sess;
            class_id := c_id c;
            class_name := c_name c |}) selected.

Definition studentReport (studentId : Z) (s : Store.t) : list report_row :=
  Sql.order_by date_desc_id_desc (student_report_rows studentId s).

(** [CASE WHEN a.status = 'present' THEN 1 ELSE 0 END]; a NULL status is
    not equal to anything. *)
Definition present_flag (a : option attendance_row) : Z :=
  match a with
  | Some a => if String.eqb (a_status a) "present" then 1 else 0
  | None => 0
  end.

Definition option_eqb {A : Type} (eqb : A -> A -> bool) (x y : option A) : bool :=
  match x, y with
  | Some a, Some b => eqb a b
  | None, None => true
  | _, _ => false
  end.

(** [GROUP BY st.id, st.name, st.roll_number]. *)
Definition student_key : Type := Z * string * option string.

Definition key_of (st : student_row) : student_key :=
  (st_id st, st_name st, st_roll_number st).

Definition student_key_eqb (k1 k2 : student_key) : bool :=
  (fst (fst k1) =? fst (fst k2))
  && String.eqb (snd (fst k1)) (snd (fst k2))
  && option_eqb String.eqb (snd k1) (snd k2).

(** [ON a.student_id = st.id]. *)
Definition on_attendance_of_student (st : student_row) (a : attendance_row) : bool :=
  a_student_id a =? st_id st.

(** [ON sess.id = a.session_id AND sess.class_id = st.class_id]; with a NULL
    attendance row the condition is not true. *)
Definition on_session_of_class (x : student_row * option attendance_row)
  (sess : session_row) : bool :=
  match snd x with
  | Some a => (sess_id sess =? a_session_id a)
              && (sess_class_id sess =? st_class_id (fst x))
  | None => false
  end.

(** [ON sess.class_id = st.class_id]. *)
Definition on_session_of_student_class (st : student_row) (sess : session_row)
  : bool :=
  sess_class_id sess =? st_class_id st.

(** [ON a.student_id = st.id AND a.session_id = sess.id]; with a NULL session
    the condition is not true. *)
Definition on_attendance_in_session (x : student_row * option session_row)
  (a : attendance_row) : bool :=
  match snd x with
  | Some sess => (a_student_id a =? st_id (fst x))
                 && (a_session_id a =? sess_id sess)
  | None => false
  end.

Section Adapter.
(** The collation [ORDER BY st.name] compares names with, and the store's
    conversion of a text parameter to INTEGER ([None]: the statement
    fails). *)
Variable name_leb : string -> string -> bool.
Variable int4in : string -> option Z.

Definition by_student_name (r1 r2 : summary_row) : bool :=
  name_leb (student_name r1) (student_name r2).

(** The query of GET /api/reports/summary-by-class:
    [SELECT st.id AS student_id, st.name AS student_name, st.roll_number,
            COUNT(DISTINCT a.session_id) AS total,
            SUM(CASE WHEN a.status = 'present' THEN 1 ELSE 0 END) AS presents,
            (COUNT(DISTINCT a.session_id)
             - SUM(CASE WHEN a.status = 'present' THEN 1 ELSE 0 END)) AS absents
     FROM students st
     LEFT JOIN attendance a ON a.student_id = st.id
     LEFT JOIN sessions sess ON sess.id = a.session_id
                            AND sess.class_id = st.class_id
     WHERE st.class_id = ?
     GROUP BY st.id, st.name, st.roll_number
     ORDER BY st.name]. *)
Definition summary_joined (classId : Z) (s : Store.t)
  : list (student_row * option attendance_row * option session_row) :=
  let st_a := Sql.left_join on_attendance_of_student (students s) (attendance s) in
  let st_a_sess := Sql.left_join on_session_of_class st_a (sessions s) in
  filter (fun x : student_row * option attendance_row * option session_row =>
            st_class_id (fst (fst x)) =? classId) st_a_sess.

Definition summary_select
  (g : student_key * list (student_row * option attendance_row * option session_row))
  : summary_row :=
  let k := fst g in
  let rows := snd g in
  let count_sessions :=
    Sql.count_distinct (map (fun x => option_map a_session_id (snd (fst x))) rows) in
  let sum_present := Sql.sum (map (fun x => present_flag (snd (fst x))) rows) in
  {| student_id := fst (fst k);
     student_name := snd (fst k);
     roll_number := snd k;
     total := count_sessions;
     presents := sum_present;
     absents := count_sessions - sum_present |}.

Definition classSummary (classId : Z) (s : Store.t) : list summary_row :=
  Sql.order_by by_student_name
    (map summary_select
         (Sql.group_by student_key_eqb (fun x => key_of (fst (fst x)))
                       (summary_joined classId s))).

(** The query of GET /api/reports/summary-by-class/export:
    [SELECT st.id AS student_id, st.name AS student_name, st.roll_number,
            SUM(CASE WHEN a.status = 'present' THEN 1 ELSE 0 END) AS presents,
            COUNT(sess.id) AS total,
            (COUNT(sess.id)
             - SUM(CASE WHEN a.status = 'present' THEN 1 ELSE 0 END)) AS absents
     FROM students st
     LEFT JOIN sessions sess ON sess.class_id = st.class_id
     LEFT JOIN attendance a ON a.student_id = st.id AND a.session_id = sess.id
     WHERE st.class_id = ?
     GROUP BY st.id, st.name, st.roll_number
     ORDER BY st.name]. *)
Definition export_joined (classId : Z) (s : Store.t)
  : list (student_row * option session_row * option attendance_row) :=
  let st_sess := Sql.left_join on_session_of_student_class (students s) (sessions s) in
  let st_sess_a := Sql.left_join on_attendance_in_session st_sess (attendance s) in
  filter (fun x : student_row * option session_row * option attendance_row =>
            st_class_id (fst (fst x)) =? classId) st_sess_a.

Definition export_select
  (g : student_key * list (student_row * option session_row * option attendance_row))
  : summary_row :=
  let k := fst g in
  let rows := snd g in
  let sum_present := Sql.sum (map (fun x => present_flag (snd x)) rows) in
  let count_sessions :=
    Sql.count (map (fun x => option_map sess_id (snd (fst x))) rows) in
  {| student_id := fst (fst k);
     student_name := snd (fst k);
     roll_number := snd k;
     total := count_sessions;
     presents := sum_present;
     absents := count_sessions - sum_present |}.

Definition classSummaryExport (classId : Z) (s : Store.t) : list summary_row :=
  Sql.order_by by_student_name
    (map export_select
         (Sql.group_by student_key_eqb (fun x => key_of (fst (fst x)))
                       (export_joined classId s))).

(** GET /api/reports/by-student.  The statement takes the parsed number
    as its parameter and fails when it is beyond INTEGER. *)
Definition get_api_reports_by_student (req_user : option user)
  (student_id : Js.value) (s : Store.t) : response (list report_row) :=
  requireAuth req_user Error (fun user =>
  if negb (Js.truthy student_id) then Error 400 "student_id is required"
  else
    match Js.parseInt student_id with
    | None => Error 400 "Invalid student_id"
    | Some studentIdInt =>
        if studentIdInt <=? 0 then Error 400 "Invalid student_id"
        else
          let runQuery :=
            if int4 studentIdInt then Reply 200 (studentReport studentIdInt s)
            else Error 500 "Database error" in
          if String.eqb (role user) "admin" then runQuery
          else if String.eqb (role user) "student" then
            if no_student_id user
               || negb (String.eqb (student_id_string user)
                                   (Js.number_to_string studentIdInt))
            then Error 403 "Forbidden: You can only view your own attendance"
            else runQuery
          else if String.eqb (role user) "teacher" then runQuery
          else Error 403 "Forbidden"
    end).

(** GET /api/reports/summary-by-class, with the parsed number as the
    parameter of its statement. *)
Definition get_api_reports_summary_by_class (req_user : option user)
  (class_id : Js.value) (s : Store.t) : response (list summary_row) :=
  requireAuth req_user Error (fun user =>
  if negb (Js.truthy class_id) then Error 400 "class_id is required"
  else
    match Js.parseInt class_id with
    | None => Error 400 "Invalid class_id"
    | Some classIdInt =>
        if classIdInt <=? 0 then Error 400 "Invalid class_id"
        else if String.eqb (role user) "student" then Error 403 "Forbidden"
        else if int4 classIdInt then Reply 200 (classSummary classIdInt s)
        else Error 500 "Database error"
    end).

(** [const { ..., format = 'csv' } = req.query]. *)
Definition format_or_default (format : Js.value) : Js.value :=
  match format with
  | Js.Undefined => Js.Str "csv"
  | _ => format
  end.

(** [format === 'pdf']. *)
Definition is_pdf (format : Js.value) : bool :=
  match format with
  | Js.Str f => String.eqb f "pdf"
  | _ => false
  end.

(** GET /api/reports/by-student/export *)
Definition get_api_reports_by_student_export (req_user : option user)
  (student_id format : Js.value) (s : Store.t)
  : response (attachment report_row) :=
  requireAuth req_user Error (fun user =>
  let format := format_or_default format in
  if negb (Js.truthy student_id) then Error 400 "student_id is required"
  else
    let runQuery :=
      match int4in (Js.to_string student_id) with
      | None => Error 500 "Database error"
      | Some id =>
          let rows := studentReport id s in
          if is_pdf format then
            Reply 200 (Pdf ("student-" ++ Js.to_string student_id ++ "-report.pdf") rows)
          else
            Reply 200 (Csv ("student-" ++ Js.to_string student_id ++ "-report") rows)
      end in
    if String.eqb (role user) "admin" then runQuery
    else if String.eqb (role user) "student" then
      if no_student_id user
         || negb (String.eqb (student_id_string user) (Js.to_string student_id))
      then Error 403 "Forbidden"
      else if Js.truthy format
              && negb (String.eqb (Js.toLowerCase (Js.to_string format)) "pdf")
      then Error 400 "Students can only download PDF reports."
      else runQuery
    else if String.eqb (role user) "teacher" then runQuery
    else Error 403 "Forbidden").

(** GET /api/reports/summary-by-class/export *)
Definition get_api_reports_summary_by_class_export (req_user : option user)
  (class_id format : Js.value) (s : Store.t)
  : response (attachment summary_row) :=
  requireAuth req_user Error (fun user =>
  let format := format_or_default format in
  if negb (Js.truthy class_id) then Error 400 "class_id is required"
  else if String.eqb (role user) "student" then Error 403 "Forbidden"
  else
    match int4in (Js.to_string class_id) with
    | None => Error 500 "Database error"
    | Some id =>
        let rows := classSummaryExport id s in
        if is_pdf format then
          Reply 200 (Pdf ("class-" ++ Js.to_string class_id ++ "-summary.pdf") rows)
        else
          Reply 200 (Csv ("class-" ++ Js.to_string class_id ++ "-summary") rows)
    end).
End Adapter.

(** ** Constraints of the schema and vocabulary of the statements *)

(** [PRIMARY KEY] of students and of sessions. *)
Definition primary_key_students (s : Store.t) : Prop :=
  NoDup (map st_id (students s)).

Definition primary_key_sessions (s : Store.t) : Prop :=
  NoDup (map sess_id (sessions s)).

(** [UNIQUE(session_id, student_id)] on attendance. *)
Definition attendance_key (a : attendance_row) : Z * Z :=
  (a_session_id a, a_student_id a).

Definition unique_attendance (s : Store.t) : Prop :=
  NoDup (map attendance_key (attendance s)).

(** The two [FOREIGN KEY]s of attendance. *)
Definition foreign_keys_attendance (s : Store.t) : Prop :=
  forall a, In a (attendance s) ->
    (exists sess, In sess (sessions s) /\ sess_id sess = a_session_id a)
    /\ (exists st, In st (students s) /\ st_id st = a_student_id a).

Record schema_ok (s : Store.t) : Prop := {
  pk_students : primary_key_students s;
  pk_sessions : primary_key_sessions s;
  uq_attendance : unique_attendance s;
  fk_attendance : foreign_keys_attendance s
}.

(** The cross-entity invariant the commit maintains: the student of an
    attendance row is a student of the class of its session. *)
Definition same_class (s : Store.t) : Prop :=
  forall a st sess,
    In a (attendance s) -> In st (students s) -> In sess (sessions s) ->
    st_id st = a_student_id a -> sess_id sess = a_session_id a ->
    st_class_id st = sess_class_id sess.

(** [studentId] names a student of class [classId]. *)
Definition in_class (s : Store.t) (classId studentId : Z) : Prop :=
  exists st, In st (students s) /\ st_id st = studentId /\ st_class_id st = classId.

(** The student ids of a batch that survive coercion, in request order. *)
Definition studentIds_of (records : list attendance_record) : list Z :=
  Sql.non_null
    (filter valid_id (map (fun r => Js.parseInt (rec_student_id r)) records)).

Definition validRecords_of (records : list attendance_record)
  : list attendance_record :=
  filter (fun rec =>
            valid_id (Js.parseInt (rec_student_id rec))
            && includes validStatuses (record_status rec)) records.

(** The session id of the request, or a student id that survives
    coercion, is beyond the INTEGER type of the id columns. *)
Definition beyond_integer (session_id : Js.value)
  (records : option (list attendance_record)) : Prop :=
  (exists sid, Js.parseInt session_id = Some sid /\ int4 sid = false)
  \/ (exists recs id,
        records = Some recs /\ In id (studentIds_of recs) /\ int4 id = false).


(** What one turn of the upsert loop writes. *)
Definition write_record (now sessionId : Z) (rec : attendance_record)
  (s : Store.t) : Store.t :=
  match Js.parseInt (rec_student_id rec) with
  | Some studentId => upsertSql now sessionId studentId (record_status rec) s
  | None => s
  end.

Definition write_records (now sessionId : Z) (records : list attendance_record)
  (s : Store.t) : Store.t :=
  fold_left (fun s rec => write_record now sessionId rec s) records s.

(** The attendance rows stored for a (session, student) pair. *)
Definition rows_of (sessionId studentId : Z) (s : Store.t) : list attendance_row :=
  filter (same_key sessionId studentId) (attendance s).

(** A call marks a student of a session with a status. *)
Definition marks (c : commit_call) (sessionId studentId : Z) (st : string) : Prop :=
  Js.parseInt (call_session_id c) = Some sessionId
  /\ exists records r,
       call_records c = Some records /\ In r records
       /\ Js.parseInt (rec_student_id r) = Some studentId /\ 0 < studentId
       /\ record_status r = st.

Definition succeeds (c : commit_call) (s : Store.t) : Prop :=
  fst (commitAttendance (call_now c) (call_session_id c) (call_records c) s)
  = Reply 201 "Attendance saved successfully".

(** The attendance rows of a student, and the summary they amount to. *)
Definition attendance_of (s : Store.t) (st : student_row) : list attendance_row :=
  filter (fun a => a_student_id a =? st_id st) (attendance s).

Definition is_present (a : attendance_row) : bool := String.eqb (a_status a) "present".

Definition students_of_class (classId : Z) (s : Store.t) : list student_row :=
  filter (fun st => st_class_id st =? classId) (students s).

(** The sessions of the student's class for which the student has an
    attendance record. *)
Definition marked_sessions (s : Store.t) (st : student_row) : list session_row :=
  filter (fun sess =>
            (sess_class_id sess =? st_class_id st)
            && existsb (fun a => (a_student_id a =? st_id st)
                                 && (a_session_id a =? sess_id sess))
                       (attendance s))
         (sessions s).

(** The right-hand side of a left join for one left row: the partners, or
    one NULL when there is none. *)
Definition pad {B : Type} (l : list B) : list (option B) :=
  match l with
  | [] => [None]
  | _ => map Some l
  end.

(** The joined rows of one student in the summary query. *)
Definition summary_group (s : Store.t) (st : student_row)
  : list (student_row * option attendance_row * option session_row) :=
  map (fun oa => ((st, oa), hd_error (filter (on_session_of_class (st, oa)) (sessions s))))
      (pad (attendance_of s st)).

Definition sessions_of_class (s : Store.t) (classId : Z) : list session_row :=
  filter (fun sess => sess_class_id sess =? classId) (sessions s).

(** The joined rows of one student in the export query. *)
Definition export_group (s : Store.t) (st : student_row)
  : list (student_row * option session_row * option attendance_row) :=
  map (fun osess =>
         ((st, osess),
          hd_error (filter (on_attendance_in_session (st, osess)) (attendance s))))
      (pad (filter (on_session_of_student_class st) (sessions s))).

Definition summary_of (s : Store.t) (st : student_row) : summary_row :=
  let n := Z.of_nat (List.length (attendance_of s st)) in
  let p := Z.of_nat (List.length (filter is_present (attendance_of s st))) in
  {| student_id := st_id st;
     student_name := st_name st;
     roll_number := st_roll_number st;
     total := n;
     presents := p;
     absents := n - p |}.

(** [x] may come before [y] in an [ORDER BY] with comparison [leb]. *)
Definition before {A : Type} (leb : A -> A -> bool) (x y : A) : Prop :=
  leb x y = true.

Definition starts_with_digit (s : string) : Prop :=
  exists c r, s = String c r /\ Js.is_digit c = true.

(** ** A small store: the seed rows of the schema and a few more *)

Module Demo.

Definition class12 : class_row :=
  {| c_id := 1; c_name := "Class 12";
     c_description := Some "Demo class for examples" |}.

Definition class11 : class_row :=
  {| c_id := 2; c_name := "Class 11"; c_description := None |}.

Definition aditya : student_row :=
  {| st_id := 1; st_name := "aditya"; st_roll_number := Some "123";
     st_class_id := 1 |}.

Definition bina : student_row :=
  {| st_id := 2; st_name := "bina"; st_roll_number := None; st_class_id := 2 |}.

Definition chetan : student_row :=
  {| st_id := 3; st_name := "chetan"; st_roll_number := Some "124";
     st_class_id := 1 |}.

(** A meeting of class 12 on 2024-01-10. *)
Definition session1 : session_row :=
  {| sess_id := 1; sess_class_id := 1; sess_date := 19732; sess_topic := None |}.

(** No attendance has been taken yet. *)
Definition store : Store.t :=
  {| classes := [class12; class11];
     students := [aditya; bina; chetan];
     sessions := [session1];
     attendance := [];
     attendance_id_seq := 0 |}.

Definition admin : user :=
  {| user_id := 1; username := "admin"; role := "admin";
     user_class_id := None; user_student_id := None |}.

Definition teacher1 : user :=
  {| user_id := 2; username := "teacher1"; role := "teacher";
     user_class_id := Some 1; user_student_id := None |}.

Definition student_aditya : user :=
  {| user_id := 3; username := "aditya"; role := "student";
     user_class_id := Some 1; user_student_id := Some 1 |}.

Definition mark (studentId : Z) (st : string) : attendance_record :=
  {| rec_student_id := Js.Number studentId; rec_status := Js.Str st |}.

(** A second meeting of class 12, the day after. *)
Definition session2 : session_row :=
  {| sess_id := 2; sess_class_id := 1; sess_date := 19733;
     sess_topic := Some "Revision" |}.

(** Attendance was taken in the first meeting and not in the second. *)
Definition marked : Store.t :=
  {| classes := [class12; class11];
     students := [aditya; bina; chetan];
     sessions := [session1; session2];
     attendance :=
       [ {| a_id := 1; a_session_id := 1; a_student_id := 1;
            a_status := "present"; a_marked_at := 1704880800 |};
         {| a_id := 2; a_session_id := 1; a_student_id := 3;
            a_status := "absent"; a_marked_at := 1704880800 |} ];
     attendance_id_seq := 2 |}.

End Demo.

(** [CHECK (status IN ('present','absent'))] on attendance. *)
Definition check_status (s : Store.t) : Prop :=
  forall a, In a (attendance s) -> a_status a = "present" \/ a_status a = "absent".

(** ** Login sessions ([sessions], [getUserFromRequest], [createSession]) *)

(** A row of the users table. *)
Record user_row : Type := {
  u_id : Z;
  u_username : string;
  u_password : string;
  u_role : string;
  u_class_id : option Z;
  u_student_id : option Z
}.

Module Sessions.

(** A value of the map: [{ user, expiresAt }]. *)
Record entry : Type := {
  entry_user : user;
  expiresAt : Z
}.

(** The [Map] from token to entry.  Only [get], [set], [has], [delete] and
    a sweep over all entries are used, so the map is its lookup function. *)
Definition t : Type := string -> option entry.

Definition empty : t := fun _ => None.

Definition set (token : string) (e : entry) (m : t) : t :=
  fun k => if String.eqb k token then Some e else m k.

Definition delete (token : string) (m : t) : t :=
  fun k => if String.eqb k token then None else m k.

(** [sessions.get(token)] for a request value: the keys are strings, any
    other value finds nothing. *)
Definition get (token : Js.value) (m : t) : option entry :=
  match token with
  | Js.Str k => m k
  | _ => None
  end.

Definition delete_value (token : Js.value) (m : t) : t :=
  match token with
  | Js.Str k => delete k m
  | _ => m
  end.

(** [session.expiresAt && session.expiresAt <= now]. *)
Definition expired (now : Z) (e : entry) : bool :=
  negb (expiresAt e =? 0) && (expiresAt e <=? now).

(** The hourly sweep: [for (const [token, session] of sessions.entries())
    if (session.expiresAt && session.expiresAt <= now) sessions.delete(token)]. *)
Definition cleanup (now : Z) (m : t) : t :=
  fun k =>
    match m k with
    | Some e => if expired now e then None else Some e
    | None => None
    end.

End Sessions.

(** [a || b] on request values. *)
Definition js_or (a b : Js.value) : Js.value := if Js.truthy a then a else b.

(** [getUserFromRequest(req)] at time [now]; the arguments are
    [req.headers['x-auth-token']] and [req.query.token].  The result is the
    user, or [None] for [null], and the map as the call leaves it. *)
Definition getUserFromRequest (now : Z) (header_token query_token : Js.value)
  (m : Sessions.t) : option user * Sessions.t :=
  let token := js_or header_token query_token in
  if negb (Js.truthy token) then (None, m)
  else
    match Sessions.get token m with
    | None => (None, m)
    | Some session =>
        if Sessions.expired now session
        then (None, Sessions.delete_value token m)
        else (Some (Sessions.entry_user session), m)
    end.

(** [x || null] on a nullable integer column. *)
Definition or_null (x : option Z) : option Z :=
  match x with
  | Some n => if n =? 0 then None else Some n
  | None => None
  end.

Definition safeUser (userRow : user_row) : user :=
  {| user_id := u_id userRow;
     username := u_username userRow;
     role := u_role userRow;
     user_class_id := or_null (u_class_id userRow);
     user_student_id := or_null (u_student_id userRow) |}.

(** [createSession(userRow)]: [token] is the value drawn from
    [crypto.randomBytes], [now] is [Date.now()] and [ttl] is SESSION_TTL_MS.
    The result is [{ token, user, expiresAt }] and the new map. *)
Definition createSession (token : string) (now ttl : Z) (userRow : user_row)
  (m : Sessions.t) : (string * user * Z) * Sessions.t :=
  let expiresAt := now + ttl in
  ((token, safeUser userRow, expiresAt),
   Sessions.set token
     {| Sessions.entry_user := safeUser userRow; Sessions.expiresAt := expiresAt |}
     m).

(** POST /api/logout behind [requireAuth]: [header_token] and [query_token]
    as in [getUserFromRequest]. *)
Definition post_api_logout (now : Z) (header_token query_token : Js.value)
  (m : Sessions.t) : response string * Sessions.t :=
  let (req_user, m1) := getUserFromRequest now header_token query_token m in
  requireAuth req_user (fun code msg => (Error code msg, m1)) (fun _ =>
  let token := js_or header_token query_token in
  if Js.truthy token
     && match Sessions.get token m1 with Some _ => true | None => false end
  then (Reply 200 "Logged out", Sessions.delete_value token m1)
  else (Reply 200 "Logged out", m1)).

(** GET /api/me behind [requireAuth]. *)
Definition get_api_me (now : Z) (header_token query_token : Js.value)
  (m : Sessions.t) : response user * Sessions.t :=
  let (req_user, m1) := getUserFromRequest now header_token query_token m in
  (requireAuth req_user Error (fun u => Reply 200 u), m1).

(** ** POST /api/login *)

(** The body of a successful login: [{ message, user, token, expiresAt }]. *)
Record login_reply : Type := {
  login_message : string;
  login_user : user;
  login_token : string;
  login_expiresAt : Z
}.

(** [SELECT id, username, role, class_id, student_id, password FROM users
     WHERE username = ?], first row. *)
Definition select_user (username : string) (users : list user_row)
  : option user_row :=
  hd_error (filter (fun u => String.eqb (u_username u) username) users).

(** [UPDATE users SET password = ? WHERE id = ?]. *)
Definition update_password (hashed : string) (id : Z) (users : list user_row)
  : list user_row :=
  map (fun u =>
         if u_id u =? id then
           {| u_id := u_id u; u_username := u_username u; u_password := hashed;
              u_role := u_role u; u_class_id := u_class_id u;
              u_student_id := u_student_id u |}
         else u) users.

(** [user.password.startsWith('$2b$') || user.password.startsWith('$2a$')]. *)
Definition is_hashed (password : string) : bool :=
  String.prefix "$2b$" password || String.prefix "$2a$" password.

Section Login.
(** The password library: [bcrypt.compare(data, hash)] and the value
    [bcrypt.hash(data, 10)] resolves to. *)
Variable bcrypt_compare : string -> string -> bool.
Variable bcrypt_hash : string -> string.

(** The handler; [token], [now] and [ttl] are what [createSession] draws and
    reads.  The result is the response, the users table and the session map. *)
Definition post_api_login (token : string) (now ttl : Z)
  (username password role : Js.value)
  (users : list user_row) (m : Sessions.t)
  : response login_reply * list user_row * Sessions.t :=
  if negb (Js.truthy username) || negb (Js.truthy password) || negb (Js.truthy role)
  then (Error 400 "Username, password, and role are required", users, m)
  else
    match select_user (Js.to_string username) users with
    | None => (Error 401 "Invalid username or password", users, m)
    | Some user =>
        let finish (passwordMatch : bool) (users' : list user_row) :=
          if negb passwordMatch
          then (Error 401 "Invalid username or password", users', m)
          else if negb (String.eqb (u_role user) (Js.to_string role))
          then (Error 400 "Incorrect role selected. Please choose the correct role.",
                users', m)
          else
            let '((token, sessionUser, expiresAt), m') :=
              createSession token now ttl user m in
            (Reply 200 {| login_message := "Login successful";
                          login_user := sessionUser;
                          login_token := token;
                          login_expiresAt := expiresAt |},
             users', m') in
        if is_hashed (u_password user) then
          match password with
          | Js.Str p => finish (bcrypt_compare p (u_password user)) users
          | _ => (Error 500 "Database error", users, m)  (* bcrypt rejects *)
          end
        else
          match password with
          | Js.Str p =>
              if String.eqb (u_password user) p
              then finish true (update_password (bcrypt_hash p) (u_id user) users)
              else finish false users
          | _ => finish false users
          end
    end.
End Login.

(** The seed accounts of the schema, and a stand-in for the password
    library to run the login on them. *)
Module DemoUsers.

Definition admin_row : user_row :=
  {| u_id := 1; u_username := "admin"; u_password := "admin123";
     u_role := "admin"; u_class_id := None; u_student_id := None |}.

Definition teacher_row : user_row :=
  {| u_id := 2; u_username := "teacher1"; u_password := "teacher123";
     u_role := "teacher"; u_class_id := Some 1; u_student_id := None |}.

Definition student_row : user_row :=
  {| u_id := 3; u_username := "aditya"; u_password := "student123";
     u_role := "student"; u_class_id := Some 1; u_student_id := Some 1 |}.

Definition users : list user_row := [admin_row; teacher_row; student_row].

Definition hash (p : string) : string := "$2b$10$" ++ p.

Definition compare (p h : string) : bool := String.eqb h (hash p).

End DemoUsers.

(** ** Helpers of [server.js]: placeholders, id validation, CSV cells *)

(** [sql.replace(/\?/g, () => `$${paramIndex++}`)] from index [paramIndex]. *)
Fixpoint replace_placeholders (paramIndex : Z) (sql : string) : string :=
  match sql with
  | EmptyString => EmptyString
  | String c rest =>
      if Ascii.eqb c "?" then
        String "$" (Js.number_to_string paramIndex
                    ++ replace_placeholders (paramIndex + 1) rest)%string
      else String c (replace_placeholders paramIndex rest)
  end.

(** [convertPlaceholders(sql, params)]: [{ sql: convertedSql, params }]. *)
Definition convertPlaceholders {P : Type} (sql : string) (params : P)
  : string * P :=
  (replace_placeholders 1 sql, params).

(** How often a character occurs in a string. *)
Fixpoint occurrences (c : ascii) (s : string) : nat :=
  match s with
  | EmptyString => O
  | String d rest => (if Ascii.eqb d c then 1 else 0) + occurrences c rest
  end.

(** [validateInteger(value, fieldName)]: the number returned, or the message
    of the error thrown.  The number is that of the code up to
    [Js.max_safe_integer]; for a longer text the code returns the nearest
    double. *)
Definition validateInteger (value : Js.value) (fieldName : string)
  : string + Z :=
  match Js.parseInt value with
  | Some num =>
      if num <=? 0
      then inl ("Invalid " ++ fieldName ++ ": must be a positive integer")%string
      else inr num
  | None => inl ("Invalid " ++ fieldName ++ ": must be a positive integer")%string
  end.

Definition quote_char : ascii := ascii_of_nat 34.
Definition newline_char : ascii := ascii_of_nat 10.

(** The test of [csvEscape]: the text holds a double quote, a comma or a
    line feed. *)
Fixpoint has_special (str : string) : bool :=
  match str with
  | EmptyString => false
  | String c rest =>
      Ascii.eqb c quote_char || Ascii.eqb c "," || Ascii.eqb c newline_char
      || has_special rest
  end.

(** The replacement of [csvEscape]: every double quote is written twice. *)
Fixpoint double_quotes (str : string) : string :=
  match str with
  | EmptyString => EmptyString
  | String c rest =>
      if Ascii.eqb c quote_char
      then String quote_char (String quote_char (double_quotes rest))
      else String c (double_quotes rest)
  end.

(** [csvEscape(value)]. *)
Definition csvEscape (value : Js.value) : string :=
  match value with
  | Js.Null | Js.Undefined => ""
  | _ =>
      let str := Js.to_string value in
      if has_special str
      then String quote_char (double_quotes str ++ String quote_char "")%string
      else str
  end.

(** ** The schema bootstrap of [db.js] *)

(** [s.split(';')]: the pieces between semicolons, at least one. *)
Fixpoint split_semicolon (s : string) : list string :=
  match s with
  | EmptyString => [EmptyString]
  | String c rest =>
      if Ascii.eqb c ";" then EmptyString :: split_semicolon rest
      else
        match split_semicolon rest with
        | piece :: pieces => String c piece :: pieces
        | [] => [String c EmptyString]
        end
  end.

(** [s.trim()]: white space removed at both ends. *)
Fixpoint trim_end (s : string) : string :=
  match s with
  | EmptyString => EmptyString
  | String c rest =>
      match trim_end rest with
      | EmptyString => if Js.is_white_space c then EmptyString else String c EmptyString
      | rest' => String c rest'
      end
  end.

Definition trim (s : string) : string := trim_end (Js.skip_white_space s).

(** [schemaSql.split(';').map(s => s.trim())
      .filter(s => s.length > 0 && !s.startsWith('--'))]: the statements
    [initializeDatabase] sends to the store, in order. *)
Definition schema_statements (schemaSql : string) : list string :=
  filter (fun s => negb (String.length s =? 0)%nat && negb (String.prefix "--" s))
         (map trim (split_semicolon schemaSql)).

(** A string of white space only. *)
Fixpoint all_white_space (s : string) : bool :=
  match s with
  | EmptyString => true
  | String c rest => Js.is_white_space c && all_white_space rest
  end.

(** ** Listing and creating students and sessions *)

(** A row of GET /api/sessions: [s.*, c.name AS class_name]. *)
Record session_view : Type := {
  sv_id : Z;
  sv_class_id : Z;
  sv_date : Z;
  sv_topic : option string;
  sv_class_name : string
}.

(** A row of GET /api/attendance/by-session. *)
Record by_session_row : Type := {
  bs_id : Z;
  bs_status : string;
  bs_marked_at : Z;
  bs_student_id : Z;
  bs_student_name : string;
  bs_roll_number : option string;
  bs_date : Z;
  bs_topic : option string;
  bs_class_name : string
}.

(** [!user.class_id]. *)
Definition no_class_id (u : user) : bool :=
  match user_class_id u with
  | Some n => n =? 0
  | None => true
  end.

(** [ORDER BY date DESC, s.id DESC] on the session list. *)
Definition session_view_order (r1 r2 : session_view) : bool :=
  (sv_date r2 <? sv_date r1)
  || ((sv_date r1 =? sv_date r2) && (sv_id r2 <=? sv_id r1)).

(** [SELECT s.*, c.name as class_name FROM sessions s
     JOIN classes c ON s.class_id = c.id], before any WHERE. *)
Definition sessions_with_class (s : Store.t) : list session_view :=
  map (fun x : session_row * class_row =>
         {| sv_id := sess_id (fst x);
            sv_class_id := sess_class_id (fst x);
            sv_date := sess_date (fst x);
            sv_topic := sess_topic (fst x);
            sv_class_name := c_name (snd x) |})
      (Sql.inner_join (fun sess c => sess_class_id sess =? c_id c)
                      (sessions s) (classes s)).

(** The bodies of the 201 answers of POST /api/students and POST
    /api/sessions: the id the statement returned, the class id as parsed,
    and the other fields as the request sent them. *)
Record created_student : Type := {
  cs_id : Z;
  cs_name : Js.value;
  cs_roll_number : Js.value;
  cs_class_id : Z
}.

Record created_session : Type := {
  cn_id : Z;
  cn_class_id : Z;
  cn_date : Js.value;
  cn_topic : Js.value
}.

(** [x || null] on a text field of the body, as the statement receives it. *)
Definition text_or_null (v : Js.value) : option string :=
  if Js.truthy v then Some (Js.to_string v) else None.

(** [/^\d{4}-\d{2}-\d{2}$/.test(date)] on the text of the value. *)
Definition dateRegex_test (date : string) : bool :=
  match date with
  | String y1 (String y2 (String y3 (String y4 (String d1 (String m1 (String m2
      (String d2 (String n1 (String n2 EmptyString))))))))) =>
      Js.is_digit y1 && Js.is_digit y2 && Js.is_digit y3 && Js.is_digit y4
      && Ascii.eqb d1 "-" && Js.is_digit m1 && Js.is_digit m2
      && Ascii.eqb d2 "-" && Js.is_digit n1 && Js.is_digit n2
  | _ => false
  end.

Section Listing.
Variable name_leb : string -> string -> bool.
Variable int4in : string -> option Z.
(** [!isNaN(new Date(date).getTime())], and the DATE the store reads from
    the text of a date ([None]: the statement fails). *)
Variable js_date_valid : string -> bool.
Variable date_in : string -> option Z.
(** What a VARCHAR(n) column stores for a text ([None]: the text does not
    fit and the statement fails). *)
Variable varchar_in : nat -> string -> option string.

Definition by_st_name (st1 st2 : student_row) : bool :=
  name_leb (st_name st1) (st_name st2).

(** GET /api/students *)
Definition get_api_students (req_user : option user) (class_id : Js.value)
  (s : Store.t) : response (list student_row) :=
  requireAuth req_user Error (fun user =>
  if String.eqb (role user) "student" then
    match user_student_id user with
    | Some id =>
        if id =? 0 then Reply 200 []
        else Reply 200 (Sql.order_by by_st_name
                          (filter (fun st => st_id st =? id) (students s)))
    | None => Reply 200 []
    end
  else if Js.truthy class_id then
    match int4in (Js.to_string class_id) with
    | Some c =>
        Reply 200 (Sql.order_by by_st_name
                     (filter (fun st => st_class_id st =? c) (students s)))
    | None => Error 500 "Database error"
    end
  else Reply 200 (Sql.order_by by_st_name (students s))).

(** GET /api/sessions *)
Definition get_api_sessions (req_user : option user) (class_id : Js.value)
  (s : Store.t) : response (list session_view) :=
  requireAuth req_user Error (fun user =>
  let run (where_class : option Z) :=
    Reply 200
      (Sql.order_by session_view_order
         (match where_class with
          | Some c => filter (fun r => sv_class_id r =? c) (sessions_with_class s)
          | None => sessions_with_class s
          end)) in
  if String.eqb (role user) "admin" || String.eqb (role user) "teacher" then
    if Js.truthy class_id then
      match int4in (Js.to_string class_id) with
      | Some c => run (Some c)
      | None => Error 500 "Database error"
      end
    else run None
  else if String.eqb (role user) "student" then
    match user_class_id user with
    | Some c => if c =? 0 then Reply 200 [] else run (Some c)
    | None => Reply 200 []
    end
  else run None).

(** The rows of GET /api/attendance/by-session:
    [FROM attendance a JOIN students s ON a.student_id = s.id
     JOIN sessions sess ON a.session_id = sess.id
     JOIN classes c ON sess.class_id = c.id
     WHERE a.session_id = ? ORDER BY s.name]. *)
Definition by_session_rows (sessionId : Z) (s : Store.t) : list by_session_row :=
  let a_s :=
    Sql.inner_join (fun a st => a_student_id a =? st_id st)
                   (attendance s) (students s) in
  let a_s_sess :=
    Sql.inner_join (fun (x : attendance_row * student_row) sess =>
                      a_session_id (fst x) =? sess_id sess)
                   a_s (sessions s) in
  let a_s_sess_c :=
    Sql.inner_join (fun (x : attendance_row * student_row * session_row) c =>
                      sess_class_id (snd x) =? c_id c)
                   a_s_sess (classes s) in
  Sql.order_by
    (fun r1 r2 => name_leb (bs_student_name r1) (bs_student_name r2))
    (map (fun x : attendance_row * student_row * session_row * class_row =>
            let a := fst (fst (fst x)) in
            let st := snd (fst (fst x)) in
            let sess := snd (fst x) in
            let c := snd x in
            {| bs_id := a_id a;
               bs_status := a_status a;
               bs_marked_at := a_marked_at a;
               bs_student_id := st_id st;
               bs_student_name := st_name st;
               bs_roll_number := st_roll_number st;
               bs_date := sess_date sess;
               bs_topic := sess_topic sess;
               bs_class_name := c_name c |})
         (filter (fun x : attendance_row * student_row * session_row * class_row =>
                    a_session_id (fst (fst (fst x))) =? sessionId)
                 a_s_sess_c)).

(** GET /api/attendance/by-session behind
    [requireAuth, requireRole('admin', 'teacher')]. *)
Definition get_api_attendance_by_session (req_user : option user)
  (session_id : Js.value) (s : Store.t) : response (list by_session_row) :=
  requireAuth req_user Error (fun u =>
  requireRole ["admin"; "teacher"] u Error (fun _ =>
  if negb (Js.truthy session_id) then Error 400 "session_id is required"
  else
    match int4in (Js.to_string session_id) with
    | None => Error 500 "Database error"
    | Some id =>
        match select_session_class id s with
        | [] => Error 400 "Invalid session_id"
        | _ => Reply 200 (by_session_rows id s)
        end
    end)).

(** [SELECT id FROM classes WHERE id = ?] with the parsed class id as
    its parameter. *)
Definition select_class (classId : Z) (s : Store.t) : list Z :=
  map c_id (filter (fun c => c_id c =? classId) (classes s)).

(** POST /api/students behind [requireAuth, requireRole('admin')].
    [nextval] is the next value of the sequence of [students.id]; a value
    already in use violates the primary key. *)
Definition post_api_students (req_user : option user)
  (name roll_number class_id : Js.value) (nextval : Z) (s : Store.t)
  : response created_student * Store.t :=
  let deny code msg := (Error code msg, s) in
  requireAuth req_user deny (fun u =>
  requireRole ["admin"] u deny (fun _ =>
  if negb (Js.truthy name) || negb (Js.truthy class_id)
  then deny 400 "Student name and class_id are required"
  else
    match Js.parseInt class_id with
    | None => deny 400 "Invalid class_id"
    | Some classIdInt =>
        if classIdInt <=? 0 then deny 400 "Invalid class_id"
        else
          match int4in (Js.number_to_string classIdInt) with
          | None => deny 500 "Database error"
          | Some c =>
              match select_class c s with
              | [] => deny 400 "Invalid class_id: class does not exist"
              | _ =>
                  let roll :=
                    if Js.truthy roll_number
                    then option_map Some (varchar_in 50 (Js.to_string roll_number))
                    else Some None in
                  match varchar_in 255 (Js.to_string name), roll with
                  | Some stored_name, Some stored_roll =>
                      if existsb (fun st => st_id st =? nextval) (students s)
                      then deny 500 "Database error"
                      else
                        (Reply 201
                           {| cs_id := nextval;
                              cs_name := name;
                              cs_roll_number := js_or roll_number Js.Null;
                              cs_class_id := classIdInt |},
                         {| classes := classes s;
                            students :=
                              students s
                              ++ [{| st_id := nextval;
                                     st_name := stored_name;
                                     st_roll_number := stored_roll;
                                     st_class_id := c |}];
                            sessions := sessions s;
                            attendance := attendance s;
                            attendance_id_seq := attendance_id_seq s |})
                  | _, _ => deny 500 "Database error"
                  end
              end
          end
    end)).

(** POST /api/sessions behind [requireAuth, requireRole('teacher')].
    [nextval] is the next value of the sequence of [sessions.id]. *)
Definition post_api_sessions (req_user : option user)
  (class_id date topic : Js.value) (nextval : Z) (s : Store.t)
  : response created_session * Store.t :=
  let deny code msg := (Error code msg, s) in
  requireAuth req_user deny (fun u =>
  requireRole ["teacher"] u deny (fun _ =>
  if negb (Js.truthy class_id) || negb (Js.truthy date)
  then deny 400 "class_id and date are required"
  else
    match Js.parseInt class_id with
    | None => deny 400 "Invalid class_id"
    | Some classIdInt =>
        if classIdInt <=? 0 then deny 400 "Invalid class_id"
        else if negb (dateRegex_test (Js.to_string date))
        then deny 400 "Invalid date format. Use YYYY-MM-DD"
        else if negb (js_date_valid (Js.to_string date))
        then deny 400 "Invalid date value"
        else
          match int4in (Js.number_to_string classIdInt) with
          | None => deny 500 "Database error"
          | Some c =>
              match select_class c s with
              | [] => deny 400 "Invalid class_id: class does not exist"
              | _ =>
                  match date_in (Js.to_string date) with
                  | None => deny 500 "Database error"
                  | Some day =>
                      if existsb (fun sess => sess_id sess =? nextval) (sessions s)
                      then deny 500 "Database error"
                      else
                        (Reply 201
                           {| cn_id := nextval;
                              cn_class_id := classIdInt;
                              cn_date := date;
                              cn_topic := js_or topic Js.Null |},
                         {| classes := classes s;
                            students := students s;
                            sessions :=
                              sessions s
                              ++ [{| sess_id := nextval;
                                     sess_class_id := c;
                                     sess_date := day;
                                     sess_topic := text_or_null topic |}];
                            attendance := attendance s;
                            attendance_id_seq := attendance_id_seq s |})
                  end
              end
          end
    end)).
End Listing.

(** [PRIMARY KEY] of classes and the [FOREIGN KEY]s to classes. *)
Definition primary_key_classes (s : Store.t) : Prop :=
  NoDup (map c_id (classes s)).

Definition foreign_key_sessions (s : Store.t) : Prop :=
  forall sess, In sess (sessions s) ->
    exists c, In c (classes s) /\ c_id c = sess_class_id sess.

Definition foreign_key_students (s : Store.t) : Prop :=
  forall st, In st (students s) ->
    exists c, In c (classes s) /\ c_id c = st_class_id st.

(** The order of the session list: later dates first, then higher ids. *)
Definition session_view_before (r1 r2 : session_view) : Prop :=
  sv_date r2 < sv_date r1 \/ (sv_date r1 = sv_date r2 /\ sv_id r2 <= sv_id r1).

(** What a row of the by-session list and an attendance row say about a
    mark: its id, the student and the status. *)
Definition mark_of_row (r : by_session_row) : Z * Z * string :=
  (bs_id r, bs_student_id r, bs_status r).

Definition mark_of_attendance (a : attendance_row) : Z * Z * string :=
  (a_id a, a_student_id a, a_status a).

(** The keys and foreign keys of the four tables together with the
    cross-class invariant. *)
Definition store_ok (s : Store.t) : Prop :=
  schema_ok s /\ same_class s /\ primary_key_classes s
  /\ foreign_key_sessions s /\ foreign_key_students s.

(** Stand-ins for the text input of the store in the examples: a
    VARCHAR(n) takes a text of at most n characters, and one date is
    known. *)
Module DemoInput.

Definition varchar (n : nat) (text : string) : option string :=
  if (String.length text <=? n)%nat then Some text else None.

Definition date_valid (text : string) : bool := true.

Definition date_of (text : string) : option Z :=
  if String.eqb text "2024-01-12" then Some 19734 else None.

End DemoInput.

(** * Properties *)

(** ** [String] and [parseInt] on integers *)

Example parseInt_ex1 : Js.parseInt (Js.Str " 42abc") = Some 42.
Proof. reflexivity. Qed.
Example parseInt_ex2 : Js.parseInt (Js.Number 1205) = Some 1205.
Proof. reflexivity. Qed.
Example parseInt_ex3 : Js.parseInt (Js.Str "-7") = Some (-7).
Proof. reflexivity. Qed.
Example parseInt_ex4 : Js.parseInt Js.Null = None.
Proof. reflexivity. Qed.
Example parseInt_ex5 : Js.parseInt (Js.Str "abc") = None.
Proof. reflexivity. Qed.
Example to_string_ex : Js.to_string (Js.Number (-300)) = "-300".
Proof. reflexivity. Qed.

Lemma digit_char_spec (d : Z) :
  0 <= d < 10 ->
  Js.is_digit (Js.digit_char d) = true /\ Js.digit_val (Js.digit_char d) = d.
Proof.
  intros Hd.
  assert (Hcases : d = 0 \/ d = 1 \/ d = 2 \/ d = 3 \/ d = 4 \/ d = 5 \/ d = 6
                   \/ d = 7 \/ d = 8 \/ d = 9) by lia.
  repeat (destruct Hcases as [-> | Hcases]; [split; reflexivity |]).
  subst d; split; reflexivity.
Qed.

Lemma digits_fuel_head (fuel : nat) : forall n acc,
  starts_with_digit acc -> starts_with_digit (Js.digits_fuel fuel n acc).
Proof.
  induction fuel as [| fuel IH]; intros n acc Hacc; cbn [Js.digits_fuel];
    [exact Hacc |].
  assert (Hhead : starts_with_digit (String (Js.digit_char (n mod 10)) acc)).
  { exists (Js.digit_char (n mod 10)), acc. split; [reflexivity |].
    apply digit_char_spec. apply Z.mod_pos_bound. lia. }
  destruct (n / 10 =? 0); [exact Hhead | apply IH; exact Hhead].
Qed.

Lemma digits_head (n : Z) : starts_with_digit (Js.digits n).
Proof.
  unfold Js.digits. cbn [Js.digits_fuel].
  assert (Hhead : starts_with_digit (String (Js.digit_char (n mod 10)) "")).
  { exists (Js.digit_char (n mod 10)), "". split; [reflexivity |].
    apply digit_char_spec. apply Z.mod_pos_bound. lia. }
  destruct (n / 10 =? 0); [exact Hhead | apply digits_fuel_head; exact Hhead].
Qed.

(** Reading back the digits written in front of [acc]: if [acc] reads as
    [a * p + m] from the accumulator [a], the longer string reads as
    [a * p' + n * p + m]. *)
Lemma parse_digits_fuel (fuel : nat) : forall n acc p m,
  0 <= n < 2 ^ Z.of_nat fuel ->
  (forall a, Js.parse_digits a acc = a * p + m) ->
  exists p', forall a,
    Js.parse_digits a (Js.digits_fuel fuel n acc) = a * p' + n * p + m.
Proof.
  induction fuel as [| fuel IH]; intros n acc p m Hn Hacc.
  - change (2 ^ Z.of_nat 0) with 1 in Hn. assert (n = 0) by lia. subst n.
    exists p. intros a. cbn [Js.digits_fuel]. rewrite Hacc. lia.
  - cbn [Js.digits_fuel].
    assert (Hd : 0 <= n mod 10 < 10) by (apply Z.mod_pos_bound; lia).
    destruct (digit_char_spec _ Hd) as [Hisd Hval].
    assert (Hacc' : forall a,
               Js.parse_digits a (String (Js.digit_char (n mod 10)) acc)
               = a * (10 * p) + (n mod 10 * p + m)).
    { intros a. cbn [Js.parse_digits]. rewrite Hisd, Hval, Hacc. lia. }
    pose proof (Z.div_mod n 10 ltac:(lia)) as Hdm.
    destruct (n / 10 =? 0) eqn:Hq.
    + apply Z.eqb_eq in Hq. exists (10 * p). intros a. rewrite Hacc'.
      assert (n mod 10 = n) by lia. nia.
    + apply Z.eqb_neq in Hq.
      assert (Hbound : 0 <= n / 10 < 2 ^ Z.of_nat fuel).
      { split; [apply Z.div_pos; lia |].
        apply Z.div_lt_upper_bound; [lia |].
        rewrite Nat2Z.inj_succ, Z.pow_succ_r in Hn by lia. lia. }
      destruct (IH (n / 10) _ (10 * p) (n mod 10 * p + m) Hbound Hacc') as [p' Hp'].
      exists p'. intros a. rewrite Hp'. nia.
Qed.

Lemma parse_digits_digits (n : Z) : 0 <= n -> Js.parse_digits 0 (Js.digits n) = n.
Proof.
  intros Hn. unfold Js.digits.
  assert (Hbound : 0 <= n < 2 ^ Z.of_nat (S (Z.to_nat (Z.log2 n)))).
  { split; [exact Hn |].
    rewrite Nat2Z.inj_succ, Z2Nat.id by apply Z.log2_nonneg.
    destruct (Z.eq_dec n 0) as [-> | Hnz]; [reflexivity |].
    apply Z.log2_spec. lia. }
  destruct (parse_digits_fuel _ n "" 1 0 Hbound) as [p' Hp'].
  - intros a. cbn [Js.parse_digits]. lia.
  - rewrite Hp'. lia.
Qed.

Lemma parseInt_string_digit (c : ascii) (r : string) :
  Js.is_digit c = true ->
  Js.parseInt_string (String c r) = Some (Js.parse_digits 0 (String c r)).
Proof.
  intros Hc.
  destruct c as [[] [] [] [] [] [] [] []]; try discriminate Hc;
    unfold Js.parseInt_string; cbn [Js.skip_white_space];
    cbv [Js.is_white_space Js.is_digit nat_of_ascii N_of_ascii N_of_digits
         Nat.leb Nat.eqb andb orb N.to_nat N.add N.mul Pos.to_nat Pos.iter_op
         Nat.add Pos.add Pos.succ Pos.mul];
    rewrite Z.mul_1_l; reflexivity.
Qed.

Lemma parseInt_string_minus (c : ascii) (r : string) :
  Js.is_digit c = true ->
  Js.parseInt_string (String "-" (String c r))
  = Some (- Js.parse_digits 0 (String c r)).
Proof.
  intros Hc. unfold Js.parseInt_string.
  change (Js.skip_white_space (String "-" (String c r)))
    with (String "-" (String c r)).
  cbv beta iota. rewrite Hc. apply f_equal. lia.
Qed.

(** [parseInt(String(n), 10)] is [n]. *)
Lemma parseInt_number_to_string (n : Z) :
  Js.parseInt_string (Js.number_to_string n) = Some n.
Proof.
  unfold Js.number_to_string.
  destruct (n <? 0) eqn:Hneg.
  - apply Z.ltb_lt in Hneg.
    destruct (digits_head (- n)) as (c & r & Heq & Hc).
    pose proof (parse_digits_digits (- n) ltac:(lia)) as Hval.
    rewrite Heq in *. rewrite parseInt_string_minus by exact Hc.
    rewrite Hval, Z.opp_involutive. reflexivity.
  - apply Z.ltb_ge in Hneg.
    destruct (digits_head n) as (c & r & Heq & Hc).
    pose proof (parse_digits_digits n Hneg) as Hval.
    rewrite Heq in *. rewrite parseInt_string_digit by exact Hc.
    rewrite Hval. reflexivity.
Qed.

Lemma number_to_string_inj (m n : Z) :
  Js.number_to_string m = Js.number_to_string n -> m = n.
Proof.
  intros H. apply (f_equal Js.parseInt_string) in H.
  rewrite !parseInt_number_to_string in H. congruence.
Qed.

(** ** The transaction of POST /api/attendance *)

Lemma restore_same (s : Store.t) : restore s s = s.
Proof. destruct s; reflexivity. Qed.

Lemma for_each_write (now sessionId : Z) (l : list attendance_record) :
  forall c,
    for_each l
      (fun rec =>
         match Js.parseInt (rec_student_id rec) with
         | Some studentId =>
             execute (upsertSql now sessionId studentId (record_status rec))
         | None => ret tt
         end) c
    = (tt, {| db := write_records now sessionId l (db c);
              snapshot := snapshot c |}).
Proof.
  induction l as [| rec l IH]; intros c.
  - destruct c; reflexivity.
  - cbn [for_each]. unfold bind at 1.
    unfold write_records. cbn [fold_left]. fold (write_records now sessionId l).
    unfold write_record at 2.
    destruct (Js.parseInt (rec_student_id rec)) as [studentId |].
    + unfold execute. rewrite IH. reflexivity.
    + unfold ret. rewrite IH. reflexivity.
Qed.

Lemma filter_nil_forall {A : Type} (f : A -> bool) (l : list A) :
  filter f l = [] -> forall x, In x l -> f x = false.
Proof.
  intros Hnil x Hx. destruct (f x) eqn:Hfx; [| reflexivity].
  assert (Hin : In x (filter f l)) by (apply filter_In; split; assumption).
  rewrite Hnil in Hin. destruct Hin.
Qed.

Ltac rollback_400 :=
  left; exists 400; eexists; split;
  [cbn [db snapshot]; rewrite restore_same; reflexivity | left; reflexivity].

Ltac rollback_500 :=
  left; exists 500, "Database error"; split;
  [cbn [db snapshot]; rewrite restore_same; reflexivity |].

Lemma int4_param_beyond (column : list Z) (n : Z) :
  int4_param column n = false -> int4 n = false.
Proof.
  unfold int4_param. intros H. apply orb_false_iff in H. exact (proj1 H).
Qed.

Lemma int4_param_stored (column : list Z) (n : Z) :
  In n column -> int4_param column n = true.
Proof.
  intros Hin. unfold int4_param. apply orb_true_iff. right.
  apply existsb_exists. exists n. split; [exact Hin | apply Z.eqb_refl].
Qed.

(** On a column of INTEGER values the parameter is taken exactly when it
    is within the type. *)
Lemma int4_param_typed (column : list Z) (n : Z) :
  (forall k, In k column -> int4 k = true) ->
  int4_param column n = int4 n.
Proof.
  intros Htyped. unfold int4_param.
  destruct (int4 n) eqn:Hn; [reflexivity |]. cbn [orb].
  destruct (existsb (Z.eqb n) column) eqn:Hstored; [| reflexivity].
  apply existsb_exists in Hstored. destruct Hstored as [k [Hk Heq]].
  apply Z.eqb_eq in Heq. subst k. rewrite (Htyped n Hk) in Hn. discriminate Hn.
Qed.

Lemma forallb_refused (check : Z -> bool) (ids : list Z) :
  forallb check ids = false -> exists id, In id ids /\ check id = false.
Proof.
  induction ids as [| id ids IH]; cbn [forallb]; [discriminate |].
  intros H. apply andb_false_iff in H. destruct H as [H | H].
  - exists id. split; [left; reflexivity | exact H].
  - destruct (IH H) as [id' [Hin Hid']]. exists id'.
    split; [right; exact Hin | exact Hid'].
Qed.

(** Every call either is refused and leaves the store as it was, or
    passes every check and writes the valid records.  A refusal is a 400,
    or the 500 of a statement that failed on an id beyond INTEGER. *)
Lemma commitAttendance_cases (now : Z) (session_id : Js.value)
  (records : option (list attendance_record)) (s : Store.t) :
  (exists code msg,
     commitAttendance now session_id records s = (Error code msg, s)
     /\ (code = 400
         \/ (code = 500 /\ msg = "Database error"
             /\ beyond_integer session_id records)))
  \/ (exists recs sessionId classId rest,
        records = Some recs
        /\ Js.parseInt session_id = Some sessionId /\ 0 < sessionId
        /\ select_session_class sessionId s = classId :: rest
        /\ List.length (select_students_in_class (studentIds_of recs) classId s)
           = List.length (studentIds_of recs)
        /\ (forall r, In r recs -> includes validStatuses (record_status r) = true)
        /\ commitAttendance now session_id records s
           = (Reply 201 "Attendance saved successfully",
              write_records now sessionId (validRecords_of recs) s)).
Proof.
  unfold commitAttendance.
  destruct records as [recs |];
    [| left; exists 400; eexists; split; [reflexivity | left; reflexivity]].
  destruct (negb (Js.truthy session_id) || (List.length recs =? 0)%nat);
    [left; exists 400; eexists; split; [reflexivity | left; reflexivity] |].
  destruct (Js.parseInt session_id) as [sessionId |] eqn:Hparse;
    [| left; exists 400; eexists; split; [reflexivity | left; reflexivity]].
  destruct (sessionId <=? 0) eqn:Hpos;
    [left; exists 400; eexists; split; [reflexivity | left; reflexivity] |].
  apply Z.leb_gt in Hpos.
  unfold with_client, save_attendance, catch_error, bind, BEGIN, ROLLBACK,
    COMMIT, query, ret, query_session_class, query_students_in_class.
  cbn [db snapshot].
  fold (studentIds_of recs). fold (validRecords_of recs).
  destruct (int4_param (map sess_id (sessions s)) sessionId) eqn:Hsid.
  2: { rollback_500. right. split; [reflexivity |]. split; [reflexivity |].
       left. exists sessionId.
       split; [exact Hparse | exact (int4_param_beyond _ _ Hsid)]. }
  destruct (select_session_class sessionId s) as [| classId rest] eqn:Hsess.
  { rollback_400. }
  destruct (List.length (studentIds_of recs) =? 0)%nat.
  { rollback_400. }
  destruct (filter (fun r => negb (includes validStatuses (record_status r))) recs)
    as [| bad invalidRecords] eqn:Hinvalid.
  2: { cbn [List.length Nat.ltb Nat.leb]. rollback_400. }
  cbn [List.length Nat.ltb Nat.leb db snapshot].
  destruct (forallb (int4_param (map st_id (students s))) (studentIds_of recs))
    eqn:Hids.
  2: { rollback_500. right. split; [reflexivity |]. split; [reflexivity |].
       right. destruct (forallb_refused _ _ Hids) as [id [Hin Hid]].
       exists recs, id. split; [reflexivity |].
       split; [exact Hin | exact (int4_param_beyond _ _ Hid)]. }
  destruct (List.length (select_students_in_class (studentIds_of recs) classId s)
            =? List.length (studentIds_of recs))%nat eqn:Hcount.
  2: { cbn [negb]. rollback_400. }
  cbn [negb db snapshot]. apply Nat.eqb_eq in Hcount.
  destruct (List.length (validRecords_of recs) =? 0)%nat.
  { rollback_400. }
  right. exists recs, sessionId, classId, rest.
  repeat split; try assumption.
  - intros r Hr. pose proof (filter_nil_forall _ _ Hinvalid r Hr) as Hv.
    apply negb_false_iff in Hv. exact Hv.
  - rewrite for_each_write. reflexivity.
Qed.

Lemma post_api_attendance_teacher (u : user) (now : Z) (session_id : Js.value)
  (records : option (list attendance_record)) (s : Store.t) :
  role u = "teacher" ->
  post_api_attendance (Some u) now session_id records s
  = commitAttendance now session_id records s.
Proof.
  intros Hrole. unfold post_api_attendance, requireAuth, requireRole, includes.
  rewrite Hrole. reflexivity.
Qed.

(** ** The membership check *)

Lemma NoDup_map_filter {Row Col : Type} (column : Row -> Col)
  (keep : Row -> bool) :
  forall table, NoDup (map column table) -> NoDup (map column (filter keep table)).
Proof.
  intros l. set (f := column). set (p := keep).
  induction l as [| x l IH]; intros Hnd; [constructor |].
  cbn [map] in Hnd. inversion Hnd as [| y l' Hnotin Hnd']; subst.
  cbn [filter]. destruct (p x); [| apply IH; exact Hnd'].
  cbn [map]. constructor; [| apply IH; exact Hnd'].
  intros Hin. apply Hnotin. apply in_map_iff in Hin.
  destruct Hin as (z & Hz & Hzin). apply filter_In in Hzin.
  apply in_map_iff. exists z. tauto.
Qed.

Lemma existsb_Zeqb_In (x : Z) (l : list Z) :
  existsb (Z.eqb x) l = true <-> In x l.
Proof.
  rewrite existsb_exists. split.
  - intros (y & Hy & Heq). apply Z.eqb_eq in Heq. subst. exact Hy.
  - intros Hx. exists x. split; [exact Hx | apply Z.eqb_refl].
Qed.

Lemma select_students_in_class_In (s : Store.t) (ids : list Z) (classId id : Z) :
  In id (select_students_in_class ids classId s)
  <-> In id ids /\ in_class s classId id.
Proof.
  unfold select_students_in_class, in_class. rewrite in_map_iff. split.
  - intros (st & Hid & Hin). apply filter_In in Hin. destruct Hin as [Hin Hcond].
    apply andb_true_iff in Hcond. destruct Hcond as [Hmem Hcls].
    apply existsb_Zeqb_In in Hmem. apply Z.eqb_eq in Hcls. subst id.
    split; [exact Hmem |]. exists st. tauto.
  - intros (Hmem & st & Hin & Hid & Hcls). exists st. split; [exact Hid |].
    apply filter_In. split; [exact Hin |].
    apply andb_true_iff. split.
    + apply existsb_Zeqb_In. rewrite Hid. exact Hmem.
    + apply Z.eqb_eq. exact Hcls.
Qed.

(** What the count comparison of the handler decides: the surviving ids are
    pairwise different and each is a student of the class. *)
Lemma membership_check_iff (s : Store.t) (ids : list Z) (classId : Z) :
  primary_key_students s ->
  (List.length (select_students_in_class ids classId s) = List.length ids
   <-> NoDup ids /\ forall id, In id ids -> in_class s classId id).
Proof.
  intros Hpk.
  assert (Hnd : NoDup (select_students_in_class ids classId s))
    by (apply NoDup_map_filter; exact Hpk).
  assert (Hincl : incl (select_students_in_class ids classId s) ids)
    by (intros id Hid; apply select_students_in_class_In in Hid; tauto).
  split.
  - intros Hlen.
    assert (Hle : (List.length ids
                   <= List.length (select_students_in_class ids classId s))%nat)
      by lia.
    split.
    + exact (NoDup_incl_NoDup Hnd Hle Hincl).
    + intros id Hid.
      pose proof (NoDup_length_incl Hnd Hle Hincl) as Hback.
      apply Hback in Hid. apply select_students_in_class_In in Hid. tauto.
  - intros [Hids Hall].
    apply Nat.le_antisymm.
    + apply NoDup_incl_length; assumption.
    + apply NoDup_incl_length; [exact Hids |].
      intros id Hid. apply select_students_in_class_In. auto.
Qed.

Lemma studentIds_of_cons (r : attendance_record) (l : list attendance_record) :
  studentIds_of (r :: l)
  = match Js.parseInt (rec_student_id r) with
    | Some n => if 0 <? n then n :: studentIds_of l else studentIds_of l
    | None => studentIds_of l
    end.
Proof.
  unfold studentIds_of. cbn [map filter].
  destruct (Js.parseInt (rec_student_id r)) as [n |]; cbn [valid_id];
    [destruct (0 <? n) |]; reflexivity.
Qed.

Lemma studentIds_of_app (l1 l2 : list attendance_record) :
  studentIds_of (l1 ++ l2) = studentIds_of l1 ++ studentIds_of l2.
Proof.
  induction l1 as [| r l1 IH]; [reflexivity |].
  rewrite <- app_comm_cons, !studentIds_of_cons, IH.
  destruct (Js.parseInt (rec_student_id r)) as [n |];
    [destruct (0 <? n) |]; reflexivity.
Qed.

Lemma studentIds_of_In (records : list attendance_record) (n : Z) :
  In n (studentIds_of records)
  <-> exists r, In r records /\ Js.parseInt (rec_student_id r) = Some n /\ 0 < n.
Proof.
  induction records as [| r l IH].
  - split; [intros [] | intros (r & [] & _)].
  - rewrite studentIds_of_cons. split.
    + destruct (Js.parseInt (rec_student_id r)) as [m |] eqn:Hparse.
      * destruct (0 <? m) eqn:Hpos.
        -- intros [Heq | Hin].
           ++ subst m. apply Z.ltb_lt in Hpos. exists r. cbn [In]. tauto.
           ++ apply IH in Hin. destruct Hin as (r' & Hr' & Hrest).
              exists r'. cbn [In]. tauto.
        -- intros Hin. apply IH in Hin. destruct Hin as (r' & Hr' & Hrest).
           exists r'. cbn [In]. tauto.
      * intros Hin. apply IH in Hin. destruct Hin as (r' & Hr' & Hrest).
        exists r'. cbn [In]. tauto.
    + intros (r' & [Heq | Hin] & Hparse & Hpos).
      * subst r'. rewrite Hparse.
        apply Z.ltb_lt in Hpos. rewrite Hpos. left. reflexivity.
      * assert (Hn : In n (studentIds_of l)) by (apply IH; exists r'; tauto).
        destruct (Js.parseInt (rec_student_id r)) as [m |];
          [destruct (0 <? m) |]; cbn [In]; tauto.
Qed.

Lemma filter_key_unique {A : Type} (key : A -> Z) (l : list A) (x : A) :
  NoDup (map key l) -> In x l ->
  filter (fun y => key y =? key x) l = [x].
Proof.
  induction l as [| y l IH]; intros Hnd Hin; [destruct Hin |].
  cbn [map] in Hnd. inversion Hnd as [| k l' Hnotin Hnd']; subst.
  cbn [filter]. destruct Hin as [Heq | Hin].
  - subst y. rewrite Z.eqb_refl. f_equal.
    destruct (filter (fun y => key y =? key x) l) as [| z zs] eqn:Hf;
      [reflexivity |].
    assert (Hz : In z (filter (fun y => key y =? key x) l))
      by (rewrite Hf; left; reflexivity).
    apply filter_In in Hz. destruct Hz as [Hzin Hzk]. apply Z.eqb_eq in Hzk.
    exfalso. apply Hnotin. rewrite <- Hzk. apply in_map. exact Hzin.
  - destruct (key y =? key x) eqn:Hk.
    + apply Z.eqb_eq in Hk. exfalso. apply Hnotin. rewrite Hk.
      apply in_map. exact Hin.
    + apply IH; assumption.
Qed.

Lemma select_session_class_found (s : Store.t) (sess : session_row) :
  primary_key_sessions s -> In sess (sessions s) ->
  select_session_class (sess_id sess) s = [sess_class_id sess].
Proof.
  intros Hpk Hin. unfold select_session_class.
  rewrite (filter_key_unique sess_id _ sess Hpk Hin). reflexivity.
Qed.

(** ** Batches the commit refuses *)

Lemma schema_ok_demo : schema_ok Demo.store.
Proof.
  constructor.
  - unfold primary_key_students. cbn.
    repeat constructor; cbn; intuition discriminate.
  - unfold primary_key_sessions. cbn.
    repeat constructor; cbn; intuition discriminate.
  - unfold unique_attendance. cbn. constructor.
  - intros a [].
Defined.







(** C3 at a batch that names one student of the class twice: the class has
    one matching student, the batch has one distinct student id, and the
    handler still answers that some students do not belong to the class. *)
Theorem membership_check_counts_repetitions :
  let records := [Demo.mark 1 "present"; Demo.mark 1 "present"] in
  studentIds_of records = [1; 1]
  /\ Sql.distinct Z.eqb (studentIds_of records) = [1]
  /\ select_students_in_class (studentIds_of records) 1 Demo.store = [1]
  /\ commitAttendance 1704880800 (Js.Number 1) (Some records) Demo.store
     = (Error 400 "Some students do not belong to this session's class",
        Demo.store).
Proof. repeat split; vm_compute; reflexivity. Qed.

(** ** The upsert *)

Lemma set_status_same_key (sessionId studentId : Z) (st : string)
  (a : attendance_row) :
  same_key sessionId studentId (set_status st a) = same_key sessionId studentId a.
Proof. reflexivity. Qed.

Lemma set_status_twice (st st' : string) (a : attendance_row) :
  set_status st (set_status st' a) = set_status st a.
Proof. reflexivity. Qed.

Lemma set_status_own (a : attendance_row) : set_status (a_status a) a = a.
Proof. destruct a; reflexivity. Qed.

Lemma same_key_both (sid stu sid' stu' : Z) (a : attendance_row) :
  same_key sid stu a = true -> same_key sid' stu' a = true ->
  sid' = sid /\ stu' = stu.
Proof.
  unfold same_key. intros H1 H2.
  apply andb_true_iff in H1. apply andb_true_iff in H2.
  destruct H1 as [H1a H1b]. destruct H2 as [H2a H2b].
  apply Z.eqb_eq in H1a, H1b, H2a, H2b. lia.
Qed.

Lemma filter_map_update (sid stu sid' stu' : Z) (st : string)
  (l : list attendance_row) :
  filter (same_key sid stu)
         (map (fun a => if same_key sid' stu' a then set_status st a else a) l)
  = map (fun a => if same_key sid' stu' a then set_status st a else a)
        (filter (same_key sid stu) l).
Proof.
  induction l as [| a l IH]; [reflexivity |].
  cbn [map filter].
  destruct (same_key sid' stu' a) eqn:Hk'.
  - rewrite set_status_same_key.
    destruct (same_key sid stu a); cbn [map]; rewrite IH, ?Hk'; reflexivity.
  - destruct (same_key sid stu a); cbn [map]; rewrite IH, ?Hk'; reflexivity.
Qed.

Lemma existsb_filter_nil {A : Type} (f : A -> bool) (l : list A) :
  existsb f l = false <-> filter f l = [].
Proof.
  induction l as [| x l IH]; [tauto |].
  cbn [existsb filter]. destruct (f x); cbn [orb].
  - split; discriminate.
  - exact IH.
Qed.

(** An upsert for another key leaves the rows of this key as they are. *)
Lemma rows_of_upsert_other (now sid stu sid' stu' : Z) (st : string) (s : Store.t) :
  (sid' <> sid \/ stu' <> stu) ->
  rows_of sid stu (upsertSql now sid' stu' st s) = rows_of sid stu s.
Proof.
  intros Hother. unfold rows_of, upsertSql. cbn [attendance].
  destruct (existsb (same_key sid' stu') (attendance s)).
  - rewrite filter_map_update.
    erewrite map_ext_in; [apply map_id |].
    intros a Ha. apply filter_In in Ha. destruct Ha as [_ Hk].
    destruct (same_key sid' stu' a) eqn:Hk'; [| reflexivity].
    destruct (same_key_both _ _ _ _ _ Hk Hk'). lia.
  - rewrite filter_app. cbn [filter].
    replace (same_key sid stu _) with false; [apply app_nil_r |].
    symmetry. unfold same_key. cbn [a_session_id a_student_id].
    apply andb_false_iff. rewrite !Z.eqb_neq. exact Hother.
Qed.

(** An upsert for this key inserts the row when there is none, and
    otherwise changes the status and nothing else. *)
Lemma rows_of_upsert_same (now sid stu : Z) (st : string) (s : Store.t) :
  rows_of sid stu (upsertSql now sid stu st s)
  = match rows_of sid stu s with
    | [] => [{| a_id := attendance_id_seq s + 1;
                a_session_id := sid;
                a_student_id := stu;
                a_status := st;
                a_marked_at := now |}]
    | rows => map (set_status st) rows
    end.
Proof.
  unfold rows_of, upsertSql. cbn [attendance].
  destruct (existsb (same_key sid stu) (attendance s)) eqn:Hex.
  - rewrite filter_map_update.
    destruct (filter (same_key sid stu) (attendance s)) as [| a rows] eqn:Hf.
    + apply existsb_filter_nil in Hf. congruence.
    + rewrite <- Hf. apply map_ext_in.
      intros b Hb. apply filter_In in Hb. destruct Hb as [_ Hk].
      rewrite Hk. reflexivity.
  - apply existsb_filter_nil in Hex. rewrite filter_app, Hex. cbn [filter app].
    unfold same_key. cbn [a_session_id a_student_id].
    rewrite !Z.eqb_refl. reflexivity.
Qed.

Lemma write_records_app (now sid : Z) (l1 l2 : list attendance_record) (s : Store.t) :
  write_records now sid (l1 ++ l2) s
  = write_records now sid l2 (write_records now sid l1 s).
Proof. unfold write_records. apply fold_left_app. Qed.

Lemma rows_of_write_record_other (now sid stu sid' : Z) (r : attendance_record)
  (s : Store.t) :
  Js.parseInt (rec_student_id r) <> Some stu ->
  rows_of sid stu (write_record now sid' r s) = rows_of sid stu s.
Proof.
  intros Hother. unfold write_record.
  destruct (Js.parseInt (rec_student_id r)) as [stu' |]; [| reflexivity].
  apply rows_of_upsert_other. right. congruence.
Qed.

Lemma rows_of_write_records_other (now sid stu sid' : Z)
  (l : list attendance_record) : forall s,
  (forall r, In r l -> Js.parseInt (rec_student_id r) <> Some stu) ->
  rows_of sid stu (write_records now sid' l s) = rows_of sid stu s.
Proof.
  induction l as [| r l IH]; intros s Hother; [reflexivity |].
  change (write_records now sid' (r :: l) s)
    with (write_records now sid' l (write_record now sid' r s)).
  rewrite IH by (intros r' Hr'; apply Hother; right; exact Hr').
  apply rows_of_write_record_other. apply Hother. left. reflexivity.
Qed.

(** Whatever a turn of the loop writes, a stored row keeps its id, its key
    and its timestamp. *)
Lemma rows_of_write_record_kept (now sid stu sid' : Z) (r : attendance_record)
  (a : attendance_row) (st : string) (s : Store.t) :
  rows_of sid stu s = [set_status st a] ->
  exists st', rows_of sid stu (write_record now sid' r s) = [set_status st' a].
Proof.
  intros Hrows. unfold write_record.
  destruct (Js.parseInt (rec_student_id r)) as [stu' |]; [| eauto].
  destruct (Z.eq_dec sid' sid) as [-> | Hsid].
  - destruct (Z.eq_dec stu' stu) as [-> | Hstu].
    + rewrite rows_of_upsert_same, Hrows. cbn [map].
      rewrite set_status_twice. eauto.
    + rewrite rows_of_upsert_other by (right; exact Hstu). eauto.
  - rewrite rows_of_upsert_other by (left; exact Hsid). eauto.
Qed.

Lemma rows_of_write_records_kept (now sid stu sid' : Z)
  (l : list attendance_record) (a : attendance_row) : forall st s,
  rows_of sid stu s = [set_status st a] ->
  exists st', rows_of sid stu (write_records now sid' l s) = [set_status st' a].
Proof.
  induction l as [| r l IH]; intros st s Hrows; [eauto |].
  change (write_records now sid' (r :: l) s)
    with (write_records now sid' l (write_record now sid' r s)).
  destruct (rows_of_write_record_kept now sid stu sid' r a st s Hrows) as [st1 H1].
  exact (IH st1 _ H1).
Qed.

Lemma run_call_cases (c : commit_call) (s : Store.t) :
  run_call c s = s
  \/ exists now sid l, run_call c s = write_records now sid l s.
Proof.
  unfold run_call.
  destruct (commitAttendance_cases (call_now c) (call_session_id c)
              (call_records c) s) as [(code & msg & -> & _) | Haccept].
  - left. reflexivity.
  - destruct Haccept as (recs & sid & cls & rest & _ & _ & _ & _ & _ & _ & ->).
    right. do 3 eexists. reflexivity.
Qed.

Lemma rows_of_run_call_kept (sid stu : Z) (c : commit_call)
  (a : attendance_row) (st : string) (s : Store.t) :
  rows_of sid stu s = [set_status st a] ->
  exists st', rows_of sid stu (run_call c s) = [set_status st' a].
Proof.
  intros Hrows.
  destruct (run_call_cases c s) as [-> | (now & sid' & l & ->)]; [eauto |].
  exact (rows_of_write_records_kept now sid stu sid' l a st s Hrows).
Qed.

Lemma rows_of_run_calls_kept (sid stu : Z) (cs : list commit_call)
  (a : attendance_row) : forall st s,
  rows_of sid stu s = [set_status st a] ->
  exists st', rows_of sid stu (run_calls cs s) = [set_status st' a].
Proof.
  induction cs as [| c cs IH]; intros st s Hrows; [eauto |].
  change (run_calls (c :: cs) s) with (run_calls cs (run_call c s)).
  destruct (rows_of_run_call_kept sid stu c a st s Hrows) as [st1 H1].
  exact (IH st1 _ H1).
Qed.

Lemma students_write_records (now sid : Z) (l : list attendance_record) :
  forall s, students (write_records now sid l s) = students s.
Proof.
  induction l as [| r l IH]; intros s; [reflexivity |].
  change (write_records now sid (r :: l) s)
    with (write_records now sid l (write_record now sid r s)).
  rewrite IH. unfold write_record.
  destruct (Js.parseInt (rec_student_id r)); reflexivity.
Qed.

Lemma students_run_call (c : commit_call) (s : Store.t) :
  students (run_call c s) = students s.
Proof.
  destruct (run_call_cases c s) as [-> | (now & sid & l & ->)];
    [reflexivity | apply students_write_records].
Qed.

Lemma students_run_calls (cs : list commit_call) :
  forall s, students (run_calls cs s) = students s.
Proof.
  induction cs as [| c cs IH]; intros s; [reflexivity |].
  change (run_calls (c :: cs) s) with (run_calls cs (run_call c s)).
  rewrite IH. apply students_run_call.
Qed.

Lemma studentIds_of_validRecords (recs : list attendance_record) :
  (forall r, In r recs -> includes validStatuses (record_status r) = true) ->
  studentIds_of (validRecords_of recs) = studentIds_of recs.
Proof.
  induction recs as [| r recs IH]; intros Hvalid; [reflexivity |].
  unfold validRecords_of. cbn [filter]. fold (validRecords_of recs).
  rewrite (Hvalid r (or_introl eq_refl)), andb_true_r.
  assert (IH' := IH (fun r' Hr' => Hvalid r' (or_intror Hr'))).
  rewrite (studentIds_of_cons r recs).
  destruct (Js.parseInt (rec_student_id r)) as [n |] eqn:Hparse; cbn [valid_id].
  - destruct (0 <? n) eqn:Hpos; [| exact IH'].
    rewrite studentIds_of_cons, Hparse, Hpos, IH'. reflexivity.
  - exact IH'.
Qed.

(** A successful call that marks the pair leaves exactly the row the upsert
    describes: a new row stamped with the time of the call when there was
    none, the old rows with the new status otherwise. *)
Lemma rows_of_marking_call (c : commit_call) (sid stu : Z) (st : string)
  (s : Store.t) :
  primary_key_students s ->
  succeeds c s ->
  marks c sid stu st ->
  exists id,
    rows_of sid stu (run_call c s)
    = match rows_of sid stu s with
      | [] => [{| a_id := id;
                  a_session_id := sid;
                  a_student_id := stu;
                  a_status := st;
                  a_marked_at := call_now c |}]
      | rows => map (set_status st) rows
      end.
Proof.
  intros Hpk Hsucc (Hsid & records & r & Hrecords & Hr & Hparse & Hpos & Hst).
  unfold succeeds in Hsucc. unfold run_call.
  destruct (commitAttendance_cases (call_now c) (call_session_id c)
              (call_records c) s) as [(code & msg & Hrej & _) | Haccept].
  { rewrite Hrej in Hsucc. discriminate Hsucc. }
  destruct Haccept
    as (recs & sid' & cls & rest & Hrecs & Hsid' & _ & _ & Hcount & Hvalid & ->).
  rewrite Hrecords in Hrecs. injection Hrecs as <-.
  rewrite Hsid in Hsid'. injection Hsid' as <-.
  cbn [snd].
  apply (membership_check_iff s _ _ Hpk) in Hcount. destruct Hcount as [Hnodup _].
  rewrite <- (studentIds_of_validRecords records Hvalid) in Hnodup.
  assert (Hin : In r (validRecords_of records)).
  { apply filter_In. split; [exact Hr |].
    rewrite Hparse, (Hvalid r Hr). cbn [valid_id].
    apply Z.ltb_lt in Hpos. rewrite Hpos. reflexivity. }
  destruct (in_split _ _ Hin) as (l1 & l2 & Hsplit).
  rewrite Hsplit in Hnodup |- *.
  assert (Hpos' := proj2 (Z.ltb_lt 0 stu) Hpos).
  rewrite studentIds_of_app, studentIds_of_cons, Hparse, Hpos' in Hnodup.
  apply NoDup_remove_2 in Hnodup.
  assert (Hl1 : forall r', In r' l1 -> Js.parseInt (rec_student_id r') <> Some stu).
  { intros r' Hr' Hp. apply Hnodup, in_or_app. left.
    apply studentIds_of_In. exists r'. tauto. }
  assert (Hl2 : forall r', In r' l2 -> Js.parseInt (rec_student_id r') <> Some stu).
  { intros r' Hr' Hp. apply Hnodup, in_or_app. right.
    apply studentIds_of_In. exists r'. tauto. }
  rewrite write_records_app.
  change (write_records (call_now c) sid (r :: l2) ?s0)
    with (write_records (call_now c) sid l2 (write_record (call_now c) sid r s0)).
  rewrite rows_of_write_records_other by exact Hl2.
  unfold write_record at 1. rewrite Hparse, Hst.
  rewrite rows_of_upsert_same.
  rewrite rows_of_write_records_other by exact Hl1.
  eexists. reflexivity.
Qed.

(** C2. Starting from a store with no record for the pair, after a first
    successful marking, any further calls, and a later successful marking,
    the pair has exactly one attendance row; the row is the one the first
    call inserted with only its status changed, so its timestamp is that of
    the first call. *)
Theorem upsert_keeps_one_row_and_first_timestamp
  (s : Store.t) (c1 c2 : commit_call) (cs : list commit_call)
  (sid stu : Z) (st1 st2 : string) :
  primary_key_students s ->
  rows_of sid stu s = [] ->
  succeeds c1 s ->
  marks c1 sid stu st1 ->
  succeeds c2 (run_calls cs (run_call c1 s)) ->
  marks c2 sid stu st2 ->
  exists id,
    let row st :=
      {| a_id := id; a_session_id := sid; a_student_id := stu;
         a_status := st; a_marked_at := call_now c1 |} in
    rows_of sid stu (run_call c1 s) = [row st1]
    /\ (exists st, rows_of sid stu (run_calls cs (run_call c1 s)) = [row st])
    /\ rows_of sid stu (run_call c2 (run_calls cs (run_call c1 s))) = [row st2].
Proof.
  intros Hpk Hnone Hsucc1 Hmarks1 Hsucc2 Hmarks2.
  destruct (rows_of_marking_call c1 sid stu st1 s Hpk Hsucc1 Hmarks1) as [id H1].
  rewrite Hnone in H1.
  exists id. cbv zeta.
  split; [exact H1 |].
  pose (a1 := {| a_id := id; a_session_id := sid; a_student_id := stu;
                 a_status := st1; a_marked_at := call_now c1 |}).
  destruct (rows_of_run_calls_kept sid stu cs a1 st1 _ H1) as [st H2].
  split; [exists st; exact H2 |].
  assert (Hpk2 : primary_key_students (run_calls cs (run_call c1 s))).
  { unfold primary_key_students.
    rewrite students_run_calls, students_run_call. exact Hpk. }
  destruct (rows_of_marking_call c2 sid stu st2 _ Hpk2 Hsucc2 Hmarks2) as [id' H3].
  rewrite H2 in H3. exact H3.
Qed.

Lemma upsert_keeps_one_row_and_first_timestamp_witness :
  let c1 := {| call_now := 1704880800; call_session_id := Js.Number 1;
               call_records := Some [Demo.mark 1 "present"] |} in
  let c2 := {| call_now := 1704967200; call_session_id := Js.Str "1";
               call_records := Some [Demo.mark 1 "ABSENT"] |} in
  let other := {| call_now := 1704900000; call_session_id := Js.Number 1;
                  call_records := Some [Demo.mark 3 "absent"] |} in
  exists id,
    let row st :=
      {| a_id := id; a_session_id := 1; a_student_id := 1;
         a_status := st; a_marked_at := 1704880800 |} in
    rows_of 1 1 (run_call c1 Demo.store) = [row "present"]
    /\ (exists st, rows_of 1 1 (run_calls [other] (run_call c1 Demo.store)) = [row st])
    /\ rows_of 1 1 (run_call c2 (run_calls [other] (run_call c1 Demo.store)))
       = [row "absent"].
Proof.
  intros c1 c2 other.
  apply (upsert_keeps_one_row_and_first_timestamp
           Demo.store c1 c2 [other] 1 1 "present" "absent").
  - exact (pk_students _ schema_ok_demo).
  - reflexivity.
  - vm_compute. reflexivity.
  - split; [reflexivity |].
    exists [Demo.mark 1 "present"], (Demo.mark 1 "present").
    repeat split; try reflexivity. left. reflexivity.
  - vm_compute. reflexivity.
  - split; [reflexivity |].
    exists [Demo.mark 1 "ABSENT"], (Demo.mark 1 "ABSENT").
    repeat split; try reflexivity. left. reflexivity.
Defined.

Example upsert_example :
  attendance
    (run_calls
       [ {| call_now := 1704880800; call_session_id := Js.Number 1;
            call_records := Some [Demo.mark 1 "present"; Demo.mark 3 "absent"] |};
         {| call_now := 1704967200; call_session_id := Js.Number 1;
            call_records := Some [Demo.mark 1 "absent"] |} ]
       Demo.store)
  = [ {| a_id := 1; a_session_id := 1; a_student_id := 1;
         a_status := "absent"; a_marked_at := 1704880800 |};
      {| a_id := 2; a_session_id := 1; a_student_id := 3;
         a_status := "absent"; a_marked_at := 1704880800 |} ].
Proof. vm_compute. reflexivity. Qed.

(** ** [ORDER BY] *)

Section Ordering.
Context {A : Type}.
Variable leb : A -> A -> bool.

Lemma insert_row_perm (x : A) (l : list A) :
  Permutation (x :: l) (Sql.insert_row leb x l).
Proof.
  induction l as [| y l IH]; cbn [Sql.insert_row]; [reflexivity |].
  destruct (leb x y); [reflexivity |].
  rewrite perm_swap. constructor. exact IH.
Qed.

Lemma order_by_perm (l : list A) : Permutation l (Sql.order_by leb l).
Proof.
  induction l as [| x l IH]; [constructor |].
  unfold Sql.order_by. cbn [fold_right]. fold (Sql.order_by leb l).
  rewrite <- insert_row_perm. constructor. exact IH.
Qed.

Lemma order_by_In (l : list A) (x : A) : In x (Sql.order_by leb l) <-> In x l.
Proof.
  split; apply Permutation_in;
    [symmetry |]; apply order_by_perm.
Qed.

Lemma order_by_length (l : list A) :
  List.length (Sql.order_by leb l) = List.length l.
Proof. symmetry. apply Permutation_length, order_by_perm. Qed.

Hypothesis leb_total : forall x y, leb x y = true \/ leb y x = true.
Hypothesis leb_trans :
  forall x y z, leb x y = true -> leb y z = true -> leb x z = true.

Lemma insert_row_sorted (x : A) (l : list A) :
  StronglySorted (before leb) l -> StronglySorted (before leb) (Sql.insert_row leb x l).
Proof.
  induction l as [| y l IH]; intros Hs; cbn [Sql.insert_row].
  - repeat constructor.
  - inversion Hs as [| y' l' Hs' Hall]; subst.
    destruct (leb x y) eqn:Hxy.
    + constructor; [exact Hs |].
      constructor; [exact Hxy |].
      eapply Forall_impl; [| exact Hall].
      intros z Hyz. exact (leb_trans x y z Hxy Hyz).
    + constructor; [apply IH; exact Hs' |].
      apply (Permutation_Forall (insert_row_perm x l)).
      constructor; [| exact Hall].
      destruct (leb_total x y) as [H | H]; [congruence | exact H].
Qed.

Lemma order_by_sorted (l : list A) :
  StronglySorted (before leb) (Sql.order_by leb l).
Proof.
  induction l as [| x l IH]; [constructor |].
  unfold Sql.order_by. cbn [fold_right]. apply insert_row_sorted. exact IH.
Qed.
End Ordering.

Lemma StronglySorted_weaken {A : Type} (R R' : A -> A -> Prop) (l : list A) :
  (forall x y, R x y -> R' x y) -> StronglySorted R l -> StronglySorted R' l.
Proof.
  intros Himp Hs. induction Hs as [| x l Hs IH Hall]; constructor.
  - exact IH.
  - eapply Forall_impl; [| exact Hall]. intros y. apply Himp.
Qed.

(** ** The student report *)

Lemma inner_join_In {A B : Type} (on : A -> B -> bool) (l : list A) (r : list B)
  (x : A) (y : B) :
  In (x, y) (Sql.inner_join on l r) <-> In x l /\ In y r /\ on x y = true.
Proof.
  unfold Sql.inner_join. rewrite in_flat_map. split.
  - intros (x' & Hx' & Hin). apply in_map_iff in Hin.
    destruct Hin as (y' & Heq & Hy'). injection Heq as -> ->.
    apply filter_In in Hy'. tauto.
  - intros (Hx & Hy & Hon). exists x. split; [exact Hx |].
    apply in_map. apply filter_In. tauto.
Qed.

Lemma student_report_rows_In (n : Z) (s : Store.t) (r : report_row) :
  In r (student_report_rows n s)
  <-> exists a sess c,
        In a (attendance s) /\ In sess (sessions s) /\ In c (classes s)
        /\ a_session_id a = sess_id sess
        /\ sess_class_id sess = c_id c
        /\ a_student_id a = n
        /\ r = {| status := a_status a;
                  marked_at := a_marked_at a;
                  session_id := sess_id sess;
                  date := sess_date sess;
                  topic := sess_topic sess;
                  class_id := c_id c;
                  class_name := c_name c |}.
Proof.
  unfold student_report_rows. rewrite in_map_iff. split.
  - intros ([[a sess] c] & Heq & Hin).
    apply filter_In in Hin. destruct Hin as [Hin Hstu].
    apply inner_join_In in Hin. destruct Hin as (Hin & Hc & Hon2).
    apply inner_join_In in Hin. destruct Hin as (Ha & Hsess & Hon1).
    cbn [fst snd] in *. apply Z.eqb_eq in Hstu, Hon1, Hon2.
    exists a, sess, c. repeat split; try assumption. symmetry. exact Heq.
  - intros (a & sess & c & Ha & Hsess & Hc & Hon1 & Hon2 & Hstu & ->).
    exists (a, sess, c). split; [reflexivity |].
    apply filter_In. cbn [fst snd]. split; [| apply Z.eqb_eq; exact Hstu].
    apply inner_join_In. cbn [fst snd].
    split; [| split; [exact Hc | apply Z.eqb_eq; exact Hon2]].
    apply inner_join_In. repeat split; try assumption. apply Z.eqb_eq. exact Hon1.
Qed.

Lemma date_desc_id_desc_spec (r1 r2 : report_row) :
  date_desc_id_desc r1 r2 = true
  <-> date r2 < date r1 \/ (date r1 = date r2 /\ session_id r2 <= session_id r1).
Proof.
  unfold date_desc_id_desc.
  rewrite orb_true_iff, andb_true_iff, Z.ltb_lt, Z.eqb_eq, Z.leb_le. tauto.
Qed.

(** C9. The student report holds exactly the attendance rows of the student
    (joined with their session and class), latest date first, and among
    rows of one date the larger session id first. *)
Theorem studentReport_sorted (studentId : Z) (s : Store.t) :
  StronglySorted
    (fun r1 r2 =>
       date r2 < date r1 \/ (date r1 = date r2 /\ session_id r2 <= session_id r1))
    (studentReport studentId s)
  /\ Permutation (student_report_rows studentId s) (studentReport studentId s)
  /\ forall r,
       In r (studentReport studentId s)
       <-> exists a sess c,
             In a (attendance s) /\ In sess (sessions s) /\ In c (classes s)
             /\ a_session_id a = sess_id sess
             /\ sess_class_id sess = c_id c
             /\ a_student_id a = studentId
             /\ r = {| status := a_status a;
                       marked_at := a_marked_at a;
                       session_id := sess_id sess;
                       date := sess_date sess;
                       topic := sess_topic sess;
                       class_id := c_id c;
                       class_name := c_name c |}.
Proof.
  unfold studentReport. split; [| split].
  - eapply StronglySorted_weaken;
      [| apply (order_by_sorted date_desc_id_desc)].
    + intros r1 r2 H. apply date_desc_id_desc_spec. exact H.
    + intros x y.
      destruct (date_desc_id_desc x y) eqn:Hxy; [left; reflexivity |].
      right. apply date_desc_id_desc_spec.
      assert (Hn : ~ (date y < date x
                      \/ (date x = date y /\ session_id y <= session_id x))).
      { rewrite <- date_desc_id_desc_spec. congruence. }
      lia.
    + intros x y z Hxy Hyz.
      apply date_desc_id_desc_spec in Hxy, Hyz.
      apply date_desc_id_desc_spec. lia.
  - apply order_by_perm.
  - intros r. rewrite order_by_In. apply student_report_rows_In.
Qed.

Lemma parseInt_truthy (v : Js.value) (n : Z) :
  Js.parseInt v = Some n -> 0 < n -> Js.truthy v = true.
Proof.
  intros Hparse Hpos. destruct v as [| | b | m | str]; cbn [Js.truthy].
  - vm_compute in Hparse. discriminate Hparse.
  - vm_compute in Hparse. discriminate Hparse.
  - destruct b; vm_compute in Hparse; discriminate Hparse.
  - unfold Js.parseInt in Hparse. cbn [Js.to_string] in Hparse.
    rewrite parseInt_number_to_string in Hparse. injection Hparse as ->.
    apply negb_true_iff, Z.eqb_neq. lia.
  - destruct str; [vm_compute in Hparse; discriminate Hparse | reflexivity].
Qed.

Lemma number_to_string_not_empty (n : Z) : Js.number_to_string n <> "".
Proof.
  intros Heq. pose proof (parseInt_number_to_string n) as Hparse.
  rewrite Heq in Hparse. vm_compute in Hparse. discriminate Hparse.
Qed.

Lemma string_eqb_false (a b : string) : a <> b -> String.eqb a b = false.
Proof. intros H. apply String.eqb_neq. exact H. Qed.

(** ** Who may read a student report *)

(** The handler answers with the report for an administrator, a teacher, or
    the student the report is about, when the id is within INTEGER, and
    with the store error when it is beyond. *)
Lemma get_api_reports_by_student_reply (u : user) (student_id : Js.value)
  (n : Z) (s : Store.t) :
  Js.parseInt student_id = Some n -> 0 < n ->
  role u = "admin" \/ role u = "teacher"
  \/ (role u = "student" /\ user_student_id u = Some n) ->
  get_api_reports_by_student (Some u) student_id s
  = if int4 n then Reply 200 (studentReport n s)
    else Error 500 "Database error".
Proof.
  intros Hparse Hpos Hrole.
  unfold get_api_reports_by_student, requireAuth.
  rewrite (parseInt_truthy _ _ Hparse Hpos), Hparse. cbn [negb].
  replace (n <=? 0) with false by (symmetry; apply Z.leb_gt; exact Hpos).
  destruct Hrole as [-> | [-> | [-> Hown]]]; try reflexivity.
  cbn [String.eqb Ascii.eqb Bool.eqb].
  unfold no_student_id, student_id_string. rewrite Hown.
  replace (n =? 0) with false by (symmetry; apply Z.eqb_neq; lia).
  rewrite String.eqb_refl. reflexivity.
Qed.

(** C8. A student who asks for the report of another student (or who has
    no student record) is answered 403 by the report and by the export,
    whatever the export format. *)
Theorem student_denied_other_student_report
  (int4in : string -> option Z) (u : user) (student_id format : Js.value)
  (n : Z) (s : Store.t) :
  role u = "student" ->
  Js.parseInt student_id = Some n ->
  0 < n ->
  user_student_id u <> Some n ->
  get_api_reports_by_student (Some u) student_id s
  = Error 403 "Forbidden: You can only view your own attendance"
  /\ get_api_reports_by_student_export int4in (Some u) student_id format s
     = Error 403 "Forbidden".
Proof.
  intros Hrole Hparse Hpos Hother.
  pose proof (parseInt_truthy _ _ Hparse Hpos) as Htruthy.
  split.
  - unfold get_api_reports_by_student, requireAuth.
    rewrite Htruthy, Hparse, Hrole. cbn [negb].
    replace (n <=? 0) with false by (symmetry; apply Z.leb_gt; exact Hpos).
    cbn [String.eqb Ascii.eqb Bool.eqb].
    replace (no_student_id u
             || negb (String.eqb (student_id_string u) (Js.number_to_string n)))
      with true; [reflexivity |].
    symmetry. unfold no_student_id, student_id_string.
    destruct (user_student_id u) as [m |]; [| reflexivity].
    destruct (m =? 0); [reflexivity |]. cbn [orb].
    apply negb_true_iff, string_eqb_false.
    intros Heq. apply number_to_string_inj in Heq. congruence.
  - unfold get_api_reports_by_student_export, requireAuth.
    rewrite Htruthy, Hrole. cbn [negb].
    cbn [String.eqb Ascii.eqb Bool.eqb].
    replace (no_student_id u
             || negb (String.eqb (student_id_string u) (Js.to_string student_id)))
      with true; [reflexivity |].
    symmetry. unfold no_student_id, student_id_string.
    destruct (user_student_id u) as [m |]; [| reflexivity].
    destruct (m =? 0); [reflexivity |]. cbn [orb].
    apply negb_true_iff, string_eqb_false.
    intros Heq. unfold Js.parseInt in Hparse. rewrite <- Heq in Hparse.
    rewrite parseInt_number_to_string in Hparse. congruence.
Qed.

Lemma student_denied_other_student_report_witness :
  get_api_reports_by_student (Some Demo.student_aditya) (Js.Str "3") Demo.store
  = Error 403 "Forbidden: You can only view your own attendance"
  /\ get_api_reports_by_student_export Js.parseInt_string
       (Some Demo.student_aditya) (Js.Str "3") (Js.Str "pdf") Demo.store
     = Error 403 "Forbidden".
Proof.
  apply (student_denied_other_student_report Js.parseInt_string
           Demo.student_aditya (Js.Str "3") (Js.Str "pdf") 3 Demo.store).
  - reflexivity.
  - reflexivity.
  - lia.
  - cbn. discriminate.
Defined.

(** ** The format of a student's own export *)

Section OwnExport.
Variable int4in : string -> option Z.
Variables (u : user) (m : Z) (s : Store.t).
Hypothesis Hrole : role u = "student".
Hypothesis Hown : user_student_id u = Some m.
Hypothesis Hnonzero : m <> 0.

(** Past the ownership check, the handler looks at the format only. *)
Lemma own_export_unfold (format : Js.value) :
  get_api_reports_by_student_export int4in (Some u)
    (Js.Str (Js.number_to_string m)) format s
  = let format := format_or_default format in
    if Js.truthy format
       && negb (String.eqb (Js.toLowerCase (Js.to_string format)) "pdf")
    then Error 400 "Students can only download PDF reports."
    else
      match int4in (Js.number_to_string m) with
      | None => Error 500 "Database error"
      | Some id =>
          if is_pdf format then
            Reply 200 (Pdf ("student-" ++ Js.number_to_string m ++ "-report.pdf")
                           (studentReport id s))
          else
            Reply 200 (Csv ("student-" ++ Js.number_to_string m ++ "-report")
                           (studentReport id s))
      end.
Proof.
  unfold get_api_reports_by_student_export, requireAuth.
  cbn [Js.truthy Js.to_string].
  rewrite (string_eqb_false _ _ (number_to_string_not_empty m)), Hrole.
  cbn [negb String.eqb Ascii.eqb Bool.eqb].
  unfold no_student_id, student_id_string. rewrite Hown.
  replace (m =? 0) with false by (symmetry; apply Z.eqb_neq; exact Hnonzero).
  rewrite String.eqb_refl. reflexivity.
Qed.

(** The tabular format, named or taken by default, is refused with 400. *)
Lemma own_export_csv_refused (format : Js.value) :
  format = Js.Undefined \/ format = Js.Str "csv" ->
  get_api_reports_by_student_export int4in (Some u)
    (Js.Str (Js.number_to_string m)) format s
  = Error 400 "Students can only download PDF reports.".
Proof.
  intros [-> | ->]; rewrite own_export_unfold; reflexivity.
Qed.

Hypothesis Hint : int4in (Js.number_to_string m) = Some m.

(** The document format is served. *)
Lemma own_export_pdf_served :
  get_api_reports_by_student_export int4in (Some u)
    (Js.Str (Js.number_to_string m)) (Js.Str "pdf") s
  = Reply 200 (Pdf ("student-" ++ Js.number_to_string m ++ "-report.pdf")
                   (studentReport m s)).
Proof. rewrite own_export_unfold, Hint. reflexivity. Qed.

(** C7 fails here.  A format that is not the exact string pdf but passes
    the student check (it lower-cases to pdf, or it is empty) is served,
    and what is served is the tabular attachment. *)
Theorem own_export_csv_served_to_student (f : string) :
  f <> "pdf" ->
  f = "" \/ Js.toLowerCase f = "pdf" ->
  get_api_reports_by_student_export int4in (Some u)
    (Js.Str (Js.number_to_string m)) (Js.Str f) s
  = Reply 200 (Csv ("student-" ++ Js.number_to_string m ++ "-report")
                   (studentReport m s)).
Proof.
  intros Hnot Hpass. rewrite own_export_unfold, Hint.
  cbn [format_or_default Js.truthy Js.to_string is_pdf].
  rewrite (string_eqb_false _ _ Hnot).
  destruct Hpass as [-> | ->]; [reflexivity |].
  rewrite String.eqb_refl, andb_false_r. reflexivity.
Qed.
End OwnExport.

Lemma own_export_csv_served_to_student_witness :
  get_api_reports_by_student_export Js.parseInt_string (Some Demo.student_aditya)
    (Js.Str "1") (Js.Str "PDF") Demo.store
  = Reply 200 (Csv "student-1-report" (studentReport 1 Demo.store)).
Proof.
  apply (own_export_csv_served_to_student Js.parseInt_string
           Demo.student_aditya 1 Demo.store).
  - reflexivity.
  - reflexivity.
  - lia.
  - reflexivity.
  - discriminate.
  - right. reflexivity.
Defined.

(** An administrator or a teacher is served either format. *)
Lemma staff_export_either_format (int4in : string -> option Z) (u : user)
  (student_id format : Js.value) (id : Z) (s : Store.t) :
  role u = "admin" \/ role u = "teacher" ->
  Js.truthy student_id = true ->
  int4in (Js.to_string student_id) = Some id ->
  get_api_reports_by_student_export int4in (Some u) student_id format s
  = if is_pdf (format_or_default format)
    then Reply 200 (Pdf ("student-" ++ Js.to_string student_id ++ "-report.pdf")
                        (studentReport id s))
    else Reply 200 (Csv ("student-" ++ Js.to_string student_id ++ "-report")
                        (studentReport id s)).
Proof.
  intros Hrole Htruthy Hint.
  unfold get_api_reports_by_student_export, requireAuth.
  rewrite Htruthy, Hint. cbn [negb].
  destruct Hrole as [-> | ->]; reflexivity.
Qed.

(** ** Joins and grouping *)

Lemma left_join_pad {A B : Type} (on : A -> B -> bool) (l : list A) (r : list B) :
  Sql.left_join on l r
  = flat_map (fun x => map (pair x) (pad (filter (on x) r))) l.
Proof.
  unfold Sql.left_join. apply flat_map_ext. intros x.
  destruct (filter (on x) r) as [| y ys]; [reflexivity |].
  unfold pad. rewrite map_map. reflexivity.
Qed.

Lemma left_join_single {A B : Type} (on : A -> B -> bool) (l : list A) (r : list B) :
  (forall x, In x l -> (List.length (filter (on x) r) <= 1)%nat) ->
  Sql.left_join on l r = map (fun x => (x, hd_error (filter (on x) r))) l.
Proof.
  unfold Sql.left_join. induction l as [| x l IH]; intros Hone; [reflexivity |].
  cbn [flat_map]. rewrite IH by (intros y Hy; apply Hone; right; exact Hy).
  specialize (Hone x (or_introl eq_refl)).
  change (map (fun x0 => (x0, hd_error (filter (on x0) r))) (x :: l))
    with ((x, hd_error (filter (on x) r))
            :: map (fun x0 => (x0, hd_error (filter (on x0) r))) l).
  destruct (filter (on x) r) as [| y [| z ys]]; cbn [List.length] in Hone;
    [reflexivity | reflexivity | lia].
Qed.

Lemma filter_key_at_most_one {A K : Type} (key : A -> K) (p : A -> bool) (k : K)
  (l : list A) :
  NoDup (map key l) ->
  (forall y, p y = true -> key y = k) ->
  (List.length (filter p l) <= 1)%nat.
Proof.
  intros Hnd Hp. induction l as [| y l IH]; [cbn; lia |].
  cbn [map] in Hnd. inversion Hnd as [| k' l' Hnotin Hnd']; subst.
  cbn [filter]. destruct (p y) eqn:Hpy; [| apply IH; exact Hnd'].
  cbn [List.length].
  destruct (filter p l) as [| z zs] eqn:Hf; [cbn; lia |].
  exfalso. apply Hnotin.
  assert (Hz : In z (filter p l)) by (rewrite Hf; left; reflexivity).
  apply filter_In in Hz. destruct Hz as [Hzin Hpz].
  rewrite (Hp y Hpy), <- (Hp z Hpz). apply in_map. exact Hzin.
Qed.

Lemma filter_map_swap {A B : Type} (p : B -> bool) (g : A -> B) (l : list A) :
  filter p (map g l) = map g (filter (fun x => p (g x)) l).
Proof.
  induction l as [| x l IH]; [reflexivity |].
  cbn [map filter]. destruct (p (g x)); cbn [map]; rewrite IH; reflexivity.
Qed.

Lemma filter_flat_map {Row Out : Type} (keep : Out -> bool)
  (expand : Row -> list Out) :
  forall table,
    filter keep (flat_map expand table)
    = flat_map (fun row => filter keep (expand row)) table.
Proof.
  intros l. induction l as [| x l IH]; [reflexivity |].
  cbn [flat_map]. rewrite filter_app, IH. reflexivity.
Qed.

Lemma flat_map_filter {A B : Type} (p : A -> bool) (f : A -> list B) (l : list A) :
  flat_map (fun x => if p x then f x else []) l = flat_map f (filter p l).
Proof.
  induction l as [| x l IH]; [reflexivity |].
  cbn [flat_map filter]. destruct (p x); cbn [flat_map app]; rewrite IH; reflexivity.
Qed.

Lemma map_flat_map_comm {A B C : Type} (g : B -> C) (f : A -> list B) (l : list A) :
  map g (flat_map f l) = flat_map (fun x => map g (f x)) l.
Proof.
  induction l as [| x l IH]; [reflexivity |].
  cbn [flat_map]. rewrite map_app, IH. reflexivity.
Qed.

Lemma filter_all_true {A : Type} (p : A -> bool) (l : list A) :
  (forall x, In x l -> p x = true) -> filter p l = l.
Proof.
  induction l as [| x l IH]; intros Hall; [reflexivity |].
  cbn [filter]. rewrite (Hall x (or_introl eq_refl)).
  f_equal. apply IH. intros y Hy. apply Hall. right. exact Hy.
Qed.

Lemma filter_all_false {A : Type} (p : A -> bool) (l : list A) :
  (forall x, In x l -> p x = false) -> filter p l = [].
Proof.
  induction l as [| x l IH]; intros Hall; [reflexivity |].
  cbn [filter]. rewrite (Hall x (or_introl eq_refl)).
  apply IH. intros y Hy. apply Hall. right. exact Hy.
Qed.

Lemma filter_twice {A : Type} (p : A -> bool) (l : list A) :
  filter p (filter p l) = filter p l.
Proof.
  apply filter_all_true. intros x Hx. apply filter_In in Hx. tauto.
Qed.

Section Grouping.
Context {S A K : Type}.
Variable eqb : K -> K -> bool.
Hypothesis eqb_spec : forall a b, eqb a b = true <-> a = b.
Variable key : A -> K.
Variable source_key : S -> K.
Variable rows : S -> list A.
Hypothesis rows_not_empty : forall x, rows x <> [].
Hypothesis rows_key : forall x r, In r (rows x) -> key r = source_key x.

Lemma eqb_refl_true (k : K) : eqb k k = true.
Proof. apply eqb_spec. reflexivity. Qed.

Lemma eqb_false_neq (a b : K) : a <> b -> eqb a b = false.
Proof.
  intros Hne. destruct (eqb a b) eqn:H; [| reflexivity].
  apply eqb_spec in H. contradiction.
Qed.

(** The distinct values of a list that starts with a run of [k]. *)
Lemma distinct_run (k : K) (l l2 : list K) :
  l <> [] -> (forall x, In x l -> x = k) ->
  Sql.distinct eqb (l ++ l2)
  = k :: filter (fun k' => negb (eqb k k')) (Sql.distinct eqb l2).
Proof.
  induction l as [| x l IH]; intros Hne Hall; [contradiction |].
  assert (x = k) by (apply Hall; left; reflexivity). subst x.
  rewrite <- app_comm_cons. cbn [Sql.distinct]. f_equal.
  destruct l as [| y l]; [reflexivity |].
  rewrite IH; [| discriminate | intros z Hz; apply Hall; right; exact Hz].
  cbn [filter]. rewrite eqb_refl_true. cbn [negb]. apply filter_twice.
Qed.

Lemma distinct_keys (l : list S) :
  NoDup (map source_key l) ->
  Sql.distinct eqb (map key (flat_map rows l)) = map source_key l.
Proof.
  induction l as [| x l IH]; intros Hnd; [reflexivity |].
  cbn [map] in Hnd. inversion Hnd as [| k l' Hnotin Hnd']; subst.
  cbn [flat_map map]. rewrite map_app.
  rewrite (distinct_run (source_key x)).
  - rewrite IH by exact Hnd'. f_equal.
    apply filter_all_true. intros k Hk.
    apply negb_true_iff, eqb_false_neq. intros Heq. subst k. contradiction.
  - intros Hnil. apply map_eq_nil in Hnil. exact (rows_not_empty x Hnil).
  - intros k Hk. apply in_map_iff in Hk. destruct Hk as (r & <- & Hr).
    apply rows_key. exact Hr.
Qed.

Lemma group_rows (l : list S) (x : S) :
  NoDup (map source_key l) -> In x l ->
  filter (fun r => eqb (key r) (source_key x)) (flat_map rows l) = rows x.
Proof.
  induction l as [| y l IH]; intros Hnd Hin; [destruct Hin |].
  cbn [map] in Hnd. inversion Hnd as [| k l' Hnotin Hnd']; subst.
  cbn [flat_map]. rewrite filter_app.
  destruct Hin as [-> | Hin].
  - rewrite filter_all_true.
    + rewrite filter_all_false; [apply app_nil_r |].
      intros r Hr. apply in_flat_map in Hr. destruct Hr as (z & Hz & Hr).
      apply eqb_false_neq. rewrite (rows_key z r Hr). intros Heq.
      apply Hnotin. rewrite <- Heq. apply in_map. exact Hz.
    + intros r Hr. apply eqb_spec. apply rows_key. exact Hr.
  - rewrite filter_all_false.
    + cbn [app]. apply IH; assumption.
    + intros r Hr. apply eqb_false_neq. rewrite (rows_key y r Hr). intros Heq.
      apply Hnotin. rewrite Heq. apply in_map. exact Hin.
Qed.

(** Grouping rows that come source by source, each source with its own
    key, gives back one group per source. *)
Lemma group_by_flat_map (l : list S) :
  NoDup (map source_key l) ->
  Sql.group_by eqb key (flat_map rows l)
  = map (fun x => (source_key x, rows x)) l.
Proof.
  intros Hnd. unfold Sql.group_by.
  rewrite distinct_keys by exact Hnd. rewrite map_map.
  apply map_ext_in. intros x Hx. f_equal. apply group_rows; assumption.
Qed.
End Grouping.

(** ** The class summary *)

Lemma option_eqb_string_spec (a b : option string) :
  option_eqb String.eqb a b = true <-> a = b.
Proof.
  destruct a as [a |], b as [b |]; cbn [option_eqb].
  - rewrite String.eqb_eq. split; congruence.
  - split; discriminate.
  - split; discriminate.
  - tauto.
Qed.

Lemma student_key_eqb_spec (k1 k2 : student_key) :
  student_key_eqb k1 k2 = true <-> k1 = k2.
Proof.
  destruct k1 as [[id1 name1] roll1], k2 as [[id2 name2] roll2].
  unfold student_key_eqb. cbn [fst snd].
  rewrite !andb_true_iff, Z.eqb_eq, String.eqb_eq, option_eqb_string_spec.
  split; [intros [[-> ->] ->]; reflexivity | intros H; injection H; tauto].
Qed.

Lemma summary_joined_spec (classId : Z) (s : Store.t) :
  primary_key_sessions s ->
  summary_joined classId s
  = flat_map (summary_group s) (students_of_class classId s).
Proof.
  intros Hpk. unfold summary_joined.
  rewrite (left_join_single on_session_of_class).
  2: { intros x _.
       apply (filter_key_at_most_one sess_id _
                (match snd x with Some a => a_session_id a | None => 0 end)
                _ Hpk).
       intros sess Hon. unfold on_session_of_class in Hon.
       destruct (snd x) as [a |]; [| discriminate Hon].
       apply andb_true_iff in Hon. destruct Hon as [Hid _].
       apply Z.eqb_eq. exact Hid. }
  rewrite filter_map_swap. cbn [fst].
  rewrite left_join_pad, filter_flat_map.
  erewrite flat_map_ext.
  2: { intros st. rewrite filter_map_swap. cbn [fst].
       instantiate (1 := fun st =>
         if st_class_id st =? classId
         then map (pair st) (pad (filter (on_attendance_of_student st) (attendance s)))
         else []).
       cbv beta. destruct (st_class_id st =? classId).
       - rewrite filter_all_true by reflexivity. reflexivity.
       - rewrite filter_all_false by reflexivity. reflexivity. }
  rewrite (flat_map_filter (fun st => st_class_id st =? classId)).
  rewrite map_flat_map_comm. unfold students_of_class.
  apply flat_map_ext. intros st. rewrite map_map. reflexivity.
Qed.

Lemma non_null_pad {A B : Type} (f : A -> B) (l : list A) :
  Sql.non_null (map (option_map f) (pad l)) = map f l.
Proof.
  destruct l as [| x l]; [reflexivity |].
  unfold pad. rewrite map_map. cbn [option_map].
  generalize (x :: l). intros l'.
  induction l' as [| y l' IH]; [reflexivity |].
  cbn [map Sql.non_null]. rewrite IH. reflexivity.
Qed.

Lemma distinct_NoDup (l : list Z) : NoDup l -> Sql.distinct Z.eqb l = l.
Proof.
  induction l as [| x l IH]; intros Hnd; [reflexivity |].
  inversion Hnd as [| y l' Hnotin Hnd']; subst.
  cbn [Sql.distinct]. rewrite IH by exact Hnd'. f_equal.
  apply filter_all_true. intros y Hy.
  apply negb_true_iff, Z.eqb_neq. intros ->. contradiction.
Qed.

Lemma attendance_of_sessions_NoDup (s : Store.t) (st : student_row) :
  unique_attendance s ->
  NoDup (map a_session_id (attendance_of s st)).
Proof.
  intros Huq.
  assert (Hkeys : NoDup (map attendance_key (attendance_of s st)))
    by (apply NoDup_map_filter; exact Huq).
  assert (Hstu : forall a, In a (attendance_of s st) -> a_student_id a = st_id st).
  { intros a Ha. apply filter_In in Ha. destruct Ha as [_ Ha].
    apply Z.eqb_eq. exact Ha. }
  induction (attendance_of s st) as [| a l IH]; [constructor |].
  cbn [map] in *. inversion Hkeys as [| k l' Hnotin Hnd']; subst.
  constructor.
  - intros Hin. apply Hnotin. apply in_map_iff in Hin.
    destruct Hin as (b & Hb & Hbin). apply in_map_iff. exists b.
    split; [| exact Hbin]. unfold attendance_key.
    rewrite Hb, (Hstu a (or_introl eq_refl)), (Hstu b (or_intror Hbin)).
    reflexivity.
  - apply IH; [exact Hnd' |]. intros b Hb. apply Hstu. right. exact Hb.
Qed.

Lemma sum_present_flags (l : list attendance_row) :
  Sql.sum (map present_flag (pad l)) = Z.of_nat (List.length (filter is_present l)).
Proof.
  destruct l as [| x l]; [reflexivity |].
  unfold pad. rewrite map_map.
  generalize (x :: l). intros l'.
  induction l' as [| y l' IH]; [reflexivity |].
  cbn [map Sql.sum fold_right filter]. fold (Sql.sum (map (fun a => present_flag (Some a)) l')).
  rewrite IH. cbn [present_flag]. unfold is_present.
  destruct (String.eqb (a_status y) "present"); cbn [List.length]; lia.
Qed.

Lemma summary_select_group (s : Store.t) (st : student_row) :
  unique_attendance s ->
  summary_select (key_of st, summary_group s st) = summary_of s st.
Proof.
  intros Huq. unfold summary_select, summary_of, summary_group, key_of.
  cbn [fst snd]. rewrite !map_map. cbn [fst snd].
  change (fun x : option attendance_row => option_map a_session_id x)
    with (option_map a_session_id).
  change (fun x : option attendance_row => present_flag x) with present_flag.
  unfold Sql.count_distinct.
  rewrite non_null_pad, distinct_NoDup by (apply attendance_of_sessions_NoDup; exact Huq).
  rewrite length_map, sum_present_flags. reflexivity.
Qed.

Lemma key_of_NoDup (l : list student_row) :
  NoDup (map st_id l) -> NoDup (map key_of l).
Proof.
  intros Hnd. apply (NoDup_map_inv (fun k : student_key => fst (fst k))).
  rewrite map_map. exact Hnd.
Qed.

Lemma pad_not_empty {B : Type} (l : list B) : pad l <> [].
Proof. destruct l; discriminate. Qed.

(** Under the constraints of the schema the summary query computes, for
    each student of the class, the number of the student's attendance rows
    and the number of those marked present. *)
Lemma classSummary_spec (name_leb : string -> string -> bool) (classId : Z)
  (s : Store.t) :
  schema_ok s ->
  classSummary name_leb classId s
  = Sql.order_by (by_student_name name_leb)
      (map (summary_of s) (students_of_class classId s)).
Proof.
  intros Hok. unfold classSummary. f_equal.
  rewrite summary_joined_spec by exact (pk_sessions s Hok).
  rewrite (group_by_flat_map student_key_eqb student_key_eqb_spec
             (fun x => key_of (fst (fst x))) key_of (summary_group s)).
  - rewrite map_map. apply map_ext. intros st.
    apply summary_select_group. exact (uq_attendance s Hok).
  - intros st Hnil. apply map_eq_nil in Hnil. exact (pad_not_empty _ Hnil).
  - intros st r Hr. apply in_map_iff in Hr. destruct Hr as (oa & <- & _).
    reflexivity.
  - apply key_of_NoDup. apply NoDup_map_filter. exact (pk_students s Hok).
Qed.

Lemma string_leb_trans (s1 s2 s3 : string) :
  String.leb s1 s2 = true -> String.leb s2 s3 = true -> String.leb s1 s3 = true.
Proof.
  unfold String.leb. revert s2 s3.
  induction s1 as [| a s1 IH]; intros s2 s3 H12 H23.
  - destruct s3; reflexivity.
  - destruct s2 as [| b s2]; [discriminate H12 |].
    destruct s3 as [| c s3]; [discriminate H23 |].
    cbn [String.compare] in *. unfold Ascii.compare in *.
    destruct (N.compare_spec (N_of_ascii a) (N_of_ascii b));
      destruct (N.compare_spec (N_of_ascii b) (N_of_ascii c));
      destruct (N.compare_spec (N_of_ascii a) (N_of_ascii c));
      try reflexivity; try discriminate; try lia.
    apply (IH s2 s3); assumption.
Qed.

Lemma schema_ok_marked : schema_ok Demo.marked.
Proof.
  constructor.
  - unfold primary_key_students. cbn.
    repeat constructor; cbn; intuition discriminate.
  - unfold primary_key_sessions. cbn.
    repeat constructor; cbn; intuition discriminate.
  - unfold unique_attendance. cbn.
    repeat constructor; cbn; intuition discriminate.
  - intros a Ha. cbn in Ha. destruct Ha as [<- | [<- | []]]; cbn.
    + split; [exists Demo.session1 | exists Demo.aditya]; auto.
    + split; [exists Demo.session1 | exists Demo.chetan]; auto.
Defined.

Lemma same_class_marked : same_class Demo.marked.
Proof.
  intros a st sess Ha Hst Hsess Hid Hsid. cbn in Ha, Hst, Hsess.
  destruct Ha as [<- | [<- | []]];
    destruct Hst as [<- | [<- | [<- | []]]];
    destruct Hsess as [<- | [<- | []]];
    cbn in Hid, Hsid; try discriminate; reflexivity.
Defined.

Lemma summary_of_bounds (s : Store.t) (st : student_row) :
  presents (summary_of s st) + absents (summary_of s st) = total (summary_of s st)
  /\ 0 <= presents (summary_of s st) <= total (summary_of s st)
  /\ 0 <= absents (summary_of s st).
Proof.
  unfold summary_of. cbn [presents absents total].
  pose proof (filter_length_le is_present (attendance_of s st)). lia.
Qed.

(** C5. Every row of the class summary has presents + absents = total and
    0 <= presents <= total; and when no attendance is recorded for the
    students of the class, the summary has one row per student, all of
    them 0, 0, 0. *)
Theorem classSummary_rows_consistent
  (name_leb : string -> string -> bool) (classId : Z) (s : Store.t) :
  schema_ok s ->
  (forall r, In r (classSummary name_leb classId s) ->
     presents r + absents r = total r /\ 0 <= presents r <= total r
     /\ 0 <= absents r)
  /\ ((forall a st, In a (attendance s) -> In st (students_of_class classId s) ->
         a_student_id a <> st_id st) ->
      List.length (classSummary name_leb classId s)
      = List.length (students_of_class classId s)
      /\ forall r, In r (classSummary name_leb classId s) ->
           total r = 0 /\ presents r = 0 /\ absents r = 0).
Proof.
  intros Hok. rewrite classSummary_spec by exact Hok. split.
  - intros r Hr. apply order_by_In, in_map_iff in Hr.
    destruct Hr as (st & <- & _). apply summary_of_bounds.
  - intros Hnone. split.
    + rewrite order_by_length. apply length_map.
    + intros r Hr. apply order_by_In, in_map_iff in Hr.
      destruct Hr as (st & <- & Hst).
      assert (Hempty : attendance_of s st = []).
      { apply filter_all_false. intros a Ha.
        apply Z.eqb_neq. exact (Hnone a st Ha Hst). }
      unfold summary_of. rewrite Hempty. cbn. repeat split; reflexivity.
Qed.

Lemma classSummary_rows_consistent_witness :
  (forall r, In r (classSummary String.leb 1 Demo.store) ->
     presents r + absents r = total r /\ 0 <= presents r <= total r
     /\ 0 <= absents r)
  /\ List.length (classSummary String.leb 1 Demo.store)
     = List.length (students_of_class 1 Demo.store)
  /\ forall r, In r (classSummary String.leb 1 Demo.store) ->
       total r = 0 /\ presents r = 0 /\ absents r = 0.
Proof.
  destruct (classSummary_rows_consistent String.leb 1 Demo.store schema_ok_demo)
    as [Hrows Hzero].
  split; [exact Hrows |].
  apply Hzero. intros a st Ha. destruct Ha.
Defined.

Example classSummary_marked :
  classSummary String.leb 1 Demo.marked
  = [ {| student_id := 1; student_name := "aditya"; roll_number := Some "123";
         total := 1; presents := 1; absents := 0 |};
      {| student_id := 3; student_name := "chetan"; roll_number := Some "124";
         total := 1; presents := 0; absents := 1 |} ].
Proof. vm_compute. reflexivity. Qed.

Example classSummary_no_attendance :
  classSummary String.leb 1 Demo.store
  = [ {| student_id := 1; student_name := "aditya"; roll_number := Some "123";
         total := 0; presents := 0; absents := 0 |};
      {| student_id := 3; student_name := "chetan"; roll_number := Some "124";
         total := 0; presents := 0; absents := 0 |} ].
Proof. vm_compute. reflexivity. Qed.

(** With the foreign keys and the class invariant, the attendance rows of a
    student are as many as the sessions of the student's class in which the
    student has a record. *)
Lemma marked_sessions_count (s : Store.t) (st : student_row) :
  schema_ok s -> same_class s -> In st (students s) ->
  List.length (attendance_of s st) = List.length (marked_sessions s st).
Proof.
  intros Hok Hclass Hst.
  rewrite <- (length_map a_session_id (attendance_of s st)).
  rewrite <- (length_map sess_id (marked_sessions s st)).
  assert (Hnd1 : NoDup (map a_session_id (attendance_of s st)))
    by (apply attendance_of_sessions_NoDup; exact (uq_attendance s Hok)).
  assert (Hnd2 : NoDup (map sess_id (marked_sessions s st)))
    by (apply NoDup_map_filter; exact (pk_sessions s Hok)).
  apply Nat.le_antisymm; apply NoDup_incl_length; try assumption.
  - intros id Hid. apply in_map_iff in Hid. destruct Hid as (a & <- & Ha).
    apply filter_In in Ha. destruct Ha as [Ha Hstu]. apply Z.eqb_eq in Hstu.
    destruct (fk_attendance s Hok a Ha) as [(sess & Hsess & Hsid) _].
    apply in_map_iff. exists sess. split; [exact Hsid |].
    apply filter_In. split; [exact Hsess |].
    apply andb_true_iff. split.
    + apply Z.eqb_eq. symmetry.
      apply (Hclass a st sess); auto.
    + apply existsb_exists. exists a. split; [exact Ha |].
      apply andb_true_iff. rewrite !Z.eqb_eq. auto.
  - intros id Hid. apply in_map_iff in Hid. destruct Hid as (sess & <- & Hsess).
    apply filter_In in Hsess. destruct Hsess as [_ Hcond].
    apply andb_true_iff in Hcond. destruct Hcond as [_ Hex].
    apply existsb_exists in Hex. destruct Hex as (a & Ha & Hcond).
    apply andb_true_iff in Hcond. rewrite !Z.eqb_eq in Hcond.
    destruct Hcond as [Hstu Hsid].
    apply in_map_iff. exists a. split; [exact Hsid |].
    apply filter_In. split; [exact Ha | apply Z.eqb_eq; exact Hstu].
Qed.

(** C6. The class summary has one row per student of the class, students
    without attendance included, in ascending order of name; the total of a
    row is the number of sessions of the class in which the student has an
    attendance record, and absents = total - presents. *)
Theorem classSummary_one_row_per_student
  (name_leb : string -> string -> bool) (classId : Z) (s : Store.t) :
  (forall a b, name_leb a b = true \/ name_leb b a = true) ->
  (forall a b c, name_leb a b = true -> name_leb b c = true -> name_leb a c = true) ->
  schema_ok s ->
  same_class s ->
  let rows := classSummary name_leb classId s in
  Permutation (map student_id rows) (map st_id (students_of_class classId s))
  /\ StronglySorted
       (fun r1 r2 => name_leb (student_name r1) (student_name r2) = true) rows
  /\ forall r, In r rows ->
       exists st,
         In st (students s) /\ st_class_id st = classId
         /\ student_id r = st_id st
         /\ student_name r = st_name st
         /\ roll_number r = st_roll_number st
         /\ total r = Z.of_nat (List.length (marked_sessions s st))
         /\ presents r
            = Z.of_nat (List.length (filter is_present (attendance_of s st)))
         /\ absents r = total r - presents r.
Proof.
  intros Htotal Htrans Hok Hclass rows. subst rows.
  rewrite classSummary_spec by exact Hok. split; [| split].
  - rewrite <- (order_by_perm (by_student_name name_leb)).
    rewrite map_map. reflexivity.
  - apply (order_by_sorted (by_student_name name_leb)).
    + intros r1 r2. apply Htotal.
    + intros r1 r2 r3. apply Htrans.
  - intros r Hr. apply order_by_In, in_map_iff in Hr.
    destruct Hr as (st & <- & Hst).
    apply filter_In in Hst. destruct Hst as [Hst Hcls]. apply Z.eqb_eq in Hcls.
    exists st. unfold summary_of. cbn [student_id student_name roll_number
                                      total presents absents].
    rewrite (marked_sessions_count s st Hok Hclass Hst).
    repeat split; auto.
Qed.

Lemma classSummary_one_row_per_student_witness :
  let rows := classSummary String.leb 1 Demo.marked in
  Permutation (map student_id rows) (map st_id (students_of_class 1 Demo.marked))
  /\ StronglySorted
       (fun r1 r2 => String.leb (student_name r1) (student_name r2) = true) rows
  /\ forall r, In r rows ->
       exists st,
         In st (students Demo.marked) /\ st_class_id st = 1
         /\ student_id r = st_id st
         /\ student_name r = st_name st
         /\ roll_number r = st_roll_number st
         /\ total r = Z.of_nat (List.length (marked_sessions Demo.marked st))
         /\ presents r
            = Z.of_nat (List.length (filter is_present (attendance_of Demo.marked st)))
         /\ absents r = total r - presents r.
Proof.
  apply (classSummary_one_row_per_student String.leb 1 Demo.marked).
  - exact String.leb_total.
  - exact string_leb_trans.
  - exact schema_ok_marked.
  - exact same_class_marked.
Defined.

(** ** The export of the class summary *)

(** C4 fails here.  Class 12 met twice and attendance was taken in the
    first meeting only.  The summary counts, for each student, the one
    session with a record; the export counts both sessions of the class,
    and so reports one more absence per student. *)
Theorem export_total_counts_every_session_of_class
  (int4in : string -> option Z) :
  int4in "1" = Some 1 ->
  get_api_reports_summary_by_class String.leb (Some Demo.admin) (Js.Str "1")
    Demo.marked
  = Reply 200
      [ {| student_id := 1; student_name := "aditya"; roll_number := Some "123";
           total := 1; presents := 1; absents := 0 |};
        {| student_id := 3; student_name := "chetan"; roll_number := Some "124";
           total := 1; presents := 0; absents := 1 |} ]
  /\ get_api_reports_summary_by_class_export String.leb int4in
       (Some Demo.admin) (Js.Str "1") (Js.Str "csv") Demo.marked
     = Reply 200
         (Csv "class-1-summary"
            [ {| student_id := 1; student_name := "aditya";
                 roll_number := Some "123";
                 total := 2; presents := 1; absents := 1 |};
              {| student_id := 3; student_name := "chetan";
                 roll_number := Some "124";
                 total := 2; presents := 0; absents := 2 |} ]).
Proof.
  intros Hint. split; [vm_compute; reflexivity |].
  unfold get_api_reports_summary_by_class_export, requireAuth.
  cbn [Js.truthy Js.to_string format_or_default negb String.eqb Ascii.eqb
       Bool.eqb role Demo.admin is_pdf].
  rewrite Hint. vm_compute. reflexivity.
Qed.

Lemma export_total_counts_every_session_of_class_witness :
  get_api_reports_summary_by_class String.leb (Some Demo.admin) (Js.Str "1")
    Demo.marked
  = Reply 200
      [ {| student_id := 1; student_name := "aditya"; roll_number := Some "123";
           total := 1; presents := 1; absents := 0 |};
        {| student_id := 3; student_name := "chetan"; roll_number := Some "124";
           total := 1; presents := 0; absents := 1 |} ]
  /\ get_api_reports_summary_by_class_export String.leb Js.parseInt_string
       (Some Demo.admin) (Js.Str "1") (Js.Str "csv") Demo.marked
     = Reply 200
         (Csv "class-1-summary"
            [ {| student_id := 1; student_name := "aditya";
                 roll_number := Some "123";
                 total := 2; presents := 1; absents := 1 |};
              {| student_id := 3; student_name := "chetan";
                 roll_number := Some "124";
                 total := 2; presents := 0; absents := 2 |} ]).
Proof.
  apply (export_total_counts_every_session_of_class Js.parseInt_string).
  reflexivity.
Defined.

(** ** The commit keeps the constraints of the store *)

Lemma NoDup_map_injective {Row Col : Type} (column : Row -> Col) :
  forall table x y,
    NoDup (map column table) -> In x table -> In y table ->
    column x = column y -> x = y.
Proof.
  intros l. induction l as [| z l IH]; intros x y Hnd Hx Hy Heq; [destruct Hx |].
  cbn [map] in Hnd. inversion Hnd as [| k l' Hnotin Hnd']; subst.
  destruct Hx as [-> | Hx], Hy as [-> | Hy].
  - reflexivity.
  - exfalso. apply Hnotin. rewrite Heq. apply in_map. exact Hy.
  - exfalso. apply Hnotin. rewrite <- Heq. apply in_map. exact Hx.
  - apply IH; assumption.
Qed.

Lemma upsertSql_origin (now sid stu : Z) (st : string) (s : Store.t)
  (a' : attendance_row) :
  In a' (attendance (upsertSql now sid stu st s)) ->
  (exists a, In a (attendance s) /\ attendance_key a' = attendance_key a)
  \/ attendance_key a' = (sid, stu).
Proof.
  unfold upsertSql. cbn [attendance].
  destruct (existsb (same_key sid stu) (attendance s)).
  - intros Hin. apply in_map_iff in Hin. destruct Hin as (a & <- & Ha).
    left. exists a. split; [exact Ha |].
    destruct (same_key sid stu a); reflexivity.
  - intros Hin. apply in_app_or in Hin. destruct Hin as [Hin | [<- | []]].
    + left. exists a'. split; [exact Hin | reflexivity].
    + right. reflexivity.
Qed.

Lemma upsertSql_unique (now sid stu : Z) (st : string) (s : Store.t) :
  unique_attendance s -> unique_attendance (upsertSql now sid stu st s).
Proof.
  unfold unique_attendance, upsertSql. cbn [attendance]. intros Huq.
  destruct (existsb (same_key sid stu) (attendance s)) eqn:Hex.
  - rewrite map_map.
    erewrite map_ext; [exact Huq |].
    intros a. cbv beta. destruct (same_key sid stu a); reflexivity.
  - rewrite map_app. apply NoDup_app; [exact Huq | repeat constructor; intros [] |].
    intros k Hk [<- | []]. cbn [map attendance_key a_session_id a_student_id] in Hk.
    apply in_map_iff in Hk. destruct Hk as (a & Hkey & Ha).
    assert (Hfalse : same_key sid stu a = false).
    { apply (filter_nil_forall (same_key sid stu) (attendance s));
        [apply existsb_filter_nil; exact Hex | exact Ha]. }
    unfold attendance_key in Hkey. injection Hkey as Hs Hu.
    unfold same_key in Hfalse. rewrite Hs, Hu, !Z.eqb_refl in Hfalse.
    discriminate Hfalse.
Qed.

Lemma upsertSql_preserves (now sid stu classId : Z) (st : string) (s : Store.t) :
  schema_ok s -> same_class s ->
  (exists sess, In sess (sessions s) /\ sess_id sess = sid
                /\ sess_class_id sess = classId) ->
  in_class s classId stu ->
  schema_ok (upsertSql now sid stu st s) /\ same_class (upsertSql now sid stu st s).
Proof.
  intros Hok Hclass (sess0 & Hsess0 & Hsid0 & Hcls0) (st0 & Hst0 & Hid0 & Hstcls0).
  split.
  - constructor.
    + exact (pk_students s Hok).
    + exact (pk_sessions s Hok).
    + apply upsertSql_unique. exact (uq_attendance s Hok).
    + intros a' Ha'.
      destruct (upsertSql_origin _ _ _ _ _ _ Ha') as [(a & Ha & Hkey) | Hkey];
        unfold attendance_key in Hkey; injection Hkey as Hs Hu.
      * rewrite Hs, Hu. exact (fk_attendance s Hok a Ha).
      * split; [exists sess0 | exists st0]; cbn [sessions students upsertSql];
          split; congruence.
  - intros a' st1 sess1 Ha' Hst1 Hsess1 Hid1 Hsid1.
    cbn [students sessions upsertSql] in Hst1, Hsess1.
    destruct (upsertSql_origin _ _ _ _ _ _ Ha') as [(a & Ha & Hkey) | Hkey];
      unfold attendance_key in Hkey; injection Hkey as Hs Hu.
    + apply (Hclass a st1 sess1); try assumption; congruence.
    + assert (st1 = st0)
        by (apply (NoDup_map_injective st_id (students s));
            [exact (pk_students s Hok) | assumption | assumption | congruence]).
      assert (sess1 = sess0)
        by (apply (NoDup_map_injective sess_id (sessions s));
            [exact (pk_sessions s Hok) | assumption | assumption | congruence]).
      subst. congruence.
Qed.

Lemma write_records_preserves (now sid classId : Z) (l : list attendance_record) :
  forall s,
    schema_ok s -> same_class s ->
    (exists sess, In sess (sessions s) /\ sess_id sess = sid
                  /\ sess_class_id sess = classId) ->
    (forall r stu, In r l -> Js.parseInt (rec_student_id r) = Some stu ->
                   in_class s classId stu) ->
    schema_ok (write_records now sid l s) /\ same_class (write_records now sid l s).
Proof.
  induction l as [| r l IH]; intros s Hok Hclass Hsess Hin; [split; assumption |].
  change (write_records now sid (r :: l) s)
    with (write_records now sid l (write_record now sid r s)).
  assert (Hstep : schema_ok (write_record now sid r s)
                  /\ same_class (write_record now sid r s)
                  /\ students (write_record now sid r s) = students s
                  /\ sessions (write_record now sid r s) = sessions s).
  { unfold write_record.
    destruct (Js.parseInt (rec_student_id r)) as [stu |] eqn:Hparse;
      [| split; [exact Hok | split; [exact Hclass | split; reflexivity]]].
    destruct (upsertSql_preserves now sid stu classId (record_status r) s
                Hok Hclass Hsess (Hin r stu (or_introl eq_refl) Hparse))
      as [Hok1 Hclass1].
    split; [exact Hok1 | split; [exact Hclass1 | split; reflexivity]]. }
  destruct Hstep as (Hok' & Hclass' & Hstudents & Hsessions).
  apply IH; try assumption.
  - rewrite Hsessions. exact Hsess.
  - intros r' stu Hr' Hparse. unfold in_class. rewrite Hstudents.
    apply (Hin r' stu (or_intror Hr') Hparse).
Qed.

(** Whatever the request, the store after the call satisfies the schema and
    the class invariant if the store before the call does. *)
Lemma run_call_preserves (c : commit_call) (s : Store.t) :
  schema_ok s -> same_class s ->
  schema_ok (run_call c s) /\ same_class (run_call c s).
Proof.
  intros Hok Hclass. unfold run_call.
  destruct (commitAttendance_cases (call_now c) (call_session_id c)
              (call_records c) s) as [(code & msg & -> & _) | Haccept];
    [split; assumption |].
  destruct Haccept
    as (recs & sid & cls & rest & _ & _ & _ & Hsess & Hcount & Hvalid & ->).
  cbn [snd].
  apply (membership_check_iff s _ _ (pk_students s Hok)) in Hcount.
  destruct Hcount as [_ Hall].
  apply (write_records_preserves (call_now c) sid cls); try assumption.
  - unfold select_session_class in Hsess.
    assert (Hin : In cls (map sess_class_id
                            (filter (fun sess => sess_id sess =? sid) (sessions s))))
      by (rewrite Hsess; left; reflexivity).
    apply in_map_iff in Hin. destruct Hin as (sess & Hcls & Hin).
    apply filter_In in Hin. destruct Hin as [Hin Hid]. apply Z.eqb_eq in Hid.
    exists sess. tauto.
  - intros r stu Hr Hparse. apply filter_In in Hr. destruct Hr as [Hr Hv].
    apply andb_true_iff in Hv. destruct Hv as [Hv _].
    rewrite Hparse in Hv. cbn [valid_id] in Hv. apply Z.ltb_lt in Hv.
    apply Hall. apply studentIds_of_In. exists r. tauto.
Qed.

(** ** The export query in general *)

Lemma export_joined_spec (classId : Z) (s : Store.t) :
  unique_attendance s ->
  export_joined classId s
  = flat_map (export_group s) (students_of_class classId s).
Proof.
  intros Huq. unfold export_joined.
  rewrite (left_join_single on_attendance_in_session).
  2: { intros x _.
       apply (filter_key_at_most_one attendance_key _
                (match snd x with Some sess => sess_id sess | None => 0 end,
                 st_id (fst x))
                _ Huq).
       intros a Hon. unfold on_attendance_in_session in Hon.
       destruct (snd x) as [sess |]; [| discriminate Hon].
       apply andb_true_iff in Hon. rewrite !Z.eqb_eq in Hon.
       unfold attendance_key. destruct Hon as [-> ->]. reflexivity. }
  rewrite filter_map_swap. cbn [fst].
  rewrite left_join_pad, filter_flat_map.
  erewrite flat_map_ext.
  2: { intros st. rewrite filter_map_swap. cbn [fst].
       instantiate (1 := fun st =>
         if st_class_id st =? classId
         then map (pair st)
                  (pad (filter (on_session_of_student_class st) (sessions s)))
         else []).
       cbv beta. destruct (st_class_id st =? classId).
       - rewrite filter_all_true by reflexivity. reflexivity.
       - rewrite filter_all_false by reflexivity. reflexivity. }
  rewrite (flat_map_filter (fun st => st_class_id st =? classId)).
  rewrite map_flat_map_comm. unfold students_of_class.
  apply flat_map_ext. intros st. rewrite map_map. reflexivity.
Qed.

Lemma classSummaryExport_spec (name_leb : string -> string -> bool) (classId : Z)
  (s : Store.t) :
  schema_ok s ->
  classSummaryExport name_leb classId s
  = Sql.order_by (by_student_name name_leb)
      (map (fun st => export_select (key_of st, export_group s st))
           (students_of_class classId s)).
Proof.
  intros Hok. unfold classSummaryExport. f_equal.
  rewrite export_joined_spec by exact (uq_attendance s Hok).
  rewrite (group_by_flat_map student_key_eqb student_key_eqb_spec
             (fun x => key_of (fst (fst x))) key_of (export_group s)).
  - rewrite map_map. reflexivity.
  - intros st Hnil. apply map_eq_nil in Hnil. exact (pad_not_empty _ Hnil).
  - intros st r Hr. apply in_map_iff in Hr. destruct Hr as (osess & <- & _).
    reflexivity.
  - apply key_of_NoDup. apply NoDup_map_filter. exact (pk_students s Hok).
Qed.

(** The total of every row of the export is the number of sessions of the
    class, with or without attendance. *)
Lemma classSummaryExport_total (name_leb : string -> string -> bool)
  (classId : Z) (s : Store.t) (r : summary_row) :
  schema_ok s ->
  In r (classSummaryExport name_leb classId s) ->
  total r = Z.of_nat (List.length (sessions_of_class s classId)).
Proof.
  intros Hok Hr. rewrite classSummaryExport_spec in Hr by exact Hok.
  apply order_by_In, in_map_iff in Hr. destruct Hr as (st & <- & Hst).
  apply filter_In in Hst. destruct Hst as [_ Hcls]. apply Z.eqb_eq in Hcls.
  unfold export_select, export_group. cbn [total fst snd].
  rewrite map_map. cbn [fst snd].
  change (fun x : option session_row => option_map sess_id x)
    with (option_map sess_id).
  unfold Sql.count. rewrite non_null_pad, length_map.
  unfold sessions_of_class, on_session_of_student_class. rewrite Hcls. reflexivity.
Qed.

(** The total of a row of the summary is at most that number; it is smaller
    as soon as the class has a session without a record for the student. *)
Lemma classSummary_total_le_sessions (name_leb : string -> string -> bool)
  (classId : Z) (s : Store.t) (r : summary_row) :
  schema_ok s -> same_class s ->
  In r (classSummary name_leb classId s) ->
  total r <= Z.of_nat (List.length (sessions_of_class s classId)).
Proof.
  intros Hok Hclass Hr. rewrite classSummary_spec in Hr by exact Hok.
  apply order_by_In, in_map_iff in Hr. destruct Hr as (st & <- & Hst).
  apply filter_In in Hst. destruct Hst as [Hst Hcls]. apply Z.eqb_eq in Hcls.
  unfold summary_of. cbn [total].
  rewrite (marked_sessions_count s st Hok Hclass Hst).
  apply inj_le. apply NoDup_incl_length.
  - apply (NoDup_map_inv sess_id). apply NoDup_map_filter. exact (pk_sessions s Hok).
  - intros sess Hsess. apply filter_In in Hsess. destruct Hsess as [Hin Hcond].
    apply andb_true_iff in Hcond. destruct Hcond as [Hc _].
    apply filter_In. split; [exact Hin |]. rewrite <- Hcls. exact Hc.
Qed.

(** The handler of the summary answers with [classSummary] to everyone but
    a student, when the class id is within INTEGER, and with the store
    error when it is beyond. *)
Lemma get_api_reports_summary_by_class_reply (name_leb : string -> string -> bool)
  (u : user) (class_id : Js.value) (n : Z) (s : Store.t) :
  Js.parseInt class_id = Some n -> 0 < n ->
  role u <> "student" ->
  get_api_reports_summary_by_class name_leb (Some u) class_id s
  = if int4 n then Reply 200 (classSummary name_leb n s)
    else Error 500 "Database error".
Proof.
  intros Hparse Hpos Hrole.
  unfold get_api_reports_summary_by_class, requireAuth.
  rewrite (parseInt_truthy _ _ Hparse Hpos), Hparse. cbn [negb].
  replace (n <=? 0) with false by (symmetry; apply Z.leb_gt; exact Hpos).
  rewrite (string_eqb_false _ _ Hrole). reflexivity.
Qed.


(** * Further properties of the handlers *)

(** ** POST /api/attendance: when a batch is accepted *)

Lemma studentIds_of_nil_validRecords (recs : list attendance_record) :
  validRecords_of recs = [] -> studentIds_of (validRecords_of recs) = [].
Proof. intros ->. reflexivity. Qed.

Lemma select_session_class_stored (n : Z) (s : Store.t) (classId : Z)
  (rest : list Z) :
  select_session_class n s = classId :: rest ->
  In n (map sess_id (sessions s)).
Proof.
  intros Hsess. unfold select_session_class in Hsess.
  assert (Hin : In classId
                  (map sess_class_id
                       (filter (fun sess => sess_id sess =? n) (sessions s))))
    by (rewrite Hsess; left; reflexivity).
  apply in_map_iff in Hin. destruct Hin as [sess [_ Hin]].
  apply filter_In in Hin. destruct Hin as [Hin Heq].
  apply Z.eqb_eq in Heq. subst n. apply in_map. exact Hin.
Qed.


(** The handler run to its end on a batch that passes every check. *)
Lemma commitAttendance_accepted (now : Z) (session_id : Js.value)
  (recs : list attendance_record) (s : Store.t) (n classId : Z) (rest : list Z) :
  Js.parseInt session_id = Some n -> 0 < n ->
  select_session_class n s = classId :: rest ->
  studentIds_of recs <> [] ->
  (forall r, In r recs -> includes validStatuses (record_status r) = true) ->
  (forall id, In id (studentIds_of recs) -> In id (map st_id (students s))) ->
  List.length (select_students_in_class (studentIds_of recs) classId s)
  = List.length (studentIds_of recs) ->
  commitAttendance now session_id (Some recs) s
  = (Reply 201 "Attendance saved successfully",
     write_records now n (validRecords_of recs) s).
Proof.
  intros Hparse Hpos Hsess Hids Hvalid Hstored Hcount.
  unfold commitAttendance.
  rewrite (parseInt_truthy _ _ Hparse Hpos), Hparse. cbn [negb orb].
  assert (Hlen : (List.length recs =? 0)%nat = false)
    by (destruct recs; [exfalso; apply Hids; reflexivity | reflexivity]).
  rewrite Hlen.
  replace (n <=? 0) with false by (symmetry; apply Z.leb_gt; exact Hpos).
  unfold with_client, save_attendance, catch_error, bind, BEGIN, ROLLBACK,
    COMMIT, query, ret, query_session_class, query_students_in_class.
  cbn [db snapshot].
  fold (studentIds_of recs). fold (validRecords_of recs).
  rewrite (int4_param_stored _ n (select_session_class_stored n s classId rest Hsess)).
  cbn [db snapshot]. rewrite Hsess.
  replace (List.length (studentIds_of recs) =? 0)%nat with false.
  2: { symmetry. apply Nat.eqb_neq. intros H0. apply Hids.
       apply length_zero_iff_nil. exact H0. }
  rewrite (filter_all_false
             (fun r => negb (includes validStatuses (record_status r))) recs).
  2: { intros r Hr. rewrite (Hvalid r Hr). reflexivity. }
  cbn [List.length Nat.ltb Nat.leb db snapshot].
  replace (forallb (int4_param (map st_id (students s))) (studentIds_of recs))
    with true.
  2: { symmetry. apply forallb_forall. intros id Hid.
       apply int4_param_stored. exact (Hstored id Hid). }
  cbn [db snapshot].
  rewrite Hcount, Nat.eqb_refl. cbn [negb db snapshot].
  replace (List.length (validRecords_of recs) =? 0)%nat with false.
  2: { symmetry. apply Nat.eqb_neq. intros H0. apply Hids.
       rewrite <- (studentIds_of_validRecords recs Hvalid).
       apply length_zero_iff_nil in H0. rewrite H0. reflexivity. }
  rewrite for_each_write. reflexivity.
Qed.



(** ** POST /api/attendance: what a call can and cannot change *)

(** X2. Whoever sends the request and whatever it holds, the store changes
    only when the sender is a teacher and the answer is 201; every other
    answer leaves the whole store as it was. *)
Theorem post_api_attendance_all_or_nothing (req_user : option user) (now : Z)
  (session_id : Js.value) (records : option (list attendance_record))
  (s : Store.t) :
  snd (post_api_attendance req_user now session_id records s) = s
  \/ ((exists u, req_user = Some u /\ role u = "teacher")
      /\ fst (post_api_attendance req_user now session_id records s)
         = Reply 201 "Attendance saved successfully").
Proof.
  destruct req_user as [u |]; [| left; reflexivity].
  destruct (String.eqb (role u) "teacher") eqn:Hrole.
  - apply String.eqb_eq in Hrole.
    rewrite post_api_attendance_teacher by exact Hrole.
    destruct (commitAttendance_cases now session_id records s)
      as [(code & msg & -> & _) | Haccept]; [left; reflexivity |].
    destruct Haccept as (recs & n & cls & rest & _ & _ & _ & _ & _ & _ & ->).
    right. split; [exists u; split; [reflexivity | exact Hrole] | reflexivity].
  - left. unfold post_api_attendance, requireAuth, requireRole, includes.
    cbn [existsb]. rewrite Hrole. reflexivity.
Qed.

Lemma rows_of_at_most_one (sid stu : Z) (s : Store.t) :
  unique_attendance s -> (List.length (rows_of sid stu s) <= 1)%nat.
Proof.
  intros Huq. unfold rows_of.
  apply (filter_key_at_most_one attendance_key _ (sid, stu) _ Huq).
  intros a Hk. unfold same_key in Hk. apply andb_true_iff in Hk.
  rewrite !Z.eqb_eq in Hk. unfold attendance_key. destruct Hk as [-> ->].
  reflexivity.
Qed.

(** X3. After an accepted batch the store holds, for every record of the
    batch whose student id survives coercion, exactly one attendance row of
    that session and student; its status is the lower-cased status of the
    record; it is stamped with the time of this call if the pair was not
    marked before, and is the old row with the new status otherwise. *)
Theorem accepted_batch_is_stored (now : Z) (session_id : Js.value)
  (recs : list attendance_record) (s : Store.t)
  (r : attendance_record) (sid stu : Z) :
  primary_key_students s ->
  unique_attendance s ->
  fst (commitAttendance now session_id (Some recs) s)
  = Reply 201 "Attendance saved successfully" ->
  Js.parseInt session_id = Some sid ->
  In r recs ->
  Js.parseInt (rec_student_id r) = Some stu ->
  0 < stu ->
  exists a,
    rows_of sid stu (snd (commitAttendance now session_id (Some recs) s)) = [a]
    /\ a_status a = record_status r
    /\ (rows_of sid stu s = [] -> a_marked_at a = now)
    /\ (forall a0, rows_of sid stu s = [a0] ->
          a = set_status (record_status r) a0).
Proof.
  intros Hpk Huq Hreply Hsid Hr Hparse Hpos.
  pose (c := {| call_now := now; call_session_id := session_id;
                call_records := Some recs |}).
  assert (Hmarks : marks c sid stu (record_status r)).
  { split; [exact Hsid |]. exists recs, r. repeat split; assumption. }
  destruct (rows_of_marking_call c sid stu (record_status r) s Hpk Hreply Hmarks)
    as [id Hrows].
  change (run_call c s)
    with (snd (commitAttendance now session_id (Some recs) s)) in Hrows.
  pose proof (rows_of_at_most_one sid stu s Huq) as Hone.
  destruct (rows_of sid stu s) as [| a0 [| a1 rows]] eqn:Hbefore;
    cbn [List.length] in Hone; [| | lia].
  - eexists. split; [exact Hrows |]. cbn [a_status a_marked_at].
    repeat split; [discriminate].
  - exists (set_status (record_status r) a0). split; [exact Hrows |].
    split; [reflexivity |]. split; [discriminate |].
    intros a0' Heq. injection Heq as <-. reflexivity.
Qed.

Lemma accepted_batch_is_stored_witness :
  exists a,
    rows_of 1 3
      (snd (commitAttendance 1704967200 (Js.Number 1)
              (Some [Demo.mark 3 "Present"]) Demo.marked)) = [a]
    /\ a_status a = record_status (Demo.mark 3 "Present")
    /\ (rows_of 1 3 Demo.marked = [] -> a_marked_at a = 1704967200)
    /\ (forall a0, rows_of 1 3 Demo.marked = [a0] ->
          a = set_status (record_status (Demo.mark 3 "Present")) a0).
Proof.
  apply (accepted_batch_is_stored 1704967200 (Js.Number 1)
           [Demo.mark 3 "Present"] Demo.marked (Demo.mark 3 "Present") 1 3).
  - exact (pk_students _ schema_ok_marked).
  - exact (uq_attendance _ schema_ok_marked).
  - vm_compute. reflexivity.
  - reflexivity.
  - left. reflexivity.
  - reflexivity.
  - lia.
Defined.




Lemma upsertSql_keeps_rows (now sid stu : Z) (st : string) (s : Store.t)
  (a : attendance_row) :
  In a (attendance s) ->
  exists st', In (set_status st' a) (attendance (upsertSql now sid stu st s)).
Proof.
  intros Ha. unfold upsertSql. cbn [attendance].
  destruct (existsb (same_key sid stu) (attendance s)).
  - destruct (same_key sid stu a) eqn:Hk.
    + exists st. apply in_map_iff. exists a. rewrite Hk. tauto.
    + exists (a_status a). apply in_map_iff. exists a.
      rewrite Hk, set_status_own. tauto.
  - exists (a_status a). rewrite set_status_own. apply in_or_app. left. exact Ha.
Qed.

Lemma write_records_keeps_rows (now sid : Z) (l : list attendance_record)
  (a : attendance_row) : forall st s,
  In (set_status st a) (attendance s) ->
  exists st', In (set_status st' a) (attendance (write_records now sid l s)).
Proof.
  induction l as [| r l IH]; intros st s Ha; [eauto |].
  change (write_records now sid (r :: l) s)
    with (write_records now sid l (write_record now sid r s)).
  unfold write_record at 1.
  destruct (Js.parseInt (rec_student_id r)) as [stu |]; [| exact (IH st s Ha)].
  destruct (upsertSql_keeps_rows now sid stu (record_status r) s _ Ha) as [st1 H1].
  rewrite set_status_twice in H1. exact (IH st1 _ H1).
Qed.

(** X5. A call never deletes an attendance row and never changes the id,
    the session, the student or the timestamp of one: every row stored
    before the call is stored after it, with at most its status changed. *)
Theorem commit_never_deletes (now : Z) (session_id : Js.value)
  (records : option (list attendance_record)) (s : Store.t)
  (a : attendance_row) :
  In a (attendance s) ->
  exists st,
    In (set_status st a)
       (attendance (snd (commitAttendance now session_id records s))).
Proof.
  intros Ha.
  destruct (commitAttendance_cases now session_id records s)
    as [(code & msg & -> & _) | Haccept].
  - exists (a_status a). rewrite set_status_own. exact Ha.
  - destruct Haccept as (recs & n & cls & rest & _ & _ & _ & _ & _ & _ & ->).
    cbn [snd]. apply (write_records_keeps_rows now n _ a (a_status a)).
    rewrite set_status_own. exact Ha.
Qed.

Lemma commit_never_deletes_witness :
  exists st,
    In (set_status st
          {| a_id := 2; a_session_id := 1; a_student_id := 3;
             a_status := "absent"; a_marked_at := 1704880800 |})
       (attendance
          (snd (commitAttendance 1704967200 (Js.Number 1)
                  (Some [Demo.mark 3 "present"]) Demo.marked))).
Proof.
  apply (commit_never_deletes 1704967200 (Js.Number 1)
           (Some [Demo.mark 3 "present"]) Demo.marked).
  cbn. right. left. reflexivity.
Defined.

(** ** POST /api/attendance: the same batch again *)

Lemma sessions_write_records (now sid : Z) (l : list attendance_record) :
  forall s, sessions (write_records now sid l s) = sessions s.
Proof.
  induction l as [| r l IH]; intros s; [reflexivity |].
  change (write_records now sid (r :: l) s)
    with (write_records now sid l (write_record now sid r s)).
  rewrite IH. unfold write_record.
  destruct (Js.parseInt (rec_student_id r)); reflexivity.
Qed.

(** The answer of the handler is decided by the students and the sessions;
    the attendance rows and the clock play no part in it. *)
Lemma commitAttendance_answer (now now' : Z) (session_id : Js.value)
  (records : option (list attendance_record)) (s s' : Store.t) :
  students s = students s' -> sessions s = sessions s' ->
  fst (commitAttendance now session_id records s)
  = fst (commitAttendance now' session_id records s').
Proof.
  intros Hst Hsess. unfold commitAttendance.
  destruct records as [recs |]; [| reflexivity].
  destruct (negb (Js.truthy session_id) || (List.length recs =? 0)%nat);
    [reflexivity |].
  destruct (Js.parseInt session_id) as [n |]; [| reflexivity].
  destruct (n <=? 0); [reflexivity |].
  destruct s as [cl stu se att sq], s' as [cl' stu' se' att' sq'].
  cbn [students sessions] in Hst, Hsess. subst stu' se'.
  unfold with_client, save_attendance, catch_error, bind, BEGIN, ROLLBACK,
    COMMIT, query, ret, query_session_class, query_students_in_class.
  cbn [db snapshot].
  fold (studentIds_of recs). fold (validRecords_of recs).
  unfold select_session_class, select_students_in_class.
  cbn [students sessions].
  destruct (int4_param (map sess_id se) n); [| reflexivity].
  destruct (map sess_class_id (filter (fun sess => sess_id sess =? n) se))
    as [| classId rest]; [reflexivity |].
  destruct (List.length (studentIds_of recs) =? 0)%nat; [reflexivity |].
  destruct (0 <? List.length
              (filter (fun r => negb (includes validStatuses (record_status r)))
                      recs))%nat; [reflexivity |].
  cbn [db snapshot students sessions].
  destruct (forallb (int4_param (map st_id stu)) (studentIds_of recs));
    [| reflexivity].
  destruct (negb _); [reflexivity |].
  destruct (List.length (validRecords_of recs) =? 0)%nat; [reflexivity |].
  rewrite !for_each_write. reflexivity.
Qed.

Lemma write_records_same_statuses (now sid : Z) (l : list attendance_record) :
  forall s,
    (forall r stu, In r l -> Js.parseInt (rec_student_id r) = Some stu ->
       rows_of sid stu s <> []
       /\ forall a, In a (rows_of sid stu s) -> a_status a = record_status r) ->
    attendance (write_records now sid l s) = attendance s.
Proof.
  induction l as [| r l IH]; intros s Hsame; [reflexivity |].
  change (write_records now sid (r :: l) s)
    with (write_records now sid l (write_record now sid r s)).
  assert (Hstep : attendance (write_record now sid r s) = attendance s).
  { unfold write_record.
    destruct (Js.parseInt (rec_student_id r)) as [stu |] eqn:Hparse;
      [| reflexivity].
    destruct (Hsame r stu (or_introl eq_refl) Hparse) as [Hne Hst].
    unfold upsertSql. cbn [attendance].
    destruct (existsb (same_key sid stu) (attendance s)) eqn:Hex.
    - erewrite map_ext_in; [apply map_id |].
      intros a Ha. cbv beta. destruct (same_key sid stu a) eqn:Hk; [| reflexivity].
      rewrite <- (Hst a); [apply set_status_own |].
      apply filter_In. split; assumption.
    - exfalso. apply Hne. apply existsb_filter_nil. exact Hex. }
  rewrite IH.
  - exact Hstep.
  - intros r' stu Hr' Hparse. unfold rows_of. rewrite Hstep.
    exact (Hsame r' stu (or_intror Hr') Hparse).
Qed.

(** X6. Sending the same batch a second time gets the same answer as the
    first time and leaves the attendance rows exactly as the first call
    left them, timestamps included. *)
Theorem commitAttendance_idempotent (now1 now2 : Z) (session_id : Js.value)
  (records : option (list attendance_record)) (s : Store.t) :
  primary_key_students s ->
  let first := commitAttendance now1 session_id records s in
  let second := commitAttendance now2 session_id records (snd first) in
  fst second = fst first /\ attendance (snd second) = attendance (snd first).
Proof.
  intros Hpk first second. subst first second.
  pose (c := {| call_now := now1; call_session_id := session_id;
                call_records := records |}).
  change (commitAttendance now1 session_id records s)
    with (commitAttendance (call_now c) (call_session_id c) (call_records c) s).
  change (snd (commitAttendance (call_now c) (call_session_id c) (call_records c) s))
    with (run_call c s).
  destruct (commitAttendance_cases now1 session_id records s)
    as [(code & msg & Hrej & _) | Haccept].
  - assert (Hs1 : run_call c s = s) by (unfold run_call, c; cbn; rewrite Hrej; reflexivity).
    rewrite Hs1. split.
    + apply commitAttendance_answer; reflexivity.
    + destruct (commitAttendance_cases now2 session_id records s)
        as [(code2 & msg2 & -> & _) | Haccept2]; [reflexivity |].
      exfalso.
      destruct Haccept2 as (recs & n & cls & rest & _ & _ & _ & _ & _ & _ & H2).
      pose proof (commitAttendance_answer now1 now2 session_id records s s
                    eq_refl eq_refl) as Hsame.
      rewrite Hrej, H2 in Hsame. discriminate Hsame.
  - destruct Haccept
      as (recs & n & cls & rest & Hrecs & Hparse & Hpos & Hsess & Hcount
          & Hvalid & H1).
    assert (Hsucc : succeeds c s) by (unfold succeeds, c; cbn; rewrite H1; reflexivity).
    assert (Hs1 : run_call c s = write_records now1 n (validRecords_of recs) s)
      by (unfold run_call, c; cbn; rewrite H1; reflexivity).
    assert (Hanswer :
              fst (commitAttendance now2 session_id records (run_call c s))
              = fst (commitAttendance (call_now c) (call_session_id c)
                       (call_records c) s)).
    { apply commitAttendance_answer.
      - apply students_run_call.
      - rewrite Hs1. apply sessions_write_records. }
    split; [exact Hanswer |].
    destruct (commitAttendance_cases now2 session_id records (run_call c s))
      as [(code2 & msg2 & -> & _) | Haccept2]; [reflexivity |].
    destruct Haccept2
      as (recs2 & n2 & cls2 & rest2 & Hrecs2 & Hparse2 & _ & _ & _ & _ & ->).
    rewrite Hrecs in Hrecs2. injection Hrecs2 as <-.
    rewrite Hparse in Hparse2. injection Hparse2 as <-.
    cbn [snd]. apply write_records_same_statuses.
    intros r stu Hr Hstu.
    apply filter_In in Hr. destruct Hr as [Hr Hv].
    apply andb_true_iff in Hv. destruct Hv as [Hv _].
    rewrite Hstu in Hv. cbn [valid_id] in Hv. apply Z.ltb_lt in Hv.
    assert (Hmarks : marks c n stu (record_status r)).
    { split; [exact Hparse |]. exists recs, r. repeat split; assumption. }
    destruct (rows_of_marking_call c n stu (record_status r) s Hpk Hsucc Hmarks)
      as [id Hrows].
    rewrite Hrows.
    destruct (rows_of n stu s) as [| a0 rows].
    + split; [discriminate |]. intros a [<- | []]. reflexivity.
    + split; [discriminate |]. intros a Ha. apply in_map_iff in Ha.
      destruct Ha as (b & <- & _). reflexivity.
Qed.

Lemma commitAttendance_idempotent_witness :
  let first :=
    commitAttendance 1704880800 (Js.Number 1)
      (Some [Demo.mark 1 "present"; Demo.mark 3 "absent"]) Demo.store in
  let second :=
    commitAttendance 1704967200 (Js.Number 1)
      (Some [Demo.mark 1 "present"; Demo.mark 3 "absent"]) (snd first) in
  fst second = fst first /\ attendance (snd second) = attendance (snd first).
Proof.
  apply (commitAttendance_idempotent 1704880800 1704967200 (Js.Number 1)
           (Some [Demo.mark 1 "present"; Demo.mark 3 "absent"]) Demo.store).
  exact (pk_students _ schema_ok_demo).
Defined.

(** ** POST /api/attendance: the constraints of the store *)

Lemma includes_validStatuses (st : string) :
  includes validStatuses st = true -> st = "present" \/ st = "absent".
Proof.
  unfold includes, validStatuses. cbn [existsb].
  rewrite !orb_true_iff, !String.eqb_eq.
  intros [H | [H | H]]; [left; exact H | right; exact H | discriminate H].
Qed.

Lemma upsertSql_status (now sid stu : Z) (st : string) (s : Store.t)
  (a' : attendance_row) :
  In a' (attendance (upsertSql now sid stu st s)) ->
  a_status a' = st \/ exists a, In a (attendance s) /\ a_status a' = a_status a.
Proof.
  unfold upsertSql. cbn [attendance].
  destruct (existsb (same_key sid stu) (attendance s)).
  - intros Hin. apply in_map_iff in Hin. destruct Hin as (a & <- & Ha).
    destruct (same_key sid stu a); [left; reflexivity | right; eauto].
  - intros Hin. apply in_app_or in Hin. destruct Hin as [Hin | [<- | []]].
    + right. eauto.
    + left. reflexivity.
Qed.

Lemma write_records_check_status (now sid : Z) (l : list attendance_record) :
  forall s,
    (forall r, In r l -> includes validStatuses (record_status r) = true) ->
    check_status s -> check_status (write_records now sid l s).
Proof.
  induction l as [| r l IH]; intros s Hvalid Hcheck; [exact Hcheck |].
  change (write_records now sid (r :: l) s)
    with (write_records now sid l (write_record now sid r s)).
  apply IH; [intros r' Hr'; apply Hvalid; right; exact Hr' |].
  unfold write_record.
  destruct (Js.parseInt (rec_student_id r)) as [stu |]; [| exact Hcheck].
  intros a' Ha'.
  destruct (upsertSql_status _ _ _ _ _ _ Ha') as [-> | (a & Ha & ->)].
  - apply includes_validStatuses. apply Hvalid. left. reflexivity.
  - exact (Hcheck a Ha).
Qed.

(** X7. Whatever the request, a store that satisfies the keys of students
    and sessions, the uniqueness of (session, student) in attendance, the
    foreign keys of attendance and the status check of the schema, and in
    which every marked student belongs to the class of the session, is
    such a store again after the call; a status is stored only as present
    or absent. *)
Theorem post_api_attendance_keeps_constraints (req_user : option user) (now : Z)
  (session_id : Js.value) (records : option (list attendance_record))
  (s : Store.t) :
  schema_ok s -> same_class s -> check_status s ->
  let s' := snd (post_api_attendance req_user now session_id records s) in
  schema_ok s' /\ same_class s' /\ check_status s'.
Proof.
  intros Hok Hclass Hcheck s'. subst s'.
  destruct req_user as [u |]; [| split; [exact Hok | split; assumption]].
  destruct (String.eqb (role u) "teacher") eqn:Hrole.
  2: { unfold post_api_attendance, requireAuth, requireRole, includes.
       cbn [existsb]. rewrite Hrole. cbn [orb snd].
       split; [exact Hok | split; assumption]. }
  apply String.eqb_eq in Hrole.
  rewrite post_api_attendance_teacher by exact Hrole.
  pose (c := {| call_now := now; call_session_id := session_id;
                call_records := records |}).
  destruct (run_call_preserves c s Hok Hclass) as [Hok' Hclass'].
  split; [exact Hok' | split; [exact Hclass' |]].
  destruct (commitAttendance_cases now session_id records s)
    as [(code & msg & -> & _) | Haccept]; [exact Hcheck |].
  destruct Haccept as (recs & n & cls & rest & _ & _ & _ & _ & _ & Hvalid & ->).
  cbn [snd]. apply write_records_check_status; [| exact Hcheck].
  intros r Hr. apply filter_In in Hr. destruct Hr as [Hr _]. exact (Hvalid r Hr).
Qed.

Lemma post_api_attendance_keeps_constraints_witness :
  let s' :=
    snd (post_api_attendance (Some Demo.teacher1) 1704967200 (Js.Number 2)
           (Some [Demo.mark 1 "Absent"; Demo.mark 3 "PRESENT"]) Demo.marked) in
  schema_ok s' /\ same_class s' /\ check_status s'.
Proof.
  apply (post_api_attendance_keeps_constraints (Some Demo.teacher1) 1704967200
           (Js.Number 2) (Some [Demo.mark 1 "Absent"; Demo.mark 3 "PRESENT"])
           Demo.marked).
  - exact schema_ok_marked.
  - exact same_class_marked.
  - intros a Ha. cbn in Ha. destruct Ha as [<- | [<- | []]]; cbn; tauto.
Defined.

Example post_api_attendance_second_session :
  attendance
    (snd (post_api_attendance (Some Demo.teacher1) 1704967200 (Js.Number 2)
            (Some [Demo.mark 1 "Absent"; Demo.mark 3 "PRESENT"]) Demo.marked))
  = [ {| a_id := 1; a_session_id := 1; a_student_id := 1;
         a_status := "present"; a_marked_at := 1704880800 |};
      {| a_id := 2; a_session_id := 1; a_student_id := 3;
         a_status := "absent"; a_marked_at := 1704880800 |};
      {| a_id := 3; a_session_id := 2; a_student_id := 1;
         a_status := "absent"; a_marked_at := 1704967200 |};
      {| a_id := 4; a_session_id := 2; a_student_id := 3;
         a_status := "present"; a_marked_at := 1704967200 |} ].
Proof. vm_compute. reflexivity. Qed.

(** ** Login sessions *)

Lemma getUserFromRequest_found (now : Z) (header_token query_token : Js.value)
  (m : Sessions.t) (u : user) :
  fst (getUserFromRequest now header_token query_token m) = Some u ->
  snd (getUserFromRequest now header_token query_token m) = m
  /\ exists k e,
       js_or header_token query_token = Js.Str k /\ m k = Some e
       /\ Sessions.entry_user e = u /\ Sessions.expired now e = false.
Proof.
  unfold getUserFromRequest.
  destruct (negb (Js.truthy (js_or header_token query_token)));
    [discriminate |].
  destruct (js_or header_token query_token) as [| | b | n | k];
    cbn [Sessions.get]; try discriminate.
  destruct (m k) as [e |] eqn:Hk; [| discriminate].
  destruct (Sessions.expired now e) eqn:Hexp; [discriminate |].
  cbn [fst snd]. intros Hu. injection Hu as <-.
  split; [reflexivity |]. exists k, e. tauto.
Qed.

(** X8. A session that was just created authenticates its token, sent as
    the header or as the query parameter, at every time before its expiry
    (and at every time when the expiry time is 0); the user obtained is the
    row without its password, and the request leaves the map untouched. *)
Theorem createSession_then_getUserFromRequest
  (token : string) (now ttl t : Z) (userRow : user_row) (m : Sessions.t)
  (header_token query_token : Js.value) :
  token <> "" ->
  js_or header_token query_token = Js.Str token ->
  t < now + ttl \/ now + ttl = 0 ->
  let m1 := snd (createSession token now ttl userRow m) in
  getUserFromRequest t header_token query_token m1
  = (Some (safeUser userRow), m1).
Proof.
  intros Htoken Hor Htime m1. subst m1.
  unfold getUserFromRequest, createSession. cbn [snd]. rewrite Hor.
  cbn [Js.truthy Sessions.get]. rewrite (string_eqb_false _ _ Htoken).
  cbn [negb]. unfold Sessions.set at 1. rewrite String.eqb_refl.
  unfold Sessions.expired. cbn [Sessions.expiresAt Sessions.entry_user].
  replace (negb (now + ttl =? 0) && (now + ttl <=? t)) with false; [reflexivity |].
  symmetry. destruct Htime as [Hlt | Hzero].
  - apply andb_false_iff. right. apply Z.leb_gt. exact Hlt.
  - rewrite Hzero. reflexivity.
Qed.

Lemma createSession_then_getUserFromRequest_witness :
  let m1 :=
    snd (createSession "9f2c" 1704880800000 28800000
           {| u_id := 3; u_username := "aditya"; u_password := "student123";
              u_role := "student"; u_class_id := Some 1; u_student_id := Some 1 |}
           Sessions.empty) in
  getUserFromRequest 1704880900000 Js.Undefined (Js.Str "9f2c") m1
  = (Some (safeUser
             {| u_id := 3; u_username := "aditya"; u_password := "student123";
                u_role := "student"; u_class_id := Some 1;
                u_student_id := Some 1 |}), m1).
Proof.
  apply (createSession_then_getUserFromRequest "9f2c" 1704880800000 28800000
           1704880900000 _ Sessions.empty Js.Undefined (Js.Str "9f2c")).
  - discriminate.
  - reflexivity.
  - left. lia.
Defined.

(** X9. From its expiry time on a session is refused, and the first refused
    request removes it from the map and leaves every other token as it
    was. *)
Theorem expired_session_is_refused_and_removed
  (t : Z) (header_token query_token : Js.value) (m : Sessions.t)
  (token : string) (e : Sessions.entry) :
  token <> "" ->
  js_or header_token query_token = Js.Str token ->
  m token = Some e ->
  Sessions.expiresAt e <> 0 ->
  Sessions.expiresAt e <= t ->
  fst (getUserFromRequest t header_token query_token m) = None
  /\ snd (getUserFromRequest t header_token query_token m) token = None
  /\ forall k, k <> token ->
       snd (getUserFromRequest t header_token query_token m) k = m k.
Proof.
  intros Htoken Hor Hm Hnz Hle.
  unfold getUserFromRequest. rewrite Hor.
  cbn [Js.truthy Sessions.get]. rewrite (string_eqb_false _ _ Htoken), Hm.
  cbn [negb]. unfold Sessions.expired.
  replace (negb (Sessions.expiresAt e =? 0) && (Sessions.expiresAt e <=? t))
    with true.
  2: { symmetry. apply andb_true_iff. split.
       - apply negb_true_iff, Z.eqb_neq. exact Hnz.
       - apply Z.leb_le. exact Hle. }
  cbn [fst snd Sessions.delete_value]. unfold Sessions.delete.
  split; [reflexivity |]. split.
  - rewrite String.eqb_refl. reflexivity.
  - intros k Hk. rewrite (string_eqb_false _ _ Hk). reflexivity.
Qed.

Lemma expired_session_is_refused_and_removed_witness :
  let e := {| Sessions.entry_user := Demo.teacher1;
              Sessions.expiresAt := 1704909600000 |} in
  let m := Sessions.set "ab12" e Sessions.empty in
  fst (getUserFromRequest 1704909600000 (Js.Str "ab12") Js.Undefined m) = None
  /\ snd (getUserFromRequest 1704909600000 (Js.Str "ab12") Js.Undefined m) "ab12"
     = None
  /\ forall k, k <> "ab12" ->
       snd (getUserFromRequest 1704909600000 (Js.Str "ab12") Js.Undefined m) k
       = m k.
Proof.
  intros e m.
  apply (expired_session_is_refused_and_removed 1704909600000 (Js.Str "ab12")
           Js.Undefined m "ab12" e).
  - discriminate.
  - reflexivity.
  - reflexivity.
  - cbn. lia.
  - cbn. lia.
Defined.

(** X10. A request that is refused stays refused: with the map as the
    refused request left it, the same credentials are refused at every
    time, earlier or later. *)
Theorem refused_token_stays_refused
  (t t' : Z) (header_token query_token : Js.value) (m : Sessions.t) :
  fst (getUserFromRequest t header_token query_token m) = None ->
  fst (getUserFromRequest t' header_token query_token
         (snd (getUserFromRequest t header_token query_token m))) = None.
Proof.
  unfold getUserFromRequest.
  destruct (negb (Js.truthy (js_or header_token query_token)));
    cbn [fst snd]; [reflexivity |].
  destruct (js_or header_token query_token) as [| | b | n | k];
    cbn [Sessions.get Sessions.delete_value]; cbn [fst snd];
    try reflexivity.
  destruct (m k) as [e |] eqn:Hk.
  - destruct (Sessions.expired t e); [| discriminate].
    cbn [fst snd]. intros _.
    unfold Sessions.delete. rewrite String.eqb_refl. reflexivity.
  - cbn [fst snd]. intros _. rewrite Hk. reflexivity.
Qed.

Lemma refused_token_stays_refused_witness :
  let m := Sessions.set "ab12"
             {| Sessions.entry_user := Demo.teacher1;
                Sessions.expiresAt := 1704909600000 |} Sessions.empty in
  fst (getUserFromRequest 1704880800000 (Js.Str "ab12") Js.Undefined
         (snd (getUserFromRequest 1704909600001 (Js.Str "ab12") Js.Undefined m)))
  = None.
Proof.
  intros m.
  apply (refused_token_stays_refused 1704909600001 1704880800000
           (Js.Str "ab12") Js.Undefined m).
  reflexivity.
Defined.

(** X11. The hourly sweep is invisible to requests: a request made at or
    after the time of the sweep gets the same user or the same refusal
    with and without the sweep, and leaves the map the sweep would leave. *)
Theorem cleanup_is_transparent
  (now t : Z) (header_token query_token : Js.value) (m : Sessions.t) :
  now <= t ->
  fst (getUserFromRequest t header_token query_token (Sessions.cleanup now m))
  = fst (getUserFromRequest t header_token query_token m)
  /\ forall k,
       snd (getUserFromRequest t header_token query_token
              (Sessions.cleanup now m)) k
       = Sessions.cleanup now
           (snd (getUserFromRequest t header_token query_token m)) k.
Proof.
  intros Hle. unfold getUserFromRequest.
  destruct (negb (Js.truthy (js_or header_token query_token)));
    [split; reflexivity |].
  destruct (js_or header_token query_token) as [| | b | n | tok];
    cbn [Sessions.get Sessions.delete_value]; try (split; reflexivity).
  assert (Hc : Sessions.cleanup now m tok
               = match m tok with
                 | Some e => if Sessions.expired now e then None else Some e
                 | None => None
                 end) by reflexivity.
  rewrite Hc. clear Hc.
  destruct (m tok) as [e |] eqn:Hm; [| split; reflexivity].
  assert (Hmono : Sessions.expired now e = true -> Sessions.expired t e = true).
  { unfold Sessions.expired. rewrite !andb_true_iff, !Z.leb_le. intuition lia. }
  assert (Hpoint : forall k,
             Sessions.delete tok (Sessions.cleanup now m) k
             = Sessions.cleanup now (Sessions.delete tok m) k).
  { intros k. unfold Sessions.cleanup, Sessions.delete.
    destruct (String.eqb k tok); reflexivity. }
  destruct (Sessions.expired now e) eqn:Hnow.
  - rewrite (Hmono eq_refl). cbn [fst snd]. split; [reflexivity |].
    intros k. rewrite <- Hpoint. unfold Sessions.delete, Sessions.cleanup.
    destruct (String.eqb k tok) eqn:Hk; [| reflexivity].
    apply String.eqb_eq in Hk. subst k. rewrite Hm, Hnow. reflexivity.
  - destruct (Sessions.expired t e); cbn [fst snd]; split; try reflexivity.
    exact Hpoint.
Qed.

Lemma cleanup_is_transparent_witness :
  let m := Sessions.set "ab12"
             {| Sessions.entry_user := Demo.teacher1;
                Sessions.expiresAt := 1704909600000 |} Sessions.empty in
  fst (getUserFromRequest 1704909000000 (Js.Str "ab12") Js.Undefined
         (Sessions.cleanup 1704900000000 m))
  = fst (getUserFromRequest 1704909000000 (Js.Str "ab12") Js.Undefined m)
  /\ forall k,
       snd (getUserFromRequest 1704909000000 (Js.Str "ab12") Js.Undefined
              (Sessions.cleanup 1704900000000 m)) k
       = Sessions.cleanup 1704900000000
           (snd (getUserFromRequest 1704909000000 (Js.Str "ab12") Js.Undefined m)) k.
Proof.
  intros m.
  apply (cleanup_is_transparent 1704900000000 1704909000000
           (Js.Str "ab12") Js.Undefined m).
  lia.
Defined.

(** X12. After POST /api/logout, whatever it answered, the credentials it
    was sent with are refused at every time, and every other token is in
    the map exactly when it was before. *)
Theorem logout_ends_the_session
  (t t' : Z) (header_token query_token : Js.value) (m : Sessions.t) :
  fst (getUserFromRequest t' header_token query_token
         (snd (post_api_logout t header_token query_token m))) = None
  /\ forall k, Js.Str k <> js_or header_token query_token ->
       snd (post_api_logout t header_token query_token m) k = m k.
Proof.
  unfold post_api_logout, getUserFromRequest, requireAuth.
  destruct (Js.truthy (js_or header_token query_token)) eqn:Ht;
    cbn [negb fst snd andb]; [| split; reflexivity].
  destruct (js_or header_token query_token) as [| | b | n | tok];
    cbn [Sessions.get Sessions.delete_value]; cbn [fst snd];
    try (split; reflexivity).
  destruct (m tok) as [e |] eqn:Hm.
  - destruct (Sessions.expired t e).
    + cbn [fst snd].
      unfold Sessions.delete. rewrite String.eqb_refl. split; [reflexivity |].
      intros k Hk. rewrite string_eqb_false by congruence. reflexivity.
    + rewrite Hm. cbn [fst snd].
      unfold Sessions.delete. rewrite String.eqb_refl. split; [reflexivity |].
      intros k Hk. rewrite string_eqb_false by congruence. reflexivity.
  - cbn [fst snd]. rewrite Hm. split; reflexivity.
Qed.

(** ** POST /api/login *)

Lemma getUserFromRequest_fresh (token : string) (t : Z) (e : Sessions.entry)
  (m : Sessions.t) :
  token <> "" -> t < Sessions.expiresAt e ->
  getUserFromRequest t (Js.Str token) Js.Undefined (Sessions.set token e m)
  = (Some (Sessions.entry_user e), Sessions.set token e m).
Proof.
  intros Htoken Ht. unfold getUserFromRequest, js_or.
  assert (Htruthy : Js.truthy (Js.Str token) = true)
    by (cbn [Js.truthy]; rewrite (string_eqb_false _ _ Htoken); reflexivity).
  repeat (rewrite Htruthy; cbn [negb]). unfold Sessions.get.
  assert (Hget : Sessions.set token e m token = Some e)
    by (unfold Sessions.set; rewrite String.eqb_refl; reflexivity).
  rewrite Hget. unfold Sessions.expired.
  replace (Sessions.expiresAt e <=? t) with false
    by (symmetry; apply Z.leb_gt; exact Ht).
  rewrite andb_false_r. reflexivity.
Qed.

Section LoginFacts.
Variable bcrypt_compare : string -> string -> bool.
Variable bcrypt_hash : string -> string.

(** X13. A login is answered 200 only when the named user exists, the
    password is a string that matches the stored one (through
    [bcrypt.compare] for a stored hash, by equality for a stored plain
    text) and the role sent is the role of the user; the reply then carries
    the user without the password, the drawn token and the expiry time. *)
Theorem login_requires_credentials (token : string) (now ttl : Z)
  (username password role : Js.value) (users users' : list user_row)
  (m m' : Sessions.t) (reply : login_reply) (status : Z) :
  post_api_login bcrypt_compare bcrypt_hash token now ttl username password role
    users m
  = (Reply status reply, users', m') ->
  status = 200
  /\ exists row p,
       select_user (Js.to_string username) users = Some row
       /\ password = Js.Str p
       /\ (if is_hashed (u_password row)
           then bcrypt_compare p (u_password row) = true
           else u_password row = p)
       /\ u_role row = Js.to_string role
       /\ reply = {| login_message := "Login successful";
                     login_user := safeUser row;
                     login_token := token;
                     login_expiresAt := now + ttl |}.
Proof.
  unfold post_api_login.
  destruct (negb (Js.truthy username) || negb (Js.truthy password)
            || negb (Js.truthy role)); [discriminate |].
  destruct (select_user (Js.to_string username) users) as [row |]; [| discriminate].
  unfold createSession.
  destruct (is_hashed (u_password row)) eqn:Hhashed.
  - destruct password as [| | b | n | p]; try discriminate.
    destruct (bcrypt_compare p (u_password row)) eqn:Hcmp; cbn [negb];
      [| discriminate].
    destruct (String.eqb (u_role row) (Js.to_string role)) eqn:Hrole; cbn [negb];
      [| discriminate].
    apply String.eqb_eq in Hrole.
    intros Heq. injection Heq as <- <- _ _.
    split; [reflexivity |]. exists row, p. rewrite Hhashed. tauto.
  - destruct password as [| | b | n | p]; cbn [negb]; try discriminate.
    destruct (String.eqb (u_password row) p) eqn:Hpw; cbn [negb]; [| discriminate].
    apply String.eqb_eq in Hpw.
    destruct (String.eqb (u_role row) (Js.to_string role)) eqn:Hrole; cbn [negb];
      [| discriminate].
    apply String.eqb_eq in Hrole.
    intros Heq. injection Heq as <- <- _ _.
    split; [reflexivity |]. exists row, p. rewrite Hhashed. tauto.
Qed.

(** X14. The token of a successful login authenticates, until the expiry
    time of the reply, as the user of the reply. *)
Theorem login_then_authenticated (token : string) (now ttl t : Z)
  (username password role : Js.value) (users users' : list user_row)
  (m m' : Sessions.t) (reply : login_reply) :
  post_api_login bcrypt_compare bcrypt_hash token now ttl username password role
    users m
  = (Reply 200 reply, users', m') ->
  token <> "" ->
  t < login_expiresAt reply ->
  getUserFromRequest t (Js.Str (login_token reply)) Js.Undefined m'
  = (Some (login_user reply), m').
Proof.
  unfold post_api_login.
  destruct (negb (Js.truthy username) || negb (Js.truthy password)
            || negb (Js.truthy role)); [discriminate |].
  destruct (select_user (Js.to_string username) users) as [row |]; [| discriminate].
  assert (Hfinish : forall b us,
            (if negb b
             then (Error 401 "Invalid username or password", us, m)
             else if negb (String.eqb (u_role row) (Js.to_string role))
             then (Error 400 "Incorrect role selected. Please choose the correct role.",
                   us, m)
             else
               let '((token0, sessionUser, expiresAt), m0) :=
                 createSession token now ttl row m in
               (Reply 200 {| login_message := "Login successful";
                             login_user := sessionUser;
                             login_token := token0;
                             login_expiresAt := expiresAt |}, us, m0))
            = (Reply 200 reply, users', m') ->
            token <> "" -> t < login_expiresAt reply ->
            getUserFromRequest t (Js.Str (login_token reply)) Js.Undefined m'
            = (Some (login_user reply), m')).
  { intros b us. destruct (negb b); [discriminate |].
    destruct (negb (String.eqb (u_role row) (Js.to_string role))); [discriminate |].
    unfold createSession. intros Heq Htoken Ht.
    injection Heq as <- _ <-. cbn [login_token login_user login_expiresAt] in *.
    apply getUserFromRequest_fresh; assumption. }
  destruct (is_hashed (u_password row)).
  - destruct password as [| | b | n | p]; try discriminate. apply Hfinish.
  - destruct password as [| | b | n | p]; try apply Hfinish.
    destruct (String.eqb (u_password row) p); apply Hfinish.
Qed.

(** X15. A login that is refused creates no session.  A login answered
    401 leaves the users table as it was.  The one write a login makes to
    it is the replacement of a stored plain-text password that matched by
    its hash; the handler makes it before it looks at the role (the case
    of a wrong role is [login_wrong_role_still_hashes] below). *)
Theorem login_side_effects (token : string) (now ttl : Z)
  (username password role : Js.value) (users : list user_row) (m : Sessions.t) :
  let result :=
    post_api_login bcrypt_compare bcrypt_hash token now ttl username password
      role users m in
  ((forall code msg, fst (fst result) = Error code msg -> snd result = m)
   /\ (forall msg, fst (fst result) = Error 401 msg -> snd (fst result) = users))
  /\ (snd (fst result) = users
      \/ exists row p,
           select_user (Js.to_string username) users = Some row
           /\ password = Js.Str p
           /\ is_hashed (u_password row) = false
           /\ u_password row = p
           /\ snd (fst result)
              = update_password (bcrypt_hash p) (u_id row) users).
Proof.
  intros result. subst result. unfold post_api_login.
  destruct (negb (Js.truthy username) || negb (Js.truthy password)
            || negb (Js.truthy role));
    [cbn [fst snd]; split; [split; intros; reflexivity | left; reflexivity] |].
  destruct (select_user (Js.to_string username) users) as [row |];
    [| cbn [fst snd]; split; [split; intros; reflexivity | left; reflexivity]].
  unfold createSession.
  destruct (is_hashed (u_password row)) eqn:Hhashed.
  - destruct password as [| | b | n | p];
      try (cbn [fst snd]; split; [split; intros; reflexivity | left; reflexivity]).
    destruct (negb (bcrypt_compare p (u_password row)));
      [cbn [fst snd]; split; [split; intros; reflexivity | left; reflexivity] |].
    destruct (negb (String.eqb (u_role row) (Js.to_string role)));
      cbn [fst snd]; (split; [split | left; reflexivity]);
      intros; try reflexivity; discriminate.
  - destruct password as [| | b | n | p]; cbn [negb fst snd];
      try (split; [split; intros; reflexivity | left; reflexivity]).
    destruct (String.eqb (u_password row) p) eqn:Hpw; cbn [negb fst snd];
      [| split; [split; intros; reflexivity | left; reflexivity]].
    apply String.eqb_eq in Hpw.
    destruct (negb (String.eqb (u_role row) (Js.to_string role)));
      cbn [fst snd]; (split; [split |]);
      try (intros; try reflexivity; discriminate);
      right; exists row, p; tauto.
Qed.
End LoginFacts.

Lemma login_requires_credentials_witness :
  200 = 200
  /\ exists row p,
       select_user (Js.to_string (Js.Str "teacher1")) DemoUsers.users = Some row
       /\ Js.Str "teacher123" = Js.Str p
       /\ (if is_hashed (u_password row)
           then DemoUsers.compare p (u_password row) = true
           else u_password row = p)
       /\ u_role row = Js.to_string (Js.Str "teacher")
       /\ {| login_message := "Login successful";
             login_user := Demo.teacher1;
             login_token := "c0ffee";
             login_expiresAt := 1704880800000 + 28800000 |}
          = {| login_message := "Login successful";
               login_user := safeUser row;
               login_token := "c0ffee";
               login_expiresAt := 1704880800000 + 28800000 |}.
Proof.
  eapply (login_requires_credentials DemoUsers.compare DemoUsers.hash
            "c0ffee" 1704880800000 28800000
            (Js.Str "teacher1") (Js.Str "teacher123") (Js.Str "teacher")
            DemoUsers.users _ Sessions.empty _ _ 200).
  reflexivity.
Defined.

Lemma login_then_authenticated_witness :
  let reply := {| login_message := "Login successful";
                  login_user := Demo.teacher1;
                  login_token := "c0ffee";
                  login_expiresAt := 1704880800000 + 28800000 |} in
  let m' := snd (post_api_login DemoUsers.compare DemoUsers.hash
                   "c0ffee" 1704880800000 28800000
                   (Js.Str "teacher1") (Js.Str "teacher123") (Js.Str "teacher")
                   DemoUsers.users Sessions.empty) in
  getUserFromRequest 1704880900000 (Js.Str (login_token reply)) Js.Undefined m'
  = (Some (login_user reply), m').
Proof.
  intros reply m'.
  eapply (login_then_authenticated DemoUsers.compare DemoUsers.hash
            "c0ffee" 1704880800000 28800000 1704880900000
            (Js.Str "teacher1") (Js.Str "teacher123") (Js.Str "teacher")
            DemoUsers.users _ Sessions.empty m' reply).
  - reflexivity.
  - discriminate.
  - cbn. lia.
Defined.

Example login_wrong_role_still_hashes :
  let result := post_api_login DemoUsers.compare DemoUsers.hash
                  "c0ffee" 1704880800000 28800000
                  (Js.Str "teacher1") (Js.Str "teacher123") (Js.Str "admin")
                  DemoUsers.users Sessions.empty in
  fst (fst result)
  = Error 400 "Incorrect role selected. Please choose the correct role."
  /\ map u_password (snd (fst result))
     = ["admin123"; "$2b$10$teacher123"; "student123"].
Proof. split; reflexivity. Qed.

(** ** [convertPlaceholders] *)

Example convertPlaceholders_example :
  convertPlaceholders
    "INSERT INTO sessions (class_id, date, topic) VALUES (?, ?, ?) RETURNING id"
    [Js.Number 1; Js.Str "2024-01-10"; Js.Null]
  = ("INSERT INTO sessions (class_id, date, topic) VALUES ($1, $2, $3) RETURNING id",
     [Js.Number 1; Js.Str "2024-01-10"; Js.Null]).
Proof. reflexivity. Qed.


Lemma string_app_assoc (a b c : string) : ((a ++ b) ++ c = a ++ (b ++ c))%string.
Proof.
  induction a as [| x a IH]; [reflexivity |]. cbn [String.append]. rewrite IH.
  reflexivity.
Qed.

Lemma occurrences_app (c : ascii) (a b : string) :
  occurrences c (a ++ b) = (occurrences c a + occurrences c b)%nat.
Proof.
  induction a as [| x a IH]; [reflexivity |].
  cbn [String.append occurrences]. rewrite IH. lia.
Qed.

Lemma digit_is_not (d c : ascii) :
  Js.is_digit d = true -> Js.is_digit c = false -> Ascii.eqb d c = false.
Proof.
  intros Hd Hc. apply Ascii.eqb_neq. intros ->. congruence.
Qed.

Lemma occurrences_digits_fuel (c : ascii) (fuel : nat) : forall n acc,
  Js.is_digit c = false ->
  occurrences c (Js.digits_fuel fuel n acc) = occurrences c acc.
Proof.
  induction fuel as [| fuel IH]; intros n acc Hc; [reflexivity |].
  cbn [Js.digits_fuel].
  assert (Hstep : occurrences c (String (Js.digit_char (n mod 10)) acc)
                  = occurrences c acc).
  { cbn [occurrences]. rewrite (digit_is_not _ c); [reflexivity | | exact Hc].
    apply digit_char_spec. apply Z.mod_pos_bound. lia. }
  destruct (n / 10 =? 0); [exact Hstep |].
  rewrite IH by exact Hc. exact Hstep.
Qed.

Lemma occurrences_number_to_string (c : ascii) (n : Z) :
  Js.is_digit c = false -> c <> "-"%char ->
  occurrences c (Js.number_to_string n) = O.
Proof.
  intros Hc Hminus. unfold Js.number_to_string, Js.digits.
  destruct (n <? 0).
  - cbn [occurrences]. rewrite occurrences_digits_fuel by exact Hc.
    replace (Ascii.eqb "-" c) with false; [reflexivity |].
    symmetry. apply Ascii.eqb_neq. congruence.
  - rewrite occurrences_digits_fuel by exact Hc. reflexivity.
Qed.

Lemma replace_placeholders_counts (sql : string) : forall i,
  occurrences "?" (replace_placeholders i sql) = O
  /\ occurrences "$" (replace_placeholders i sql)
     = (occurrences "$" sql + occurrences "?" sql)%nat.
Proof.
  induction sql as [| c sql IH]; intros i; [split; reflexivity |].
  cbn [replace_placeholders].
  destruct (Ascii.eqb c "?") eqn:Hc.
  - apply Ascii.eqb_eq in Hc. subst c.
    destruct (IH (i + 1)) as [Hq Hd].
    cbn [occurrences]. rewrite !occurrences_app, Hq, Hd.
    rewrite !occurrences_number_to_string by (reflexivity || discriminate).
    cbn. split; lia.
  - destruct (IH i) as [Hq Hd]. cbn [occurrences]. rewrite Hc, Hq, Hd.
    destruct (Ascii.eqb c "$"); cbn; split; lia.
Qed.

Lemma replace_placeholders_none (sql : string) : forall i,
  occurrences "?" sql = O -> replace_placeholders i sql = sql.
Proof.
  induction sql as [| c sql IH]; intros i Hnone; [reflexivity |].
  cbn [replace_placeholders occurrences] in *.
  destruct (Ascii.eqb c "?"); [discriminate Hnone |].
  rewrite IH by exact Hnone. reflexivity.
Qed.

(** X16. The converted statement holds no question mark; each question
    mark of the statement has become one dollar placeholder; the
    parameters are handed on as they are; and converting a converted
    statement changes nothing. *)
Theorem convertPlaceholders_replaces_every_mark {P : Type} (sql : string)
  (params : P) :
  occurrences "?" (fst (convertPlaceholders sql params)) = O
  /\ occurrences "$" (fst (convertPlaceholders sql params))
     = (occurrences "$" sql + occurrences "?" sql)%nat
  /\ snd (convertPlaceholders sql params) = params
  /\ convertPlaceholders (fst (convertPlaceholders sql params)) params
     = convertPlaceholders sql params.
Proof.
  unfold convertPlaceholders. cbn [fst snd].
  destruct (replace_placeholders_counts sql 1) as [Hq Hd].
  repeat split; try assumption.
  rewrite replace_placeholders_none by exact Hq. reflexivity.
Qed.

Lemma replace_placeholders_rank (a b : string) : forall i,
  replace_placeholders i (a ++ String "?" b)
  = (replace_placeholders i a
     ++ String "$" (Js.number_to_string (i + Z.of_nat (occurrences "?" a))
                    ++ replace_placeholders (i + Z.of_nat (occurrences "?" a) + 1) b))%string.
Proof.
  induction a as [| c a IH]; intros i.
  - cbn [String.append replace_placeholders occurrences Ascii.eqb Bool.eqb].
    rewrite Z.add_0_r. reflexivity.
  - cbn [String.append replace_placeholders occurrences].
    destruct (Ascii.eqb c "?").
    + rewrite IH. cbn [String.append]. rewrite string_app_assoc.
      replace (i + 1 + Z.of_nat (occurrences "?" a))
        with (i + Z.of_nat (1 + occurrences "?" a)) by lia.
      reflexivity.
    + rewrite IH. reflexivity.
Qed.

(** X17. The placeholder written for a question mark carries the rank of
    that question mark in the statement, counted from 1: after [k] earlier
    question marks it is the dollar sign followed by [k + 1] in decimal,
    and the text before it is converted as if it stood alone. *)
Theorem convertPlaceholders_numbers_in_order {P : Type} (before_mark after_mark : string)
  (params : P) :
  fst (convertPlaceholders (before_mark ++ String "?" after_mark) params)
  = (fst (convertPlaceholders before_mark params)
     ++ String "$"
          (Js.number_to_string (1 + Z.of_nat (occurrences "?" before_mark))
           ++ replace_placeholders
                (1 + Z.of_nat (occurrences "?" before_mark) + 1) after_mark))%string.
Proof. unfold convertPlaceholders. cbn [fst]. apply replace_placeholders_rank. Qed.

(** ** Id validation *)

(** X18. [validateInteger] returns positive numbers only, and every
    positive integer up to [Number.MAX_SAFE_INTEGER] passes it with its
    own value, sent as a number or as its decimal text. *)
Theorem validateInteger_positive_round_trip (fieldName : string) :
  (forall value num, validateInteger value fieldName = inr num -> 0 < num)
  /\ forall n, 0 < n -> n <= Js.max_safe_integer ->
       validateInteger (Js.Number n) fieldName = inr n
       /\ validateInteger (Js.Str (Js.number_to_string n)) fieldName = inr n.
Proof.
  split.
  - intros value num. unfold validateInteger.
    destruct (Js.parseInt value) as [k |]; [| discriminate].
    destruct (k <=? 0) eqn:Hk; [discriminate |].
    intros Heq. injection Heq as <-. apply Z.leb_gt. exact Hk.
  - intros n Hn _. unfold validateInteger, Js.parseInt. cbn [Js.to_string].
    rewrite parseInt_number_to_string.
    replace (n <=? 0) with false by (symmetry; apply Z.leb_gt; exact Hn).
    split; reflexivity.
Qed.

Example validateInteger_examples :
  validateInteger (Js.Str " 42abc") "class_id" = inr 42
  /\ validateInteger (Js.Str "0") "class_id"
     = inl "Invalid class_id: must be a positive integer"
  /\ validateInteger Js.Null "class_id"
     = inl "Invalid class_id: must be a positive integer".
Proof. repeat split; reflexivity. Qed.

(** ** [csvEscape] *)

Lemma double_quotes_closed_inj (x : string) : forall y,
  (double_quotes x ++ String quote_char "")%string
  = (double_quotes y ++ String quote_char "")%string ->
  x = y.
Proof.
  induction x as [| c x IH]; intros y Heq.
  - destruct y as [| d y]; [reflexivity |].
    cbn [double_quotes String.append] in Heq.
    destruct (Ascii.eqb d quote_char) eqn:Hd.
    + cbn [String.append] in Heq. discriminate Heq.
    + cbn [String.append] in Heq. injection Heq as Hhead _.
      apply Ascii.eqb_neq in Hd. congruence.
  - destruct y as [| d y].
    + cbn [double_quotes String.append] in Heq.
      destruct (Ascii.eqb c quote_char) eqn:Hc.
      * cbn [String.append] in Heq. discriminate Heq.
      * cbn [String.append] in Heq. injection Heq as Hhead _.
        apply Ascii.eqb_neq in Hc. congruence.
    + cbn [double_quotes] in Heq.
      destruct (Ascii.eqb c quote_char) eqn:Hc, (Ascii.eqb d quote_char) eqn:Hd;
        cbn [String.append] in Heq.
      * apply Ascii.eqb_eq in Hc, Hd. subst c d.
        injection Heq as Heq. f_equal. apply IH. exact Heq.
      * injection Heq as Hhead _. apply Ascii.eqb_neq in Hd. congruence.
      * injection Heq as Hhead _. apply Ascii.eqb_neq in Hc. congruence.
      * injection Heq as -> Heq. f_equal. apply IH. exact Heq.
Qed.

Lemma has_special_head (c : ascii) (rest : string) :
  has_special (String c rest) = false -> c <> quote_char.
Proof.
  cbn [has_special]. intros H ->.
  rewrite Ascii.eqb_refl in H. discriminate H.
Qed.

(** X19. [csvEscape] writes a text without double quote, comma and line
    feed as it is, and puts every other text between double quotes; two
    different texts never give the same cell. *)
Theorem csvEscape_injective (s1 s2 : string) :
  (has_special s1 = false -> csvEscape (Js.Str s1) = s1)
  /\ (has_special s1 = true ->
      exists body, csvEscape (Js.Str s1)
                   = String quote_char (body ++ String quote_char "")%string)
  /\ (csvEscape (Js.Str s1) = csvEscape (Js.Str s2) -> s1 = s2).
Proof.
  unfold csvEscape. cbn [Js.to_string].
  split; [intros ->; reflexivity |].
  split; [intros ->; eexists; reflexivity |].
  destruct (has_special s1) eqn:H1, (has_special s2) eqn:H2.
  - intros Heq. injection Heq as Heq. apply double_quotes_closed_inj. exact Heq.
  - intros Heq. destruct s2 as [| d s2]; [discriminate Heq |].
    injection Heq as Hhead _. exfalso.
    apply (has_special_head d s2 H2). congruence.
  - intros Heq. destruct s1 as [| c s1]; [discriminate Heq |].
    injection Heq as Hhead _. exfalso.
    apply (has_special_head c s1 H1). congruence.
  - tauto.
Qed.

Example csvEscape_examples :
  csvEscape (Js.Str "Maths, unit 2")
  = String quote_char ("Maths, unit 2" ++ String quote_char "")%string
  /\ csvEscape (Js.Str "Revision") = "Revision"
  /\ csvEscape Js.Null = ""
  /\ csvEscape (Js.Number 12) = "12".
Proof. repeat split; reflexivity. Qed.

(** ** The statements of the schema bootstrap *)

Lemma split_semicolon_not_nil (s : string) : split_semicolon s <> [].
Proof.
  destruct s as [| c s]; [discriminate |]. cbn [split_semicolon].
  destruct (Ascii.eqb c ";"); [discriminate |].
  destruct (split_semicolon s); discriminate.
Qed.

Lemma split_semicolon_app (a b : string) :
  split_semicolon (a ++ String ";" b) = split_semicolon a ++ split_semicolon b.
Proof.
  induction a as [| c a IH]; [reflexivity |].
  cbn [String.append split_semicolon]. rewrite IH.
  destruct (Ascii.eqb c ";"); [reflexivity |].
  pose proof (split_semicolon_not_nil a) as Hne.
  destruct (split_semicolon a) as [| piece pieces]; [contradiction | reflexivity].
Qed.

Lemma split_semicolon_single (chunk : string) :
  occurrences ";" chunk = O -> split_semicolon chunk = [chunk].
Proof.
  induction chunk as [| c chunk IH]; intros Hnone; [reflexivity |].
  cbn [occurrences split_semicolon] in *.
  destruct (Ascii.eqb c ";"); [discriminate Hnone |].
  rewrite IH by exact Hnone. reflexivity.
Qed.

Lemma schema_statements_app (a b : string) :
  schema_statements (a ++ String ";" b)
  = schema_statements a ++ schema_statements b.
Proof.
  unfold schema_statements. rewrite split_semicolon_app, map_app, filter_app.
  reflexivity.
Qed.

Lemma skip_white_space_app (ws rest : string) :
  all_white_space ws = true ->
  Js.skip_white_space (ws ++ rest) = Js.skip_white_space rest.
Proof.
  induction ws as [| c ws IH]; intros Hws; [reflexivity |].
  cbn [all_white_space] in Hws. apply andb_true_iff in Hws.
  destruct Hws as [Hc Hws].
  cbn [String.append Js.skip_white_space]. rewrite Hc. apply IH. exact Hws.
Qed.

Lemma trim_end_keeps (c : ascii) (rest : string) :
  Js.is_white_space c = false -> trim_end (String c rest) = String c (trim_end rest).
Proof.
  intros Hc. cbn [trim_end]. destruct (trim_end rest); [rewrite Hc |]; reflexivity.
Qed.

Lemma trim_comment (ws rest : string) :
  all_white_space ws = true ->
  trim (ws ++ String "-" (String "-" rest))
  = String "-" (String "-" (trim_end rest)).
Proof.
  intros Hws. unfold trim. rewrite skip_white_space_app by exact Hws.
  cbn [Js.skip_white_space].
  change (Js.is_white_space "-") with false. cbv iota.
  rewrite !trim_end_keeps by reflexivity. reflexivity.
Qed.

(** X20. The bootstrap treats the pieces between semicolons one by one,
    and a piece whose first characters after white space are two dashes
    gives no statement at all: the SQL that follows the comment inside the
    piece is not sent to the store. *)
Theorem schema_statements_drop_commented_piece (before_piece after_piece : string)
  (ws rest : string) :
  all_white_space ws = true ->
  occurrences ";" ws = O ->
  occurrences ";" rest = O ->
  schema_statements
    (before_piece
     ++ String ";" ((ws ++ String "-" (String "-" rest)) ++ String ";" after_piece))
  = schema_statements before_piece ++ schema_statements after_piece
  /\ schema_statements
       ((ws ++ String "-" (String "-" rest)) ++ String ";" after_piece)
     = schema_statements after_piece.
Proof.
  intros Hws Hws0 Hrest.
  assert (Hpiece : schema_statements (ws ++ String "-" (String "-" rest)) = []).
  { unfold schema_statements. rewrite split_semicolon_single.
    - cbn [map filter]. rewrite trim_comment by exact Hws.
      assert (Hprefix : String.prefix "--" (String "-" (String "-" (trim_end rest)))
                        = true) by (destruct (trim_end rest); reflexivity).
      rewrite Hprefix. rewrite andb_false_r. reflexivity.
    - rewrite occurrences_app. cbn [occurrences]. rewrite Hws0, Hrest.
      reflexivity. }
  rewrite !schema_statements_app, Hpiece. split; reflexivity.
Qed.

Lemma schema_statements_drop_commented_piece_witness :
  let nl := String newline_char "" in
  schema_statements
    ("SELECT 1"
     ++ String ";"
          ((nl ++ String "-" (String "-"
                    (" Core domain tables" ++ nl ++ "CREATE TABLE classes (id SERIAL)")))
           ++ String ";" (nl ++ "SELECT 2")))
  = schema_statements "SELECT 1" ++ schema_statements (nl ++ "SELECT 2")
  /\ schema_statements
       ((nl ++ String "-" (String "-"
                  (" Core domain tables" ++ nl ++ "CREATE TABLE classes (id SERIAL)")))
        ++ String ";" (nl ++ "SELECT 2"))
     = schema_statements (nl ++ "SELECT 2").
Proof.
  intros nl.
  apply (schema_statements_drop_commented_piece "SELECT 1" (nl ++ "SELECT 2") nl
           (" Core domain tables" ++ nl ++ "CREATE TABLE classes (id SERIAL)")).
  - reflexivity.
  - reflexivity.
  - reflexivity.
Defined.

Example schema_statements_example :
  let nl := String newline_char "" in
  schema_statements
    ("-- Core domain tables" ++ nl ++ "CREATE TABLE classes (id SERIAL);" ++ nl
     ++ nl ++ "CREATE TABLE students (id SERIAL);" ++ nl)
  = ["CREATE TABLE students (id SERIAL)"].
Proof. reflexivity. Qed.


(** ** Listing students and sessions *)

Lemma session_view_order_spec (r1 r2 : session_view) :
  session_view_order r1 r2 = true <-> session_view_before r1 r2.
Proof.
  unfold session_view_order, session_view_before.
  rewrite orb_true_iff, andb_true_iff, Z.ltb_lt, Z.eqb_eq, Z.leb_le.
  reflexivity.
Qed.

Lemma session_view_order_total (r1 r2 : session_view) :
  session_view_order r1 r2 = true \/ session_view_order r2 r1 = true.
Proof.
  rewrite !session_view_order_spec. unfold session_view_before. lia.
Qed.

Lemma session_view_order_trans (r1 r2 r3 : session_view) :
  session_view_order r1 r2 = true -> session_view_order r2 r3 = true ->
  session_view_order r1 r3 = true.
Proof.
  rewrite !session_view_order_spec. unfold session_view_before. lia.
Qed.

(** A joined table whose every left row has exactly one partner has the
    left table as its left column. *)
Lemma inner_join_left_column {Row Other : Type} (on : Row -> Other -> bool)
  (other : list Other) :
  forall table,
    (forall x, In x table -> List.length (filter (on x) other) = 1%nat) ->
    map fst (Sql.inner_join on table other) = table.
Proof.
  unfold Sql.inner_join.
  induction table as [| x table IH]; intros Hone; [reflexivity |].
  cbn [flat_map]. rewrite map_app, map_map. cbn [fst].
  rewrite IH by (intros y Hy; apply Hone; right; exact Hy).
  pose proof (Hone x (or_introl eq_refl)) as Hx.
  destruct (filter (on x) other) as [| y [| z rest]]; cbn [List.length] in Hx;
    try discriminate.
  reflexivity.
Qed.

(** The one class a foreign key names. *)
Lemma class_partner (s : Store.t) (classId : Z) :
  primary_key_classes s ->
  (exists c, In c (classes s) /\ c_id c = classId) ->
  List.length (filter (fun c => classId =? c_id c) (classes s)) = 1%nat.
Proof.
  intros Hpk [c [Hc Hid]]. subst classId.
  rewrite (filter_ext (fun c' => c_id c =? c_id c') (fun c' => c_id c' =? c_id c))
    by (intros c'; apply Z.eqb_sym).
  rewrite (filter_key_unique c_id (classes s) c Hpk Hc). reflexivity.
Qed.

Lemma sessions_with_class_In (s : Store.t) (r : session_view) :
  In r (sessions_with_class s) ->
  exists sess c,
    In sess (sessions s) /\ In c (classes s)
    /\ sess_class_id sess = c_id c
    /\ sv_id r = sess_id sess /\ sv_class_id r = sess_class_id sess
    /\ sv_date r = sess_date sess /\ sv_class_name r = c_name c.
Proof.
  unfold sessions_with_class. intros Hr.
  apply in_map_iff in Hr. destruct Hr as [[sess c] [<- Hin]].
  apply inner_join_In in Hin. destruct Hin as [Hsess [Hc Hon]].
  apply Z.eqb_eq in Hon. exists sess, c. cbn [fst snd sv_id sv_class_id
    sv_date sv_class_name]. repeat split; assumption.
Qed.

(** Under the keys of classes the joined list has one row per session, in
    the order of the table. *)
Lemma sessions_with_class_columns (s : Store.t) :
  primary_key_classes s -> foreign_key_sessions s ->
  map (fun r => (sv_id r, sv_class_id r)) (sessions_with_class s)
  = map (fun sess => (sess_id sess, sess_class_id sess)) (sessions s).
Proof.
  intros Hpk Hfk. unfold sessions_with_class. rewrite map_map.
  cbn [sv_id sv_class_id].
  rewrite <- (inner_join_left_column
                (fun sess c => sess_class_id sess =? c_id c) (classes s)
                (sessions s)) at 2.
  - rewrite map_map. reflexivity.
  - intros sess Hsess. apply class_partner; [exact Hpk | apply Hfk; exact Hsess].
Qed.

(** X21. A student who lists the students is answered 200 with rows of
    the students table that all carry the student's own id, whatever
    class_id the request names; with students.id a key there is at most
    one such row. *)
Theorem student_lists_only_own_record (name_leb : string -> string -> bool)
  (int4in : string -> option Z) (u : user) (class_id : Js.value) (s : Store.t) :
  role u = "student" ->
  exists rows,
    get_api_students name_leb int4in (Some u) class_id s = Reply 200 rows
    /\ (forall r, In r rows ->
          In r (students s) /\ user_student_id u = Some (st_id r))
    /\ (primary_key_students s -> (List.length rows <= 1)%nat).
Proof.
  intros Hrole. unfold get_api_students, requireAuth. rewrite Hrole.
  cbn [String.eqb Ascii.eqb Bool.eqb].
  destruct (user_student_id u) as [id |] eqn:Hid.
  - destruct (id =? 0) eqn:Hzero.
    + exists []. split; [reflexivity |]. split; [intros r [] |].
      intros _. cbn [List.length]. lia.
    + eexists. split; [reflexivity |]. split.
      * intros r Hr. apply order_by_In in Hr. apply filter_In in Hr.
        destruct Hr as [Hin Heq]. apply Z.eqb_eq in Heq. subst id.
        split; [exact Hin | reflexivity].
      * intros Hpk. rewrite order_by_length.
        apply (filter_key_at_most_one st_id _ id (students s) Hpk).
        intros y Hy. apply Z.eqb_eq in Hy. exact Hy.
  - exists []. split; [reflexivity |]. split; [intros r [] |].
    intros _. cbn [List.length]. lia.
Qed.

Lemma student_lists_only_own_record_witness :
  exists rows,
    get_api_students String.leb Js.parseInt_string (Some Demo.student_aditya)
      (Js.Str "2") Demo.store = Reply 200 rows
    /\ (forall r, In r rows ->
          In r (students Demo.store)
          /\ user_student_id Demo.student_aditya = Some (st_id r))
    /\ (primary_key_students Demo.store -> (List.length rows <= 1)%nat).
Proof.
  apply (student_lists_only_own_record String.leb Js.parseInt_string
           Demo.student_aditya (Js.Str "2") Demo.store).
  reflexivity.
Defined.

(** X22. A student who lists the sessions is answered 200 with sessions
    of the student's own class only, whatever class_id the request names;
    when every session names one class, the list has exactly the sessions
    of that class. *)
Theorem student_lists_sessions_of_own_class (int4in : string -> option Z)
  (u : user) (class_id : Js.value) (s : Store.t) (classId : Z) :
  role u = "student" ->
  user_class_id u = Some classId ->
  classId <> 0 ->
  exists rows,
    get_api_sessions int4in (Some u) class_id s = Reply 200 rows
    /\ (forall r, In r rows -> sv_class_id r = classId)
    /\ (primary_key_classes s -> foreign_key_sessions s ->
        Permutation (map sv_id rows)
                    (map sess_id (sessions_of_class s classId))).
Proof.
  intros Hrole Hclass Hnz. unfold get_api_sessions, requireAuth.
  rewrite Hrole, Hclass. cbn [String.eqb Ascii.eqb Bool.eqb orb].
  replace (classId =? 0) with false by (symmetry; apply Z.eqb_neq; exact Hnz).
  eexists. split; [reflexivity |]. split.
  - intros r Hr. apply order_by_In in Hr. apply filter_In in Hr.
    destruct Hr as [_ Heq]. apply Z.eqb_eq in Heq. exact Heq.
  - intros Hpk Hfk.
    eapply Permutation_trans;
      [apply Permutation_map, Permutation_sym, order_by_perm |].
    pose proof (sessions_with_class_columns s Hpk Hfk) as Hcols.
    assert (Hids :
      map fst (filter (fun p : Z * Z => snd p =? classId)
                 (map (fun r => (sv_id r, sv_class_id r)) (sessions_with_class s)))
      = map sv_id (filter (fun r => sv_class_id r =? classId)
                     (sessions_with_class s))).
    { rewrite filter_map_swap, map_map. reflexivity. }
    rewrite <- Hids, Hcols, filter_map_swap, map_map. cbn [fst snd].
    apply Permutation_refl.
Qed.

Lemma student_lists_sessions_of_own_class_witness :
  exists rows,
    get_api_sessions Js.parseInt_string (Some Demo.student_aditya)
      (Js.Str "2") Demo.marked = Reply 200 rows
    /\ (forall r, In r rows -> sv_class_id r = 1)
    /\ (primary_key_classes Demo.marked -> foreign_key_sessions Demo.marked ->
        Permutation (map sv_id rows)
                    (map sess_id (sessions_of_class Demo.marked 1))).
Proof.
  apply (student_lists_sessions_of_own_class Js.parseInt_string
           Demo.student_aditya (Js.Str "2") Demo.marked 1).
  - reflexivity.
  - reflexivity.
  - lia.
Defined.

(** X23. A request for the sessions without a class_id by an admin or a
    teacher is answered 200 with one row per session when every session
    names one class, sorted by date, latest first, then by id, highest
    first. *)
Theorem staff_session_list_sorted_and_complete (int4in : string -> option Z)
  (u : user) (class_id : Js.value) (s : Store.t) :
  role u = "admin" \/ role u = "teacher" ->
  Js.truthy class_id = false ->
  primary_key_classes s ->
  foreign_key_sessions s ->
  exists rows,
    get_api_sessions int4in (Some u) class_id s = Reply 200 rows
    /\ Permutation (map sv_id rows) (map sess_id (sessions s))
    /\ StronglySorted session_view_before rows.
Proof.
  intros Hrole Hfalsy Hpk Hfk. unfold get_api_sessions, requireAuth.
  assert (Hstaff : String.eqb (role u) "admin" || String.eqb (role u) "teacher"
                   = true).
  { destruct Hrole as [-> | ->]; reflexivity. }
  rewrite Hstaff, Hfalsy.
  eexists. split; [reflexivity |]. split.
  - eapply Permutation_trans;
      [apply Permutation_map, Permutation_sym, order_by_perm |].
    pose proof (sessions_with_class_columns s Hpk Hfk) as Hcols.
    assert (Hids : map sv_id (sessions_with_class s) = map sess_id (sessions s)).
    { apply (f_equal (map fst)) in Hcols. rewrite !map_map in Hcols.
      exact Hcols. }
    rewrite Hids. apply Permutation_refl.
  - eapply StronglySorted_weaken;
      [| apply (order_by_sorted session_view_order
                  session_view_order_total session_view_order_trans)].
    intros x y Hxy. apply session_view_order_spec. exact Hxy.
Qed.

Lemma class_keys_marked :
  primary_key_classes Demo.marked /\ foreign_key_sessions Demo.marked.
Proof.
  split.
  - unfold primary_key_classes. cbn.
    repeat constructor; cbn; intuition discriminate.
  - intros sess Hsess. cbn in Hsess.
    destruct Hsess as [<- | [<- | []]]; exists Demo.class12; cbn; auto.
Defined.

Lemma staff_session_list_sorted_and_complete_witness :
  exists rows,
    get_api_sessions Js.parseInt_string (Some Demo.admin) Js.Undefined Demo.marked
    = Reply 200 rows
    /\ Permutation (map sv_id rows) (map sess_id (sessions Demo.marked))
    /\ StronglySorted session_view_before rows.
Proof.
  apply (staff_session_list_sorted_and_complete Js.parseInt_string
           Demo.admin Js.Undefined Demo.marked).
  - left. reflexivity.
  - reflexivity.
  - exact (proj1 class_keys_marked).
  - exact (proj2 class_keys_marked).
Defined.

(** ** The attendance of a session *)

(** The one row a foreign key names in a table with a key. *)
Lemma key_partner {Row : Type} (key : Row -> Z) (table : list Row) (k : Z) :
  NoDup (map key table) ->
  (exists y, In y table /\ key y = k) ->
  List.length (filter (fun y => k =? key y) table) = 1%nat.
Proof.
  intros Hpk [y [Hy Hid]]. subst k.
  rewrite (filter_ext (fun y' => key y =? key y') (fun y' => key y' =? key y))
    by (intros y'; apply Z.eqb_sym).
  rewrite (filter_key_unique key table y Hpk Hy). reflexivity.
Qed.

(** The three joins of the by-session query keep every attendance row
    once, joined to its student. *)
Lemma by_session_joins (s : Store.t) :
  schema_ok s -> primary_key_classes s -> foreign_key_sessions s ->
  let joined :=
    Sql.inner_join
      (fun (x : attendance_row * student_row * session_row) c =>
         sess_class_id (snd x) =? c_id c)
      (Sql.inner_join
         (fun (x : attendance_row * student_row) sess =>
            a_session_id (fst x) =? sess_id sess)
         (Sql.inner_join (fun a st => a_student_id a =? st_id st)
                         (attendance s) (students s))
         (sessions s))
      (classes s) in
  map (fun x => fst (fst (fst x))) joined = attendance s
  /\ forall x, In x joined ->
       st_id (snd (fst (fst x))) = a_student_id (fst (fst (fst x))).
Proof.
  intros Hok Hpkc Hfks joined. subst joined.
  set (on1 := fun (a : attendance_row) (st : student_row) =>
                a_student_id a =? st_id st).
  set (on2 := fun (x : attendance_row * student_row) (sess : session_row) =>
                a_session_id (fst x) =? sess_id sess).
  set (on3 := fun (x : attendance_row * student_row * session_row)
                  (c : class_row) => sess_class_id (snd x) =? c_id c).
  set (J1 := Sql.inner_join on1 (attendance s) (students s)).
  set (J2 := Sql.inner_join on2 J1 (sessions s)).
  assert (H1 : map fst J1 = attendance s).
  { apply inner_join_left_column. intros a Ha.
    apply (key_partner st_id (students s) (a_student_id a)).
    - exact (pk_students s Hok).
    - destruct (fk_attendance s Hok a Ha) as [_ [st [Hst Hid]]].
      exists st. split; assumption. }
  assert (H2 : map fst J2 = J1).
  { apply inner_join_left_column. intros [a st] Hx.
    apply inner_join_In in Hx. destruct Hx as [Ha _].
    apply (key_partner sess_id (sessions s) (a_session_id a)).
    - exact (pk_sessions s Hok).
    - destruct (fk_attendance s Hok a Ha) as [[sess [Hsess Hid]] _].
      exists sess. split; assumption. }
  assert (H3 : map fst (Sql.inner_join on3 J2 (classes s)) = J2).
  { apply inner_join_left_column. intros [[a st] sess] Hx.
    apply inner_join_In in Hx. destruct Hx as [_ [Hsess _]].
    apply (key_partner c_id (classes s) (sess_class_id sess)).
    - exact Hpkc.
    - exact (Hfks sess Hsess). }
  split.
  - transitivity (map fst (map fst (map fst (Sql.inner_join on3 J2 (classes s))))).
    + rewrite !map_map. reflexivity.
    + rewrite H3, H2. exact H1.
  - intros [[[a st] sess] c] Hx. cbn [fst snd].
    apply inner_join_In in Hx. destruct Hx as [Hx _].
    apply inner_join_In in Hx. destruct Hx as [Hx _].
    apply inner_join_In in Hx. destruct Hx as [_ [_ Hon]].
    apply Z.eqb_eq in Hon. symmetry. exact Hon.
Qed.

Lemma by_session_rows_marks (name_leb : string -> string -> bool)
  (id : Z) (s : Store.t) :
  schema_ok s -> primary_key_classes s -> foreign_key_sessions s ->
  Permutation
    (map mark_of_row (by_session_rows name_leb id s))
    (map mark_of_attendance
         (filter (fun a => a_session_id a =? id) (attendance s))).
Proof.
  intros Hok Hpkc Hfks.
  destruct (by_session_joins s Hok Hpkc Hfks) as [Hcol Hstudent].
  unfold by_session_rows.
  eapply Permutation_trans;
    [apply Permutation_map, Permutation_sym, order_by_perm |].
  rewrite map_map. rewrite <- Hcol at 2.
  rewrite filter_map_swap, map_map.
  match goal with
  | |- Permutation (map ?f ?l) (map ?g ?l) =>
      rewrite (map_ext_in f g l); [apply Permutation_refl |]
  end.
  intros x Hx. apply filter_In in Hx. destruct Hx as [Hx _].
  unfold mark_of_row, mark_of_attendance. cbn [bs_id bs_student_id bs_status].
  rewrite (Hstudent x Hx). reflexivity.
Qed.

Lemma select_session_class_exists (id : Z) (s : Store.t) :
  (exists sess, In sess (sessions s) /\ sess_id sess = id) ->
  select_session_class id s <> [].
Proof.
  intros [sess [Hsess Hid]] Hnil. unfold select_session_class in Hnil.
  apply map_eq_nil in Hnil.
  pose proof (filter_nil_forall _ _ Hnil sess Hsess) as Hfalse.
  cbn in Hfalse. apply Z.eqb_neq in Hfalse. contradiction.
Qed.

Lemma get_api_attendance_by_session_reply (name_leb : string -> string -> bool)
  (int4in : string -> option Z) (u : user) (session_id : Js.value)
  (s : Store.t) (id : Z) :
  role u = "admin" \/ role u = "teacher" ->
  Js.truthy session_id = true ->
  int4in (Js.to_string session_id) = Some id ->
  (exists sess, In sess (sessions s) /\ sess_id sess = id) ->
  get_api_attendance_by_session name_leb int4in (Some u) session_id s
  = Reply 200 (by_session_rows name_leb id s).
Proof.
  intros Hrole Htruthy Hint Hsess.
  unfold get_api_attendance_by_session, requireAuth, requireRole.
  replace (includes ["admin"; "teacher"] (role u)) with true
    by (destruct Hrole as [-> | ->]; reflexivity).
  rewrite Htruthy, Hint. cbn [negb].
  pose proof (select_session_class_exists id s Hsess) as Hne.
  destruct (select_session_class id s); [contradiction | reflexivity].
Qed.

(** X24. For an admin or a teacher and the id of an existing session, the
    by-session list is answered 200 and holds exactly the attendance rows
    of that session, each once, with the id of the row, of its student and
    its status, when the keys and foreign keys of the schema hold. *)
Theorem by_session_lists_the_marks_of_the_session
  (name_leb : string -> string -> bool) (int4in : string -> option Z)
  (u : user) (session_id : Js.value) (s : Store.t) (id : Z) :
  role u = "admin" \/ role u = "teacher" ->
  Js.truthy session_id = true ->
  int4in (Js.to_string session_id) = Some id ->
  (exists sess, In sess (sessions s) /\ sess_id sess = id) ->
  schema_ok s -> primary_key_classes s -> foreign_key_sessions s ->
  exists rows,
    get_api_attendance_by_session name_leb int4in (Some u) session_id s
    = Reply 200 rows
    /\ Permutation
         (map mark_of_row rows)
         (map mark_of_attendance
              (filter (fun a => a_session_id a =? id) (attendance s))).
Proof.
  intros Hrole Htruthy Hint Hsess Hok Hpkc Hfks.
  exists (by_session_rows name_leb id s). split.
  - apply get_api_attendance_by_session_reply; assumption.
  - apply by_session_rows_marks; assumption.
Qed.

Lemma by_session_lists_the_marks_of_the_session_witness :
  exists rows,
    get_api_attendance_by_session String.leb Js.parseInt_string
      (Some Demo.teacher1) (Js.Str "1") Demo.marked
    = Reply 200 rows
    /\ Permutation
         (map mark_of_row rows)
         (map mark_of_attendance
              (filter (fun a => a_session_id a =? 1) (attendance Demo.marked))).
Proof.
  apply (by_session_lists_the_marks_of_the_session String.leb
           Js.parseInt_string Demo.teacher1 (Js.Str "1") Demo.marked 1).
  - right. reflexivity.
  - reflexivity.
  - reflexivity.
  - exists Demo.session1. split; [left; reflexivity | reflexivity].
  - exact schema_ok_marked.
  - exact (proj1 class_keys_marked).
  - exact (proj2 class_keys_marked).
Defined.

Lemma classes_write_records (now sid : Z) (l : list attendance_record) :
  forall s, classes (write_records now sid l s) = classes s.
Proof.
  induction l as [| r l IH]; intros s; [reflexivity |].
  change (write_records now sid (r :: l) s)
    with (write_records now sid l (write_record now sid r s)).
  rewrite IH. unfold write_record.
  destruct (Js.parseInt (rec_student_id r)); reflexivity.
Qed.

Lemma truthy_number_to_string (n : Z) :
  Js.truthy (Js.Str (Js.number_to_string n)) = true.
Proof.
  pose proof (number_to_string_not_empty n) as Hne.
  cbn [Js.truthy]. destruct (Js.number_to_string n); [contradiction | reflexivity].
Qed.

(** X25. After a teacher's batch was accepted, the by-session list of the
    same session, asked by an admin or a teacher, is answered 200 and has
    a row for every record of the batch whose student id survives
    coercion, with that student and the status of the record in lower
    case. *)
Theorem accepted_batch_is_listed
  (name_leb : string -> string -> bool) (int4in : string -> option Z)
  (teacher reader : user) (now : Z) (session_id : Js.value)
  (recs : list attendance_record) (s : Store.t)
  (r : attendance_record) (sid stu : Z) :
  schema_ok s -> same_class s ->
  primary_key_classes s -> foreign_key_sessions s ->
  role teacher = "teacher" ->
  role reader = "admin" \/ role reader = "teacher" ->
  fst (post_api_attendance (Some teacher) now session_id (Some recs) s)
  = Reply 201 "Attendance saved successfully" ->
  Js.parseInt session_id = Some sid ->
  int4in (Js.number_to_string sid) = Some sid ->
  In r recs ->
  Js.parseInt (rec_student_id r) = Some stu ->
  0 < stu ->
  exists rows row,
    get_api_attendance_by_session name_leb int4in (Some reader)
      (Js.Str (Js.number_to_string sid))
      (snd (post_api_attendance (Some teacher) now session_id (Some recs) s))
    = Reply 200 rows
    /\ In row rows
    /\ bs_student_id row = stu
    /\ bs_status row = record_status r.
Proof.
  intros Hok Hclass Hpkc Hfks Hteacher Hreader Hreply Hsid Hint Hr Hparse Hpos.
  rewrite post_api_attendance_teacher in * by exact Hteacher.
  pose (c := {| call_now := now; call_session_id := session_id;
                call_records := Some recs |}).
  change (snd (commitAttendance now session_id (Some recs) s))
    with (run_call c s).
  destruct (run_call_preserves c s Hok Hclass) as [Hok' _].
  assert (Hmarks : marks c sid stu (record_status r)).
  { split; [exact Hsid |]. exists recs, r. repeat split; assumption. }
  destruct (rows_of_marking_call c sid stu (record_status r) s
              (pk_students s Hok) Hreply Hmarks) as [id Hrows].
  destruct (commitAttendance_cases now session_id (Some recs) s)
    as [(code & msg & Hrefused & _) | Haccept].
  { rewrite Hrefused in Hreply. discriminate Hreply. }
  destruct Haccept as (recs' & n & cls & rest & _ & Hn & _ & Hsess & _ & _ & Hrun).
  rewrite Hsid in Hn. injection Hn as <-.
  assert (Hstore : run_call c s = write_records now sid (validRecords_of recs') s).
  { unfold run_call, c. cbn [call_now call_session_id call_records].
    rewrite Hrun. reflexivity. }
  assert (Hsessions : sessions (run_call c s) = sessions s)
    by (rewrite Hstore; apply sessions_write_records).
  assert (Hclasses : classes (run_call c s) = classes s)
    by (rewrite Hstore; apply classes_write_records).
  assert (Hexists : exists sess, In sess (sessions (run_call c s))
                                 /\ sess_id sess = sid).
  { rewrite Hsessions. unfold select_session_class in Hsess.
    assert (Hin : In cls (map sess_class_id
                            (filter (fun sess => sess_id sess =? sid) (sessions s))))
      by (rewrite Hsess; left; reflexivity).
    apply in_map_iff in Hin. destruct Hin as [sess [_ Hin]].
    apply filter_In in Hin. destruct Hin as [Hin Heq].
    apply Z.eqb_eq in Heq. exists sess. split; assumption. }
  assert (Hpkc' : primary_key_classes (run_call c s))
    by (unfold primary_key_classes; rewrite Hclasses; exact Hpkc).
  assert (Hfks' : foreign_key_sessions (run_call c s)).
  { intros sess Hin. rewrite Hsessions in Hin. rewrite Hclasses.
    exact (Hfks sess Hin). }
  exists (by_session_rows name_leb sid (run_call c s)).
  assert (Hstored : exists a, In a (rows_of sid stu (run_call c s))
                              /\ a_status a = record_status r).
  { rewrite Hrows. destruct (rows_of sid stu s) as [| a0 rows].
    - eexists. split; [left; reflexivity | reflexivity].
    - exists (set_status (record_status r) a0).
      split; [left; reflexivity | reflexivity]. }
  destruct Hstored as [a [Ha Hstatus]].
  unfold rows_of in Ha. apply filter_In in Ha. destruct Ha as [Ha Hkey].
  unfold same_key in Hkey. apply andb_true_iff in Hkey.
  destruct Hkey as [Hs Hst]. apply Z.eqb_eq in Hst.
  assert (Hlisted : In (mark_of_attendance a)
                       (map mark_of_row (by_session_rows name_leb sid (run_call c s)))).
  { eapply Permutation_in;
      [apply Permutation_sym, (by_session_rows_marks name_leb sid (run_call c s)
                                 Hok' Hpkc' Hfks') |].
    apply in_map. apply filter_In. split; assumption. }
  apply in_map_iff in Hlisted. destruct Hlisted as [row [Hrow Hin]].
  exists row. split.
  - apply get_api_attendance_by_session_reply;
      [exact Hreader | apply truthy_number_to_string | exact Hint | exact Hexists].
  - split; [exact Hin |].
    unfold mark_of_row, mark_of_attendance in Hrow.
    injection Hrow as _ Hstudent Hst'.
    split; [rewrite Hstudent; exact Hst | rewrite Hst'; exact Hstatus].
Qed.

Lemma accepted_batch_is_listed_witness :
  exists rows row,
    get_api_attendance_by_session String.leb Js.parseInt_string
      (Some Demo.admin) (Js.Str (Js.number_to_string 1))
      (snd (post_api_attendance (Some Demo.teacher1) 1704967200 (Js.Number 1)
              (Some [Demo.mark 3 "Present"]) Demo.marked))
    = Reply 200 rows
    /\ In row rows
    /\ bs_student_id row = 3
    /\ bs_status row = record_status (Demo.mark 3 "Present").
Proof.
  apply (accepted_batch_is_listed String.leb Js.parseInt_string
           Demo.teacher1 Demo.admin 1704967200 (Js.Number 1)
           [Demo.mark 3 "Present"] Demo.marked (Demo.mark 3 "Present") 1 3).
  - exact schema_ok_marked.
  - exact same_class_marked.
  - exact (proj1 class_keys_marked).
  - exact (proj2 class_keys_marked).
  - reflexivity.
  - left. reflexivity.
  - vm_compute. reflexivity.
  - reflexivity.
  - reflexivity.
  - left. reflexivity.
  - reflexivity.
  - lia.
Defined.

(** ** Creating students and sessions *)

Lemma select_class_found (c : Z) (s : Store.t) (c0 : Z) (rest : list Z) :
  select_class c s = c0 :: rest ->
  exists cl, In cl (classes s) /\ c_id cl = c.
Proof.
  intros Hsel. unfold select_class in Hsel.
  assert (Hin : In c0 (map c_id (filter (fun cl => c_id cl =? c) (classes s))))
    by (rewrite Hsel; left; reflexivity).
  apply in_map_iff in Hin. destruct Hin as [cl [_ Hin]].
  apply filter_In in Hin. destruct Hin as [Hin Heq].
  apply Z.eqb_eq in Heq. exists cl. split; assumption.
Qed.

Lemma existsb_key_fresh {Row : Type} (key : Row -> Z) (table : list Row) (k : Z) :
  existsb (fun y => key y =? k) table = false ->
  forall y, In y table -> key y <> k.
Proof.
  intros Hfresh y Hy Heq.
  assert (Htrue : existsb (fun y => key y =? k) table = true).
  { apply existsb_exists. exists y. split; [exact Hy | apply Z.eqb_eq; exact Heq]. }
  rewrite Hfresh in Htrue. discriminate Htrue.
Qed.

(** The request is refused and the store is as before, or an admin's
    request went through every check and one row was appended. *)
Lemma post_api_students_cases (int4in : string -> option Z)
  (varchar_in : nat -> string -> option string) (req_user : option user)
  (name roll_number class_id : Js.value) (nextval : Z) (s : Store.t) :
  (exists code msg,
     post_api_students int4in varchar_in req_user name roll_number class_id
       nextval s = (Error code msg, s))
  \/ (exists u classIdInt c stored_name stored_roll,
        req_user = Some u /\ role u = "admin"
        /\ Js.parseInt class_id = Some classIdInt /\ 0 < classIdInt
        /\ int4in (Js.number_to_string classIdInt) = Some c
        /\ (exists cl, In cl (classes s) /\ c_id cl = c)
        /\ (forall st, In st (students s) -> st_id st <> nextval)
        /\ post_api_students int4in varchar_in req_user name roll_number
             class_id nextval s
           = (Reply 201 {| cs_id := nextval; cs_name := name;
                           cs_roll_number := js_or roll_number Js.Null;
                           cs_class_id := classIdInt |},
              {| classes := classes s;
                 students :=
                   students s ++ [{| st_id := nextval; st_name := stored_name;
                                     st_roll_number := stored_roll;
                                     st_class_id := c |}];
                 sessions := sessions s;
                 attendance := attendance s;
                 attendance_id_seq := attendance_id_seq s |})).
Proof.
  unfold post_api_students, requireAuth, requireRole, includes.
  destruct req_user as [u |]; [| left; eauto].
  cbn [existsb].
  destruct (String.eqb (role u) "admin") eqn:Hrole; cbn [orb]; [| left; eauto].
  apply String.eqb_eq in Hrole.
  destruct (negb (Js.truthy name) || negb (Js.truthy class_id)); [left; eauto |].
  destruct (Js.parseInt class_id) as [classIdInt |] eqn:Hparse; [| left; eauto].
  destruct (classIdInt <=? 0) eqn:Hpos; [left; eauto |].
  apply Z.leb_gt in Hpos.
  destruct (int4in (Js.number_to_string classIdInt)) as [c |] eqn:Hint;
    [| left; eauto].
  destruct (select_class c s) as [| c0 rest] eqn:Hsel; [left; eauto |].
  destruct (varchar_in 255%nat (Js.to_string name)) as [stored_name |];
    [| left; eauto].
  destruct (if Js.truthy roll_number
            then option_map Some (varchar_in 50%nat (Js.to_string roll_number))
            else Some None) as [stored_roll |]; [| left; eauto].
  destruct (existsb (fun st => st_id st =? nextval) (students s)) eqn:Hfresh;
    [left; eauto |].
  right. exists u, classIdInt, c, stored_name, stored_roll.
  split; [reflexivity |]. split; [exact Hrole |]. split; [reflexivity |].
  split; [exact Hpos |]. split; [exact Hint |].
  split; [exact (select_class_found c s c0 rest Hsel) |].
  split; [exact (existsb_key_fresh st_id (students s) nextval Hfresh) |].
  reflexivity.
Qed.

Lemma post_api_sessions_cases (int4in : string -> option Z)
  (js_date_valid : string -> bool) (date_in : string -> option Z)
  (req_user : option user) (class_id date topic : Js.value) (nextval : Z)
  (s : Store.t) :
  (exists code msg,
     post_api_sessions int4in js_date_valid date_in req_user class_id date
       topic nextval s = (Error code msg, s))
  \/ (exists u classIdInt c day,
        req_user = Some u /\ role u = "teacher"
        /\ Js.parseInt class_id = Some classIdInt /\ 0 < classIdInt
        /\ dateRegex_test (Js.to_string date) = true
        /\ int4in (Js.number_to_string classIdInt) = Some c
        /\ (exists cl, In cl (classes s) /\ c_id cl = c)
        /\ (forall sess, In sess (sessions s) -> sess_id sess <> nextval)
        /\ post_api_sessions int4in js_date_valid date_in req_user class_id
             date topic nextval s
           = (Reply 201 {| cn_id := nextval; cn_class_id := classIdInt;
                           cn_date := date; cn_topic := js_or topic Js.Null |},
              {| classes := classes s;
                 students := students s;
                 sessions :=
                   sessions s ++ [{| sess_id := nextval; sess_class_id := c;
                                     sess_date := day;
                                     sess_topic := text_or_null topic |}];
                 attendance := attendance s;
                 attendance_id_seq := attendance_id_seq s |})).
Proof.
  unfold post_api_sessions, requireAuth, requireRole, includes.
  destruct req_user as [u |]; [| left; eauto].
  cbn [existsb].
  destruct (String.eqb (role u) "teacher") eqn:Hrole; cbn [orb]; [| left; eauto].
  apply String.eqb_eq in Hrole.
  destruct (negb (Js.truthy class_id) || negb (Js.truthy date)); [left; eauto |].
  destruct (Js.parseInt class_id) as [classIdInt |] eqn:Hparse; [| left; eauto].
  destruct (classIdInt <=? 0) eqn:Hpos; [left; eauto |].
  apply Z.leb_gt in Hpos.
  destruct (dateRegex_test (Js.to_string date)) eqn:Hformat; cbn [negb];
    [| left; eauto].
  destruct (js_date_valid (Js.to_string date)); cbn [negb]; [| left; eauto].
  destruct (int4in (Js.number_to_string classIdInt)) as [c |] eqn:Hint;
    [| left; eauto].
  destruct (select_class c s) as [| c0 rest] eqn:Hsel; [left; eauto |].
  destruct (date_in (Js.to_string date)) as [day |]; [| left; eauto].
  destruct (existsb (fun sess => sess_id sess =? nextval) (sessions s)) eqn:Hfresh;
    [left; eauto |].
  right. exists u, classIdInt, c, day.
  split; [reflexivity |]. split; [exact Hrole |]. split; [reflexivity |].
  split; [exact Hpos |]. split; [reflexivity |]. split; [exact Hint |].
  split; [exact (select_class_found c s c0 rest Hsel) |].
  split; [exact (existsb_key_fresh sess_id (sessions s) nextval Hfresh) |].
  reflexivity.
Qed.

Lemma NoDup_append_fresh {Row : Type} (key : Row -> Z) (table : list Row)
  (row : Row) :
  NoDup (map key table) ->
  (forall y, In y table -> key y <> key row) ->
  NoDup (map key (table ++ [row])).
Proof.
  intros Hpk Hfresh. rewrite map_app. cbn [map].
  apply (Permutation_NoDup (Permutation_cons_append (map key table) (key row))).
  constructor; [| exact Hpk].
  intros Hin. apply in_map_iff in Hin. destruct Hin as [y [Heq Hy]].
  exact (Hfresh y Hy Heq).
Qed.

(** X26. A student that an admin's request created can be marked at once
    in any session of the class the student was put in: a teacher's batch
    with one record for the new id and a valid status is accepted. *)
Theorem created_student_can_be_marked (int4in : string -> option Z)
  (varchar_in : nat -> string -> option string) (req_user : option user)
  (name roll_number class_id : Js.value) (nextval : Z) (s s1 : Store.t)
  (body : created_student) (teacher : user) (now : Z) (sess : session_row)
  (rec : attendance_record) :
  post_api_students int4in varchar_in req_user name roll_number class_id
    nextval s = (Reply 201 body, s1) ->
  int4in (Js.number_to_string (cs_class_id body)) = Some (cs_class_id body) ->
  0 < nextval ->
  primary_key_sessions s ->
  In sess (sessions s) ->
  sess_class_id sess = cs_class_id body ->
  0 < sess_id sess ->
  role teacher = "teacher" ->
  Js.parseInt (rec_student_id rec) = Some (cs_id body) ->
  includes validStatuses (record_status rec) = true ->
  fst (post_api_attendance (Some teacher) now (Js.Number (sess_id sess))
         (Some [rec]) s1)
  = Reply 201 "Attendance saved successfully".
Proof.
  intros Hcreate Hrange Hpos Hpk Hsess Hclass Hsid Hteacher Hparse Hstatus.
  destruct (post_api_students_cases int4in varchar_in req_user name
              roll_number class_id nextval s)
    as [(code & msg & Hrefused) | Hcreated].
  { rewrite Hrefused in Hcreate. discriminate Hcreate. }
  destruct Hcreated
    as (u & classIdInt & c & stored_name & stored_roll & _ & _ & _ & _
        & Hint & _ & Hfresh & Hrun).
  rewrite Hrun in Hcreate. injection Hcreate as <- <-.
  cbn [cs_class_id cs_id] in *.
  rewrite Hint in Hrange. injection Hrange as ->.
  rewrite post_api_attendance_teacher by exact Hteacher.
  assert (Hids : studentIds_of [rec] = [nextval]).
  { rewrite studentIds_of_cons, Hparse.
    replace (0 <? nextval) with true by (symmetry; apply Z.ltb_lt; exact Hpos).
    reflexivity. }
  rewrite (commitAttendance_accepted now (Js.Number (sess_id sess)) [rec] _
             (sess_id sess) (sess_class_id sess) []).
  - reflexivity.
  - unfold Js.parseInt. cbn [Js.to_string]. apply parseInt_number_to_string.
  - exact Hsid.
  - exact (select_session_class_found _ sess Hpk Hsess).
  - rewrite Hids. discriminate.
  - intros r [<- | []]. exact Hstatus.
  - rewrite Hids. intros id [<- | []]. cbn [students]. rewrite map_app.
    apply in_or_app. right. left. reflexivity.
  - rewrite Hids. unfold select_students_in_class. cbn [students].
    rewrite filter_app.
    rewrite (filter_all_false _ (students s)).
    + cbn [filter existsb st_id st_class_id app orb].
      rewrite Z.eqb_refl, Hclass, Z.eqb_refl. reflexivity.
    + intros st Hst. cbn [existsb].
      replace (st_id st =? nextval) with false
        by (symmetry; apply Z.eqb_neq; exact (Hfresh st Hst)).
      reflexivity.
Qed.

Lemma created_student_can_be_marked_witness :
  post_api_students Js.parseInt_string DemoInput.varchar (Some Demo.admin)
    (Js.Str "divya") Js.Undefined (Js.Str "1") 4 Demo.marked
  = (Reply 201 {| cs_id := 4; cs_name := Js.Str "divya";
                  cs_roll_number := Js.Null; cs_class_id := 1 |},
     snd (post_api_students Js.parseInt_string DemoInput.varchar
            (Some Demo.admin) (Js.Str "divya") Js.Undefined (Js.Str "1") 4
            Demo.marked))
  /\ fst (post_api_attendance (Some Demo.teacher1) 1704967200
            (Js.Number (sess_id Demo.session2)) (Some [Demo.mark 4 "present"])
            (snd (post_api_students Js.parseInt_string DemoInput.varchar
                    (Some Demo.admin) (Js.Str "divya") Js.Undefined
                    (Js.Str "1") 4 Demo.marked)))
     = Reply 201 "Attendance saved successfully".
Proof.
  split; [reflexivity |].
  apply (created_student_can_be_marked Js.parseInt_string DemoInput.varchar
           (Some Demo.admin) (Js.Str "divya") Js.Undefined (Js.Str "1") 4
           Demo.marked _
           {| cs_id := 4; cs_name := Js.Str "divya";
              cs_roll_number := Js.Null; cs_class_id := 1 |}
           Demo.teacher1 1704967200 Demo.session2 (Demo.mark 4 "present")).
  - reflexivity.
  - reflexivity.
  - lia.
  - exact (pk_sessions _ schema_ok_marked).
  - right. left. reflexivity.
  - reflexivity.
  - reflexivity.
  - reflexivity.
  - reflexivity.
  - reflexivity.
Defined.

(** X27. A session that a teacher's request created for a class is in the
    session list of every student of that class, with the id the request
    was answered with. *)
Theorem created_session_is_listed (int4in : string -> option Z)
  (js_date_valid : string -> bool) (date_in : string -> option Z)
  (req_user : option user) (class_id date topic : Js.value) (nextval : Z)
  (s s1 : Store.t) (body : created_session) (student : user)
  (asked_class : Js.value) :
  post_api_sessions int4in js_date_valid date_in req_user class_id date topic
    nextval s = (Reply 201 body, s1) ->
  int4in (Js.number_to_string (cn_class_id body)) = Some (cn_class_id body) ->
  role student = "student" ->
  user_class_id student = Some (cn_class_id body) ->
  exists rows row,
    get_api_sessions int4in (Some student) asked_class s1 = Reply 200 rows
    /\ In row rows
    /\ sv_id row = cn_id body
    /\ sv_class_id row = cn_class_id body.
Proof.
  intros Hcreate Hrange Hrole Hclass.
  destruct (post_api_sessions_cases int4in js_date_valid date_in req_user
              class_id date topic nextval s)
    as [(code & msg & Hrefused) | Hcreated].
  { rewrite Hrefused in Hcreate. discriminate Hcreate. }
  destruct Hcreated
    as (u & classIdInt & c & day & _ & _ & _ & Hpos & _ & Hint
        & (cl & Hcl & Hcid) & _ & Hrun).
  rewrite Hrun in Hcreate. injection Hcreate as <- <-.
  cbn [cn_class_id cn_id] in *.
  rewrite Hint in Hrange. injection Hrange as ->.
  unfold get_api_sessions, requireAuth. rewrite Hrole, Hclass.
  cbn [String.eqb Ascii.eqb Bool.eqb orb].
  replace (classIdInt =? 0) with false by (symmetry; apply Z.eqb_neq; lia).
  eexists.
  exists {| sv_id := nextval; sv_class_id := classIdInt; sv_date := day;
            sv_topic := text_or_null topic; sv_class_name := c_name cl |}.
  split; [reflexivity |]. split; [| split; reflexivity].
  apply order_by_In. apply filter_In. split.
  - unfold sessions_with_class. apply in_map_iff.
    exists ({| sess_id := nextval; sess_class_id := classIdInt;
               sess_date := day; sess_topic := text_or_null topic |}, cl).
    split; [reflexivity |].
    apply inner_join_In. cbn [sessions classes sess_class_id].
    split; [apply in_or_app; right; left; reflexivity |].
    split; [exact Hcl |]. apply Z.eqb_eq. symmetry. exact Hcid.
  - cbn [sv_class_id]. apply Z.eqb_refl.
Qed.

Lemma created_session_is_listed_witness :
  post_api_sessions Js.parseInt_string DemoInput.date_valid DemoInput.date_of
    (Some Demo.teacher1) (Js.Number 1) (Js.Str "2024-01-12") (Js.Str "Waves")
    3 Demo.marked
  = (Reply 201 {| cn_id := 3; cn_class_id := 1; cn_date := Js.Str "2024-01-12";
                  cn_topic := Js.Str "Waves" |},
     snd (post_api_sessions Js.parseInt_string DemoInput.date_valid
            DemoInput.date_of (Some Demo.teacher1) (Js.Number 1)
            (Js.Str "2024-01-12") (Js.Str "Waves") 3 Demo.marked))
  /\ exists rows row,
       get_api_sessions Js.parseInt_string (Some Demo.student_aditya)
         Js.Undefined
         (snd (post_api_sessions Js.parseInt_string DemoInput.date_valid
                 DemoInput.date_of (Some Demo.teacher1) (Js.Number 1)
                 (Js.Str "2024-01-12") (Js.Str "Waves") 3 Demo.marked))
       = Reply 200 rows
       /\ In row rows /\ sv_id row = 3 /\ sv_class_id row = 1.
Proof.
  split; [reflexivity |].
  apply (created_session_is_listed Js.parseInt_string DemoInput.date_valid
           DemoInput.date_of (Some Demo.teacher1) (Js.Number 1)
           (Js.Str "2024-01-12") (Js.Str "Waves") 3 Demo.marked _
           {| cn_id := 3; cn_class_id := 1; cn_date := Js.Str "2024-01-12";
              cn_topic := Js.Str "Waves" |}
           Demo.student_aditya Js.Undefined).
  - reflexivity.
  - reflexivity.
  - reflexivity.
  - reflexivity.
Defined.

Lemma store_ok_marked : store_ok Demo.marked.
Proof.
  split; [exact schema_ok_marked |]. split; [exact same_class_marked |].
  split; [exact (proj1 class_keys_marked) |].
  split; [exact (proj2 class_keys_marked) |].
  intros st Hst. cbn in Hst.
  destruct Hst as [<- | [<- | [<- | []]]];
    [exists Demo.class12 | exists Demo.class11 | exists Demo.class12];
    cbn; auto.
Defined.

(** X28. Whatever the request and whoever sends it, POST /api/students
    leaves a store in which the keys, the foreign keys and the cross-class
    invariant hold if they held before: a new row gets an unused id and
    the class the handler looked up. *)
Theorem post_api_students_keeps_constraints (int4in : string -> option Z)
  (varchar_in : nat -> string -> option string) (req_user : option user)
  (name roll_number class_id : Js.value) (nextval : Z) (s : Store.t) :
  store_ok s ->
  store_ok (snd (post_api_students int4in varchar_in req_user name roll_number
                   class_id nextval s)).
Proof.
  intros (Hok & Hclass & Hpkc & Hfks & Hfkst).
  destruct (post_api_students_cases int4in varchar_in req_user name
              roll_number class_id nextval s)
    as [(code & msg & ->) | Hcreated].
  { cbn [snd]. repeat (split; [assumption |]). assumption. }
  destruct Hcreated
    as (u & classIdInt & c & stored_name & stored_roll & _ & _ & _ & _
        & _ & Hcl & Hfresh & ->).
  cbn [snd].
  set (row := {| st_id := nextval; st_name := stored_name;
                 st_roll_number := stored_roll; st_class_id := c |}).
  split; [| split; [| split; [exact Hpkc | split; [exact Hfks |]]]].
  - constructor.
    + unfold primary_key_students. cbn [students].
      apply NoDup_append_fresh; [exact (pk_students s Hok) | exact Hfresh].
    + exact (pk_sessions s Hok).
    + exact (uq_attendance s Hok).
    + intros a Ha. cbn [attendance] in Ha. cbn [sessions students].
      destruct (fk_attendance s Hok a Ha) as [Hsess [st [Hst Hid]]].
      split; [exact Hsess |]. exists st.
      split; [apply in_or_app; left; exact Hst | exact Hid].
  - intros a st sess Ha Hst Hsess Hid Hsid.
    cbn [attendance students sessions] in Ha, Hst, Hsess.
    apply in_app_or in Hst. destruct Hst as [Hst | [<- | []]].
    + exact (Hclass a st sess Ha Hst Hsess Hid Hsid).
    + exfalso. cbn [st_id row] in Hid.
      destruct (fk_attendance s Hok a Ha) as [_ [st0 [Hst0 Hid0]]].
      apply (Hfresh st0 Hst0). rewrite Hid0. symmetry. exact Hid.
  - intros st Hst. cbn [students classes] in *.
    apply in_app_or in Hst. destruct Hst as [Hst | [<- | []]].
    + exact (Hfkst st Hst).
    + exact Hcl.
Qed.

Lemma post_api_students_keeps_constraints_witness :
  store_ok (snd (post_api_students Js.parseInt_string DemoInput.varchar
                   (Some Demo.admin) (Js.Str "divya") Js.Undefined (Js.Str "1")
                   4 Demo.marked)).
Proof.
  apply (post_api_students_keeps_constraints Js.parseInt_string
           DemoInput.varchar (Some Demo.admin) (Js.Str "divya") Js.Undefined
           (Js.Str "1") 4 Demo.marked).
  exact store_ok_marked.
Defined.

(** X29. Whatever the request and whoever sends it, POST /api/sessions
    leaves a store in which the keys, the foreign keys and the cross-class
    invariant hold if they held before. *)
Theorem post_api_sessions_keeps_constraints (int4in : string -> option Z)
  (js_date_valid : string -> bool) (date_in : string -> option Z)
  (req_user : option user) (class_id date topic : Js.value) (nextval : Z)
  (s : Store.t) :
  store_ok s ->
  store_ok (snd (post_api_sessions int4in js_date_valid date_in req_user
                   class_id date topic nextval s)).
Proof.
  intros (Hok & Hclass & Hpkc & Hfks & Hfkst).
  destruct (post_api_sessions_cases int4in js_date_valid date_in req_user
              class_id date topic nextval s)
    as [(code & msg & ->) | Hcreated].
  { cbn [snd]. repeat (split; [assumption |]). assumption. }
  destruct Hcreated
    as (u & classIdInt & c & day & _ & _ & _ & _ & _ & _ & Hcl & Hfresh & ->).
  cbn [snd].
  set (row := {| sess_id := nextval; sess_class_id := c; sess_date := day;
                 sess_topic := text_or_null topic |}).
  split; [| split; [| split; [exact Hpkc | split; [| exact Hfkst]]]].
  - constructor.
    + exact (pk_students s Hok).
    + unfold primary_key_sessions. cbn [sessions].
      apply NoDup_append_fresh; [exact (pk_sessions s Hok) | exact Hfresh].
    + exact (uq_attendance s Hok).
    + intros a Ha. cbn [attendance] in Ha. cbn [sessions students].
      destruct (fk_attendance s Hok a Ha) as [[sess [Hsess Hid]] Hst].
      split; [| exact Hst]. exists sess.
      split; [apply in_or_app; left; exact Hsess | exact Hid].
  - intros a st sess Ha Hst Hsess Hid Hsid.
    cbn [attendance students sessions] in Ha, Hst, Hsess.
    apply in_app_or in Hsess. destruct Hsess as [Hsess | [<- | []]].
    + exact (Hclass a st sess Ha Hst Hsess Hid Hsid).
    + exfalso. cbn [sess_id row] in Hsid.
      destruct (fk_attendance s Hok a Ha) as [[sess0 [Hsess0 Hid0]] _].
      apply (Hfresh sess0 Hsess0). rewrite Hid0. symmetry. exact Hsid.
  - intros sess Hsess. cbn [sessions classes] in *.
    apply in_app_or in Hsess. destruct Hsess as [Hsess | [<- | []]].
    + exact (Hfks sess Hsess).
    + exact Hcl.
Qed.

Lemma post_api_sessions_keeps_constraints_witness :
  store_ok (snd (post_api_sessions Js.parseInt_string DemoInput.date_valid
                   DemoInput.date_of (Some Demo.teacher1) (Js.Number 1)
                   (Js.Str "2024-01-12") (Js.Str "Waves") 3 Demo.marked)).
Proof.
  apply (post_api_sessions_keeps_constraints Js.parseInt_string
           DemoInput.date_valid DemoInput.date_of (Some Demo.teacher1)
           (Js.Number 1) (Js.Str "2024-01-12") (Js.Str "Waves") 3 Demo.marked).
  exact store_ok_marked.
Defined.

Example post_api_sessions_refusals :
  fst (post_api_sessions Js.parseInt_string DemoInput.date_valid
         DemoInput.date_of (Some Demo.admin) (Js.Number 1)
         (Js.Str "2024-01-12") Js.Undefined 3 Demo.marked)
  = Error 403 "Forbidden"
  /\ fst (post_api_sessions Js.parseInt_string DemoInput.date_valid
            DemoInput.date_of (Some Demo.teacher1) (Js.Number 1)
            (Js.Str "12-01-2024") Js.Undefined 3 Demo.marked)
     = Error 400 "Invalid date format. Use YYYY-MM-DD"
  /\ fst (post_api_sessions Js.parseInt_string DemoInput.date_valid
            DemoInput.date_of (Some Demo.teacher1) (Js.Number 7)
            (Js.Str "2024-01-12") Js.Undefined 3 Demo.marked)
     = Error 400 "Invalid class_id: class does not exist".
Proof. repeat split; reflexivity. Qed.

(** ** Ids beyond INTEGER *)

(** On tables whose ids are INTEGER the two statements of the marking
    handler fail exactly when a parameter is beyond the type. *)
Lemma query_session_class_typed (id : Z) (s : Store.t) :
  (forall sess, In sess (sessions s) -> int4 (sess_id sess) = true) ->
  query_session_class id s
  = if int4 id then Some (select_session_class id s) else None.
Proof.
  intros Htyped. unfold query_session_class.
  rewrite int4_param_typed; [reflexivity |].
  intros k Hk. apply in_map_iff in Hk. destruct Hk as [sess [<- Hsess]].
  exact (Htyped sess Hsess).
Qed.

Lemma query_students_in_class_typed (ids : list Z) (classId : Z) (s : Store.t) :
  (forall st, In st (students s) -> int4 (st_id st) = true) ->
  query_students_in_class ids classId s
  = if forallb int4 ids then Some (select_students_in_class ids classId s)
    else None.
Proof.
  intros Htyped. unfold query_students_in_class.
  replace (forallb (int4_param (map st_id (students s))) ids)
    with (forallb int4 ids); [reflexivity |].
  induction ids as [| id ids IH]; [reflexivity |]. cbn [forallb].
  rewrite IH, int4_param_typed; [reflexivity |].
  intros k Hk. apply in_map_iff in Hk. destruct Hk as [st [<- Hst]].
  exact (Htyped st Hst).
Qed.

Example beyond_integer_is_store_error :
  post_api_attendance (Some Demo.teacher1) 1704880800 (Js.Number 3000000000)
    (Some [Demo.mark 1 "present"]) Demo.store
  = (Error 500 "Database error", Demo.store)
  /\ post_api_attendance (Some Demo.teacher1) 1704880800 (Js.Number 1)
       (Some [Demo.mark 1 "present"; Demo.mark 2147483648 "absent"]) Demo.store
     = (Error 500 "Database error", Demo.store)
  /\ post_api_attendance (Some Demo.teacher1) 1704880800 (Js.Number 1)
       (Some [Demo.mark 1 "present"; Demo.mark 2147483647 "absent"]) Demo.store
     = (Error 400 "Some students do not belong to this session's class",
        Demo.store)
  /\ post_api_attendance (Some Demo.teacher1) 1704880800 (Js.Number 1)
       (Some [Demo.mark 1 "late"; Demo.mark 3000000000 "absent"]) Demo.store
     = (Error 400 invalid_status_message, Demo.store)
  /\ get_api_reports_by_student (Some Demo.admin) (Js.Str "3000000000")
       Demo.marked
     = Error 500 "Database error".
Proof. repeat split; vm_compute; reflexivity. Qed.
